(** * heritage-weaver: [tools/weaving_tools.py]

    A shallow embedding of the catalogue normalizers, the image fetchers
    and the collection store of [weaving_tools.py], and the properties
    of them that the specification states.

    Decoded JSON is the inductive type [json] and the cells of a table
    are [pyval]s; a call that can raise returns a [result]; the methods,
    which read or change the collection object, the image cache or the
    network, run in the state and exception monad [M].

    What the embedding takes from the libraries the module calls:
    - strings are sequences of code points below 256, with the
      whitespace and the letter cases Python gives those code points;
    - JSON numbers are integers;
    - a [pandas] table has distinct column labels; boolean selection,
      [reset_index], [fillna], [rename], [concat], [drop_duplicates] and
      [explode] act as their documentation says;
    - the image cache is one flat folder of files; [time.sleep], [print]
      and [tqdm] change nothing that is modelled;
    - [requests.get] returns a response or raises for want of a
      connection, as the archive decides for each request in turn;
    - loading the encoder and converting a table to a dataset do not
      raise.
    Reading and writing CSV files ([save_csv], [load_from_csv]) is left
    to [pandas] entirely and is not embedded. *)

From Stdlib Require Import ZArith Ascii String List Bool Lia.
From Stdlib Require Import Sorting.Sorted Sorting.Permutation.
From stdpp Require Import base option list gmap strings.

Local Open Scope string_scope.
Local Open Scope Z_scope.
Local Open Scope list_scope.

(** ** Python exceptions and fallible computations *)

Inductive exn : Type :=
| KeyError
| IndexError
| TypeError
| AttributeError
| ValueError
| IsADirectoryError
| FileNotFoundError
| ConnectionError
| Exception (msg : string).

Inductive result (A : Type) : Type :=
| Ok (a : A)
| Raise (e : exn).
Arguments Ok {A} a.
Arguments Raise {A} e.

Definition is_ok {A} (r : result A) : bool :=
  match r with Ok _ => true | Raise _ => false end.

Definition bind {A B} (r : result A) (f : A -> result B) : result B :=
  match r with Ok a => f a | Raise e => Raise e end.

Notation "'let*' x := e 'in' k" := (bind e (fun x => k))
  (at level 10, x name, e at level 100, k at level 200,
   format "'[v' 'let*'  x  :=  e  'in' '/' k ']'").

(** [[f(x) for x in l]]: evaluation stops at the first element that raises. *)
Fixpoint map_result {A B} (f : A -> result B) (l : list A) : result (list B) :=
  match l with
  | [] => Ok []
  | x :: l' => let* y := f x in let* ys := map_result f l' in Ok (y :: ys)
  end.

(** ** Python strings

    A [string] is a sequence of code points below 256. *)
Module Str.

(** [str.isspace] on one code point: TAB..CR, FS..US, SPACE, NEL, NBSP. *)
Definition is_space (c : ascii) : bool :=
  let n := Z.of_nat (nat_of_ascii c) in
  ((9 <=? n) && (n <=? 13)) || ((28 <=? n) && (n <=? 32))
  || (n =? 133) || (n =? 160).

Fixpoint lstrip (s : string) : string :=
  match s with
  | EmptyString => EmptyString
  | String c s' => if is_space c then lstrip s' else s
  end.

Fixpoint rstrip (s : string) : string :=
  match s with
  | EmptyString => EmptyString
  | String c s' =>
      match rstrip s' with
      | EmptyString => if is_space c then EmptyString else String c EmptyString
      | r => String c r
      end
  end.

(** [s.strip()] *)
Definition strip (s : string) : string := rstrip (lstrip s).

(** [s.split()]: the maximal runs of non-whitespace code points; [cur]
    holds the run being read, last code point first. *)
Fixpoint split_go (s : string) (cur : list ascii) : list string :=
  match s with
  | EmptyString =>
      match cur with
      | [] => []
      | _ => [string_of_list_ascii (rev cur)]
      end
  | String c s' =>
      if is_space c then
        match cur with
        | [] => split_go s' []
        | _ => string_of_list_ascii (rev cur) :: split_go s' []
        end
      else split_go s' (c :: cur)
  end.

Definition split (s : string) : list string := split_go s [].

(** [sep.join(l)] *)
Definition join (sep : string) (l : list string) : string :=
  String.concat sep l.

(** [s.replace(a, b)] for single code points [a] and [b]. *)
Fixpoint replace (a b : ascii) (s : string) : string :=
  match s with
  | EmptyString => EmptyString
  | String c s' =>
      String (if Ascii.eqb c a then b else c) (replace a b s')
  end.

(** [s.split(sep)] for a single code point [sep]: never the empty list. *)
Fixpoint split_on_go (sep : ascii) (s : string) (cur : list ascii) : list string :=
  match s with
  | EmptyString => [string_of_list_ascii (rev cur)]
  | String c s' =>
      if Ascii.eqb c sep
      then string_of_list_ascii (rev cur) :: split_on_go sep s' []
      else split_on_go sep s' (c :: cur)
  end.

Definition split_on (sep : ascii) (s : string) : list string :=
  split_on_go sep s [].

(** [s.startswith(p)] *)
Definition startswith (p s : string) : bool := String.prefix p s.

(** [s.endswith(p)] *)
Fixpoint endswith (p s : string) : bool :=
  String.eqb s p ||
  match s with
  | EmptyString => false
  | String _ s' => endswith p s'
  end.

(** [c in s] for a single code point [c]. *)
Fixpoint contains (c : ascii) (s : string) : bool :=
  match s with
  | EmptyString => false
  | String c' s' => Ascii.eqb c c' || contains c s'
  end.

(** [s.lower()]: A..Z and the upper-case letters of Latin-1. *)
Definition lower_char (c : ascii) : ascii :=
  let n := Z.of_nat (nat_of_ascii c) in
  if ((65 <=? n) && (n <=? 90))
     || ((192 <=? n) && (n <=? 222) && negb (n =? 215))
  then ascii_of_nat (Z.to_nat (n + 32)) else c.

Fixpoint lower (s : string) : string :=
  match s with
  | EmptyString => EmptyString
  | String c s' => String (lower_char c) (lower s')
  end.

(** The code points of a string, as iterating over it yields them. *)
Fixpoint chars (s : string) : list string :=
  match s with
  | EmptyString => []
  | String c s' => String c EmptyString :: chars s'
  end.

(** [' '.join(s.split())] *)
Definition collapse (s : string) : string := join " " (split s).

End Str.

(** ** Paths ([pathlib.PurePosixPath])

    A path is the list of its components; an absolute path starts with
    the component ["/"]. *)
Module Path.

Definition t : Type := list string.

Definition is_part (s : string) : bool :=
  negb (String.eqb s "") && negb (String.eqb s ".").

Definition parts (s : string) : list string :=
  List.filter is_part (Str.split_on "/" s).

(** [Path(s)] *)
Definition of_string (s : string) : t :=
  if Str.startswith "/" s then "/" :: parts s else parts s.

(** [p / s] *)
Definition div (p : t) (s : string) : t :=
  if Str.startswith "/" s then of_string s else p ++ parts s.

(** [str(p)] *)
Definition to_string (p : t) : string :=
  match p with
  | [] => "."
  | "/" :: q => "/" +:+ Str.join "/" q
  | _ => Str.join "/" p
  end.

(** [p.name], the final component. *)
Definition name (p : t) : string := List.last p "".

End Path.

(** ** Decoded JSON

    What [json.loads] returns for one line of the dump. JSON numbers are
    the integers; a dictionary is the list of its items in insertion
    order, with distinct keys. *)
#[local] Set Warnings "-register-all".

Inductive json : Type :=
| JNull
| JBool (b : bool)
| JInt (z : Z)
| JStr (s : string)
| JList (l : list json)
| JDict (items : list (string * json)).

(** ** Python values in the cells of a table *)
Inductive pyval : Type :=
| VNone
| VNaN
| VBool (b : bool)
| VInt (z : Z)
| VStr (s : string)
| VPath (p : Path.t)
| VImage (content : string)
| VList (l : list pyval)
| VDict (items : list (string * pyval)).

Fixpoint assoc {A} (k : string) (items : list (string * A)) : option A :=
  match items with
  | [] => None
  | (k', v) :: items' => if String.eqb k k' then Some v else assoc k items'
  end.

Module Json.

(** The Python object a decoded JSON value is. *)
Fixpoint to_py (j : json) : pyval :=
  match j with
  | JNull => VNone
  | JBool b => VBool b
  | JInt z => VInt z
  | JStr s => VStr s
  | JList l => VList (List.map to_py l)
  | JDict items => VDict (List.map (fun kv => (fst kv, to_py (snd kv))) items)
  end.

(** [bool(j)], as in [if terms:]. *)
Definition truthy (j : json) : bool :=
  match j with
  | JNull => false
  | JBool b => b
  | JInt z => negb (z =? 0)
  | JStr s => negb (String.eqb s "")
  | JList l => match l with [] => false | _ => true end
  | JDict items => match items with [] => false | _ => true end
  end.

(** [j.get(k, dflt)]: only a dictionary has the method. *)
Definition get (j : json) (k : string) (dflt : json) : result json :=
  match j with
  | JDict items => Ok (default dflt (assoc k items))
  | _ => Raise AttributeError
  end.

(** [j[k]] for a string [k]. *)
Definition getitem (j : json) (k : string) : result json :=
  match j with
  | JDict items =>
      match assoc k items with Some v => Ok v | None => Raise KeyError end
  | _ => Raise TypeError
  end.

(** [j[0]]: the keys of a dictionary are strings, so [0] is none of them. *)
Definition getitem0 (j : json) : result json :=
  match j with
  | JList (x :: _) => Ok x
  | JList [] => Raise IndexError
  | JStr (String c _) => Ok (JStr (String c EmptyString))
  | JStr EmptyString => Raise IndexError
  | JDict _ => Raise KeyError
  | _ => Raise TypeError
  end.

(** [for x in j]: a dictionary yields its keys, a string its code points. *)
Definition iter (j : json) : result (list json) :=
  match j with
  | JList l => Ok l
  | JDict items => Ok (List.map (fun kv => JStr (fst kv)) items)
  | JStr s => Ok (List.map JStr (Str.chars s))
  | _ => Raise TypeError
  end.

(** [j.strip()]: only a string has the method. *)
Definition strip (j : json) : result string :=
  match j with
  | JStr s => Ok (Str.strip s)
  | _ => Raise AttributeError
  end.

(** [j.replace(a, b)] *)
Definition replace (a b : ascii) (j : json) : result string :=
  match j with
  | JStr s => Ok (Str.replace a b s)
  | _ => Raise AttributeError
  end.

End Json.

(** ** Dictionary keys and [sorted]

    The keys of the dictionary that [process_json_record] builds from
    the [sort] entries: [True] and [1] are the same key, lists and
    dictionaries are unhashable. *)
Inductive key : Type :=
| KNone
| KInt (z : Z)
| KStr (s : string).

Module Key.

Definition hash (j : json) : result key :=
  match j with
  | JNull => Ok KNone
  | JBool b => Ok (KInt (if b then 1 else 0))
  | JInt z => Ok (KInt z)
  | JStr s => Ok (KStr s)
  | JList _ | JDict _ => Raise TypeError
  end.

Definition eqb (a b : key) : bool :=
  match a, b with
  | KNone, KNone => true
  | KInt x, KInt y => x =? y
  | KStr x, KStr y => String.eqb x y
  | _, _ => false
  end.

(** [a < b]: numbers with numbers, strings with strings by code point. *)
Definition lt (a b : key) : result bool :=
  match a, b with
  | KInt x, KInt y => Ok (x <? y)
  | KStr x, KStr y => Ok (String.ltb x y)
  | _, _ => Raise TypeError
  end.

(** [d[k] = v]: a key already present keeps its place. *)
Fixpoint setitem {A} (k : key) (v : A) (d : list (key * A)) : list (key * A) :=
  match d with
  | [] => [(k, v)]
  | (k', v') :: d' =>
      if eqb k k' then (k', v) :: d' else (k', v') :: setitem k v d'
  end.

Fixpoint insert_sorted {A} (x : key * A) (l : list (key * A))
  : result (list (key * A)) :=
  match l with
  | [] => Ok [x]
  | y :: l' =>
      let* b := lt (fst x) (fst y) in
      if b then Ok (x :: y :: l')
      else let* l'' := insert_sorted x l' in Ok (y :: l'')
  end.

(** [sorted(d.items())]: the keys of [d] are distinct, so they alone
    decide the order, and two keys that cannot be compared raise. *)
Fixpoint sorted {A} (d : list (key * A)) : result (list (key * A)) :=
  match d with
  | [] => Ok []
  | x :: d' => let* l := sorted d' in insert_sorted x l
  end.

End Key.

(** ** Tables ([pandas.DataFrame])

    A table has distinct column labels, a row index and its rows, each as
    long as the list of columns. *)
Inductive index : Type :=
| RangeIndex (n : nat)
| Index (name : option string) (labels : list pyval).

Record DataFrame : Type := mkDataFrame {
  columns : list string;
  index_ : index;
  data : list (list pyval)
}.

Module pd.

Definition range (n : nat) : list pyval :=
  List.map (fun i => VInt (Z.of_nat i)) (seq 0 n).

Definition labels (i : index) : list pyval :=
  match i with
  | RangeIndex n => range n
  | Index _ l => l
  end.

Definition index_name (i : index) : option string :=
  match i with
  | RangeIndex _ => None
  | Index name _ => name
  end.

Fixpoint position (c : string) (cols : list string) : option nat :=
  match cols with
  | [] => None
  | c' :: cols' =>
      if String.eqb c c' then Some O else option_map S (position c cols')
  end.

Definition has_column (c : string) (df : DataFrame) : bool :=
  match position c (columns df) with Some _ => true | None => false end.

Definition cell (i : nat) (row : list pyval) : pyval := nth i row VNaN.

(** [df[c]]; [df.c] is the same but for the exception. *)
Definition getitem (df : DataFrame) (c : string) : result (list pyval) :=
  match position c (columns df) with
  | Some i => Ok (List.map (cell i) (data df))
  | None => Raise KeyError
  end.

Definition getattr (df : DataFrame) (c : string) : result (list pyval) :=
  match position c (columns df) with
  | Some i => Ok (List.map (cell i) (data df))
  | None => Raise AttributeError
  end.

(** [pd.DataFrame(data, columns=cols)] *)
Definition from_rows (rows : list (list pyval)) (cols : list string) : DataFrame :=
  mkDataFrame cols (RangeIndex (length rows)) rows.

(** [pd.isnull(v)] *)
Definition isnull (v : pyval) : bool :=
  match v with VNone | VNaN => true | _ => false end.

(** [bool(v)] of a cell. *)
Definition truthy (v : pyval) : bool :=
  match v with
  | VNone => false
  | VBool b => b
  | VInt z => negb (z =? 0)
  | VStr s => negb (String.eqb s "")
  | VList l => match l with [] => false | _ => true end
  | VDict items => match items with [] => false | _ => true end
  | VNaN | VPath _ | VImage _ => true
  end.

(** [df.fillna(v, inplace=True)] *)
Definition fillna (v : pyval) (df : DataFrame) : DataFrame :=
  mkDataFrame (columns df) (index_ df)
    (List.map (List.map (fun x => if isnull x then v else x)) (data df)).

(** [v == True] and [v == False], cell by cell: [1 == True], [0 == False]. *)
Definition eq_bool (b : bool) (v : pyval) : bool :=
  match v with
  | VBool b' => Bool.eqb b b'
  | VInt z => z =? (if b then 1 else 0)
  | _ => false
  end.

(** [v != s] for a string [s]. *)
Definition ne_str (s : string) (v : pyval) : bool :=
  match v with
  | VStr s' => negb (String.eqb s' s)
  | _ => true
  end.

Fixpoint mask {A} (m : list bool) (l : list A) : list A :=
  match m, l with
  | b :: m', x :: l' => if b then x :: mask m' l' else mask m' l'
  | _, _ => []
  end.

(** [df[m]] for a boolean column [m]: the rows kept bring their labels. *)
Definition select (m : list bool) (df : DataFrame) : DataFrame :=
  mkDataFrame (columns df)
    (Index (index_name (index_ df)) (mask m (labels (index_ df))))
    (mask m (data df)).

Fixpoint zip_cons {A} (xs : list A) (rows : list (list A)) : list (list A) :=
  match xs, rows with
  | x :: xs', r :: rows' => (x :: r) :: zip_cons xs' rows'
  | _, _ => []
  end.

(** [df.reset_index()]: the old index becomes the first column, named
    after the index, or [index], or [level_0] when [index] is taken; a
    name taken already raises. *)
Definition reset_index (df : DataFrame) : result DataFrame :=
  let name :=
    match index_name (index_ df) with
    | Some n => n
    | None => if has_column "index" df then "level_0" else "index"
    end in
  if has_column name df then Raise ValueError
  else
    let rows := zip_cons (labels (index_ df)) (data df) in
    Ok (mkDataFrame (name :: columns df) (RangeIndex (length rows)) rows).

(** [df[c] = values]: a new column goes last. *)
Definition setitem (c : string) (values : list pyval) (df : DataFrame) : DataFrame :=
  match position c (columns df) with
  | Some i =>
      mkDataFrame (columns df) (index_ df)
        (zip_with (fun v row => <[i := v]> row) values (data df))
  | None =>
      mkDataFrame (columns df ++ [c]) (index_ df)
        (zip_with (fun v row => row ++ [v]) values (data df))
  end.

(** [df.rename(mapping, axis=1)] *)
Definition rename (mapping : list (string * string)) (df : DataFrame) : DataFrame :=
  mkDataFrame (List.map (fun c => default c (assoc c mapping)) (columns df))
    (index_ df) (data df).

(** [df[cols]] for a list of labels. *)
Definition project (cols : list string) (df : DataFrame) : result DataFrame :=
  let* ps := map_result
               (fun c => match position c (columns df) with
                         | Some i => Ok i
                         | None => Raise KeyError
                         end) cols in
  Ok (mkDataFrame cols (index_ df)
        (List.map (fun row => List.map (fun i => cell i row) ps) (data df))).

(** [pd.concat(dfs, axis=0)] of tables with the same columns. *)
Definition concat (cols : list string) (dfs : list DataFrame) : DataFrame :=
  mkDataFrame cols
    (Index None (List.concat (List.map (fun t => labels (index_ t)) dfs)))
    (List.concat (List.map data dfs)).

(** Whether two cells count as duplicates of each other. *)
Definition same (v w : pyval) : bool :=
  match v, w with
  | (VNone | VNaN), (VNone | VNaN) => true
  | VBool a, VBool b => Bool.eqb a b
  | VInt a, VInt b => a =? b
  | VBool a, VInt b | VInt b, VBool a => b =? (if a then 1 else 0)
  | VStr a, VStr b => String.eqb a b
  | VPath a, VPath b => bool_decide (a = b)
  | _, _ => false
  end.

(** [df.drop_duplicates(subset=[c])]: the first row of each value stays. *)
Fixpoint first_of_each (i : nat) (seen : list pyval)
    (ls : list pyval) (rows : list (list pyval))
  : list pyval * list (list pyval) :=
  match ls, rows with
  | l :: ls', r :: rows' =>
      if existsb (same (cell i r)) seen then first_of_each i seen ls' rows'
      else let '(ls'', rows'') := first_of_each i (cell i r :: seen) ls' rows' in
           (l :: ls'', r :: rows'')
  | _, _ => ([], [])
  end.

Definition drop_duplicates (c : string) (df : DataFrame) : result DataFrame :=
  match position c (columns df) with
  | Some i =>
      let '(ls, rows) := first_of_each i [] (labels (index_ df)) (data df) in
      Ok (mkDataFrame (columns df) (Index (index_name (index_ df)) ls) rows)
  | None => Raise KeyError
  end.

(** [df.explode(c)]: a row whose cell is a list becomes one row for
    each element, or one row with [NaN] for the empty list. *)
Definition explode_row (i : nat) (l : pyval) (row : list pyval)
  : list (pyval * list pyval) :=
  match cell i row with
  | VList [] => [(l, <[i := VNaN]> row)]
  | VList xs => List.map (fun x => (l, <[i := x]> row)) xs
  | _ => [(l, row)]
  end.

Definition explode (c : string) (df : DataFrame) : result DataFrame :=
  match position c (columns df) with
  | Some i =>
      let rows := List.concat
                    (zip_with (explode_row i) (labels (index_ df)) (data df)) in
      Ok (mkDataFrame (columns df)
            (Index (index_name (index_ df)) (List.map fst rows))
            (List.map snd rows))
  | None => Raise KeyError
  end.

End pd.

(** ** The collection object and its environment

    [state] holds the attributes of [self] and what the methods reach
    outside it: the files of the image cache, the requests sent so far,
    the remote archive and the encoder. *)
Inductive model : Type :=
| SentenceTransformer (ckpt : string).

(** What [requests.get] meets: a response, or no connection. *)
Inductive reply : Type :=
| Response (status_code : Z) (content : string)
| Unreachable.

(** A [datasets.Dataset], row by row; each row maps column names to values. *)
Definition Dataset : Type := list (list (string * pyval)).

Record state : Type := mkState {
  (* attributes of [self] *)
  df : option DataFrame;
  img_folder : Path.t;
  images : gset Path.t;
  dataset : option Dataset;
  clip_model : option model;
  clip_model_ckpt : option string;
  collection_name : option string;
  (* the environment *)
  fs : gmap Path.t string;
  requests_ : list string;
  remote : nat -> string -> reply;
  encode : model -> pyval -> result pyval
}.

Definition set_df (v : option DataFrame) (s : state) : state :=
  mkState v (img_folder s) (images s) (dataset s) (clip_model s)
    (clip_model_ckpt s) (collection_name s) (fs s) (requests_ s) (remote s)
    (encode s).

Definition set_images (v : gset Path.t) (s : state) : state :=
  mkState (df s) (img_folder s) v (dataset s) (clip_model s)
    (clip_model_ckpt s) (collection_name s) (fs s) (requests_ s) (remote s)
    (encode s).

Definition set_dataset (v : option Dataset) (s : state) : state :=
  mkState (df s) (img_folder s) (images s) v (clip_model s)
    (clip_model_ckpt s) (collection_name s) (fs s) (requests_ s) (remote s)
    (encode s).

Definition set_clip_model (v : option model) (s : state) : state :=
  mkState (df s) (img_folder s) (images s) (dataset s) v
    (clip_model_ckpt s) (collection_name s) (fs s) (requests_ s) (remote s)
    (encode s).

Definition set_clip_model_ckpt (v : option string) (s : state) : state :=
  mkState (df s) (img_folder s) (images s) (dataset s) (clip_model s)
    v (collection_name s) (fs s) (requests_ s) (remote s) (encode s).

Definition set_collection_name (v : option string) (s : state) : state :=
  mkState (df s) (img_folder s) (images s) (dataset s) (clip_model s)
    (clip_model_ckpt s) v (fs s) (requests_ s) (remote s) (encode s).

Definition set_fs (v : gmap Path.t string) (s : state) : state :=
  mkState (df s) (img_folder s) (images s) (dataset s) (clip_model s)
    (clip_model_ckpt s) (collection_name s) v (requests_ s) (remote s)
    (encode s).

Definition set_requests (v : list string) (s : state) : state :=
  mkState (df s) (img_folder s) (images s) (dataset s) (clip_model s)
    (clip_model_ckpt s) (collection_name s) (fs s) v (remote s) (encode s).

(** The state and exception monad of the methods: an exception leaves
    the state as it was when it was raised. *)
Definition M (A : Type) : Type := state -> state * result A.

Definition ret {A} (a : A) : M A := fun s => (s, Ok a).

Definition raise {A} (e : exn) : M A := fun s => (s, Raise e).

Definition bindM {A B} (m : M A) (f : A -> M B) : M B :=
  fun s =>
    match m s with
    | (s', Ok a) => f a s'
    | (s', Raise e) => (s', Raise e)
    end.

Definition lift {A} (r : result A) : M A := fun s => (s, r).

Definition gets {A} (f : state -> A) : M A := fun s => (s, Ok (f s)).

Definition modify (f : state -> state) : M unit := fun s => (f s, Ok tt).

Notation "'let!' x := e 'in' k" := (bindM e (fun x => k))
  (at level 10, x name, e at level 100, k at level 200,
   format "'[v' 'let!'  x  :=  e  'in' '/' k ']'").

Notation "e ;; k" := (bindM e (fun _ => k))
  (at level 100, k at level 200, right associativity).

(** [for x in l: f(x)] *)
Fixpoint for_each {A} (f : A -> M unit) (l : list A) : M unit :=
  match l with
  | [] => ret tt
  | x :: l' => f x ;; for_each f l'
  end.

(** [[f(x) for x in l]] *)
Fixpoint mapM {A B} (f : A -> M B) (l : list A) : M (list B) :=
  match l with
  | [] => ret []
  | x :: l' => let! y := f x in let! ys := mapM f l' in ret (y :: ys)
  end.

(** ** The file system and the network *)
Module os.

(** The files right under [folder] whose name satisfies [pat]:
    [set(folder.glob(pattern))]. *)
Definition child_of (folder p : Path.t) : bool :=
  bool_decide (p = folder ++ [Path.name p]).

Definition glob (folder : Path.t) (pat : string -> bool)
    (files : gmap Path.t string) : gset Path.t :=
  filter (fun p => Is_true (child_of folder p && pat (Path.name p)))
    (dom files).

(** The patterns [*.jpg] and [*.*]. *)
Definition star_jpg (n : string) : bool := Str.endswith ".jpg" n.
Definition star_dot_star (n : string) : bool := Str.contains "." n.

(** [p.is_file()] *)
Definition is_file (p : Path.t) : M bool :=
  gets (fun s => bool_decide (is_Some (fs s !! p))).

(** [with open(p, 'wb') as f: f.write(content)]: the cache folder
    itself and [..] are directories, and the cache is flat, so there is
    no folder to hold a file further down. *)
Definition write_bytes (p : Path.t) (content : string) : M unit :=
  let! folder := gets img_folder in
  if bool_decide (p = folder) || String.eqb (Path.name p) ".."
  then raise IsADirectoryError
  else if negb (child_of folder p) then raise FileNotFoundError
  else modify (fun s => set_fs (<[p := content]> (fs s)) s).

End os.

Module requests.

(** [requests.get(url)]: the request is sent, and logged, whether or
    not the archive answers. *)
Definition get (url : string) : M (Z * string) :=
  fun s =>
    let s' := set_requests (requests_ s ++ [url]) s in
    match remote s (length (requests_ s)) url with
    | Response status_code content => (s', Ok (status_code, content))
    | Unreachable => (s', Raise ConnectionError)
    end.

End requests.

(** ** Helper functions *)

(** [d[k] = v] on a row of a dataset. *)
Fixpoint setitem (k : string) (v : pyval) (d : list (string * pyval))
  : list (string * pyval) :=
  match d with
  | [] => [(k, v)]
  | (k', v') :: d' =>
      if String.eqb k k' then (k', v) :: d' else (k', v') :: setitem k v d'
  end.

Definition getitem (d : list (string * pyval)) (k : string) : result pyval :=
  match assoc k d with Some v => Ok v | None => Raise KeyError end.

(** [t.lower()] *)
Definition py_lower (t : pyval) : result pyval :=
  match t with
  | VStr s => Ok (VStr (Str.lower s))
  | _ => Raise AttributeError
  end.

(** [lower_case(examples, target_col)]: called row by row, [examples] is
    one row, and the comprehension runs over the value of the column. *)
Definition lower_case (examples : list (string * pyval)) (target_col : string)
  : result (list (string * pyval)) :=
  let* v := getitem examples target_col in
  let* ts :=
    match v with
    | VStr s => Ok (List.map VStr (Str.chars s))
    | VList l => Ok l
    | VDict items => Ok (List.map (fun kv => VStr (fst kv)) items)
    | _ => Raise TypeError
    end in
  let* ls := map_result py_lower ts in
  Ok [("text", VList ls)].

(** [open_image(record, target_col)] *)
Definition open_image (record : list (string * pyval)) (target_col : string)
  : M (list (string * pyval)) :=
  let! v := lift (getitem record target_col) in
  let! p :=
    match v with
    | VStr s => ret (Path.of_string s)
    | VPath p => ret p
    | _ => raise AttributeError
    end in
  let! files := gets fs in
  match files !! p with
  | Some content => ret [("image", VImage content)]
  | None => raise FileNotFoundError
  end.

(** [Dataset.from_pandas(df)]: an index that is not a [RangeIndex]
    becomes a column. *)
Definition from_pandas (t : DataFrame) : Dataset :=
  match index_ t with
  | RangeIndex _ => List.map (fun row => zip (columns t) row) (data t)
  | Index name labels =>
      zip_with
        (fun l row =>
           zip (columns t) row ++ [(default "__index_level_0__" name, l)])
        labels (data t)
  end.

(** [ds.map(f)]: each row is updated with the items [f] returns for it. *)
Definition update (row upd : list (string * pyval)) : list (string * pyval) :=
  fold_left (fun r kv => setitem (fst kv) (snd kv) r) upd row.

Definition map_dataset (f : list (string * pyval) -> M (list (string * pyval)))
    (ds : Dataset) : M Dataset :=
  mapM (fun row => let! upd := f row in ret (update row upd)) ds.

(** ** Generic collection class *)
Module MultiModalCollection.

(** [self.df], [self.dataset]: an attribute that is [None] or missing
    has none of the attributes the methods ask of it. *)
Definition the {A} (o : option A) : M A :=
  match o with Some a => ret a | None => raise AttributeError end.

Definition __init__ (t : option DataFrame) (folder : string) : M unit :=
  modify (fun s =>
    mkState t (Path.of_string folder)
      (os.glob (Path.of_string folder) os.star_jpg (fs s))
      (dataset s) (clip_model s) (clip_model_ckpt s) (collection_name s)
      (fs s) (requests_ s) (remote s) (encode s)).

Definition to_dataset : M unit :=
  let! t := gets df in
  let! t := the t in
  modify (set_dataset (Some (from_pandas t))).

Definition filter_records : M unit :=
  let! t := gets df in
  let! t := the t in
  let! downloaded := lift (pd.getattr t "downloaded") in
  let! description := lift (pd.getitem t "description") in
  let m := zip_with andb
             (List.map (pd.eq_bool true) downloaded)
             (List.map (fun v => negb (pd.isnull v)) description) in
  let! t' := lift (pd.reset_index (pd.select m t)) in
  modify (set_df (Some t')) ;;
  to_dataset.


Definition extract_clip_embedding (record : list (string * pyval))
    (modality : string) : M (list (string * pyval)) :=
  let! m := gets clip_model in
  let! m := the m in
  let! x := lift (getitem record modality) in
  let! enc := gets encode in
  let! v := lift (enc m x) in
  ret [("clip_" +:+ modality +:+ "_embedding", v)].

Definition load_clip_model (clip_model_ckpt : string) : M unit :=
  modify (set_clip_model_ckpt (Some clip_model_ckpt)) ;;
  modify (set_clip_model (Some (SentenceTransformer clip_model_ckpt))).

Definition embed_clip (target_col modality model_ckpt : string) : M unit :=
  let! m := gets clip_model in
  (if m is None then load_clip_model model_ckpt else ret tt) ;;
  (if String.eqb modality "text" then
     let! ds := gets dataset in
     let! ds := the ds in
     let! ds := map_dataset (fun r => lift (lower_case r target_col)) ds in
     modify (set_dataset (Some ds))
   else if String.eqb modality "image" then
     let! ds := gets dataset in
     let! ds := the ds in
     let! ds := map_dataset (fun r => open_image r target_col) ds in
     modify (set_dataset (Some ds))
   else raise (Exception "Modality has to be either 'text' or 'image")) ;;
  let! ds := gets dataset in
  let! ds := the ds in
  let! ds := map_dataset (fun r => extract_clip_embedding r modality) ds in
  modify (set_dataset (Some ds)).

Definition vectorize_collection (clip_ckpt : string) : M unit :=
  filter_records ;;
  for_each (fun tm => embed_clip (fst tm) (snd tm) clip_ckpt)
    [("img_path", "image"); ("description", "text")].

End MultiModalCollection.

(** ** SMG collection class *)
Module SMGCollection.

Definition __init__ (t : DataFrame) (folder : string) : M unit :=
  MultiModalCollection.__init__ (Some t) folder ;;
  modify (set_collection_name (Some "smg")).

(** [[s.get('value','').strip() for s in l]] *)
Definition stripped_values (l : json) : result (list string) :=
  let* ss := Json.iter l in
  map_result (fun s => let* v := Json.get s "value" (JStr "") in Json.strip v) ss.

(** [{t['sort']: t['name'][0]['value'] for t in hierarchy}] *)
Fixpoint taxonomy_dict (hierarchy : list json) (d : list (key * json))
  : result (list (key * json)) :=
  match hierarchy with
  | [] => Ok d
  | t :: hierarchy' =>
      let* k := Json.getitem t "sort" in
      let* names := Json.getitem t "name" in
      let* name := Json.getitem0 names in
      let* v := Json.getitem name "value" in
      let* k := Key.hash k in
      taxonomy_dict hierarchy' (Key.setitem k v d)
  end.

(** [img_path in self.images]: the empty string is no path. *)
Definition in_images (img_path : pyval) (imgs : gset Path.t) : bool :=
  match img_path with
  | VPath p => bool_decide (p ∈ imgs)
  | _ => false
  end.

Definition process_json_record (self : state) (record : json)
  : result (list pyval) :=
  let* record_id := Json.getitem record "_id" in
  let* source := Json.getitem record "_source" in
  let* l := Json.get source "description" (JList []) in
  let* ds := stripped_values l in
  let description := Str.join "; " ds in
  let description := Str.join " " (Str.split description) in
  let* l := Json.get source "name" (JList []) in
  let* ns := stripped_values l in
  let names := Str.join "; " ns in
  let names := Str.join " " (Str.split description) in
  let* terms := Json.get source "terms" JNull in
  let* taxonomy :=
    if Json.truthy terms then
      let* term := Json.getitem0 terms in
      let* h := Json.get term "hierarchy" (JList []) in
      let* ts := Json.iter h in
      let* taxonomy := taxonomy_dict ts [] in
      let* kvs := Key.sorted taxonomy in
      let* vs := map_result (fun kv => Json.strip (snd kv)) kvs in
      Ok (Str.join "; " vs)
    else Ok "" in
  let* multimedia := Json.get source "multimedia" JNull in
  let* img :=
    if Json.truthy multimedia then
      let* m := Json.getitem0 multimedia in
      let* m := Json.getitem m "processed" in
      let* m := Json.getitem m "medium" in
      let* img_loc := Json.getitem m "location" in
      let* img_name := Json.replace "/" "|" img_loc in
      let img_path := Path.div (img_folder self) img_name in
      Ok (Json.to_py img_loc, VStr img_name, VPath img_path)
    else Ok (VStr "", VStr "", VStr "") in
  let '(img_loc, img_name, img_path) := img in
  let downloaded := in_images img_path (images self) in
  Ok [Json.to_py record_id; VStr names; VStr description; VStr taxonomy;
      img_loc; img_name; img_path; VBool downloaded].

Definition columns : list string :=
  ["record_id"; "name"; "description"; "taxonomy"; "img_loc"; "img_name";
   "img_path"; "downloaded"].

(** [load_from_json]: [dump] holds the decoded lines of the file, in
    order. *)
Definition load_from_json (dump : list json) : M unit :=
  let! data := mapM (fun raw_record =>
                       let! self := gets id in
                       lift (process_json_record self raw_record)) dump in
  modify (set_df (Some (pd.from_rows data columns))) ;;
  modify (fun s => set_df (option_map (pd.fillna (VStr "")) (df s)) s).

Definition base_url : string :=
  "https://coimages.sciencemuseumgroup.org.uk/images".

(** [base_url + '/' + loc] and [loc.replace('/','|')] ask for a string. *)
Definition fetch_image (loc : pyval) : M bool :=
  let! loc := match loc with VStr l => ret l | _ => raise TypeError end in
  let url := base_url +:+ "/" +:+ loc in
  let img_name := Str.replace "/" "|" loc in
  let! request := requests.get url in
  if fst request =? 200 then
    let! folder := gets img_folder in
    os.write_bytes (Path.div folder img_name) (snd request) ;;
    ret true
  else ret false.

(** [l[:n]] *)
Definition slice_to {A} (n : Z) (l : list A) : list A :=
  if 0 <=? n then firstn (Z.to_nat n) l
  else firstn (length l - Z.to_nat (- n))%nat l.

(** The [img_loc] of the rows not downloaded yet. *)
Definition pending (t : DataFrame) : result (list pyval) :=
  let* downloaded := pd.getattr t "downloaded" in
  let* img_loc := pd.getattr t "img_loc" in
  let m := zip_with andb
             (List.map (pd.eq_bool false) downloaded)
             (List.map (pd.ne_str "") img_loc) in
  pd.getattr (pd.select m t) "img_loc".

Definition fetch_images (max_images : Z) : M unit :=
  let! t := gets df in
  let! t := MultiModalCollection.the t in
  let! img_locs_all := lift (pending t) in
  let img_locs := slice_to max_images img_locs_all in
  let! _ := mapM fetch_image img_locs in
  modify (fun s => set_images (os.glob (img_folder s) os.star_dot_star (fs s)) s).

End SMGCollection.

(** ** BT collection class *)

(** A [DScribeRecord] element: its children, as tag and text; the text
    of an empty element is [None]. *)
Definition element : Type := list (string * option string).

Module BTCollection.

Definition __init__ (t : option DataFrame) (folder : string) : M unit :=
  MultiModalCollection.__init__ t folder.

Definition find_and_get_text (record : element) (tag : string) : pyval :=
  match assoc tag record with
  | Some (Some text) => VStr text
  | Some None => VNone
  | None => VStr ""
  end.

Definition columns : list string :=
  ["RefNo"; "Title"; "Thumbnail"; "Description"].

(** [load_from_xml]: [records] are the elements that
    [tree.xpath('//DScribeRecord')] selects. *)
Definition load_from_xml (records : list element) : M unit :=
  let data := List.map (fun r => List.map (find_and_get_text r) columns) records in
  let t := pd.from_rows data columns in
  let! folder := gets img_folder in
  let! thumbnail := lift (pd.getattr t "Thumbnail") in
  let t := pd.setitem "img_path"
             (List.map (fun x => if pd.truthy x
                                 then match x with
                                      | VStr s => VPath (Path.div folder s)
                                      | _ => x
                                      end
                                 else x) thumbnail) t in
  let! img_path := lift (pd.getattr t "img_path") in
  let! downloaded :=
    mapM (fun x => if pd.truthy x
                   then match x with
                        | VPath p => let! b := os.is_file p in ret (VBool b)
                        | _ => raise TypeError
                        end
                   else ret (VBool false)) img_path in
  let t := pd.setitem "downloaded" downloaded t in
  let t := pd.rename [("RefNo", "record_id"); ("Title", "names");
                      ("Thumbnail", "img_loc"); ("Description", "description")] t in
  modify (set_df (Some t)).

Definition base_url : string :=
  "http://www.digitalarchives.bt.com/CalmView/GetImage.ashx?db=Catalog&type=default&fname=".

(** [loc.split('/')[-1]] *)
Definition last_part (loc : string) : string :=
  List.last (Str.split_on "/" loc) "".

Definition fetch_image (loc : string) : M bool :=
  let url := base_url +:+ "/" +:+ loc in
  let img_name := last_part loc in
  let! request := requests.get url in
  if fst request =? 200 then
    let! folder := gets img_folder in
    os.write_bytes (Path.div folder img_name) (snd request) ;;
    ret true
  else ret false.

(** [[img for img in img_names if not (self.img_folder / img).is_file()]] *)
Fixpoint not_cached (img_names : list pyval) : M (list string) :=
  match img_names with
  | [] => ret []
  | img :: img_names' =>
      let! img := match img with VStr i => ret i | _ => raise TypeError end in
      let! folder := gets img_folder in
      let! cached := os.is_file (Path.div folder img) in
      let! rest := not_cached img_names' in
      ret (if cached then rest else img :: rest)
  end.

Definition fetch_images (n : Z) : M unit :=
  let! t := gets df in
  let! t := MultiModalCollection.the t in
  let! thumbnail := lift (pd.getattr t "Thumbnail") in
  let img_names :=
    pd.mask (List.map (fun v => negb (pd.isnull v)) thumbnail) thumbnail in
  let! img_names := not_cached img_names in
  let img_names := SMGCollection.slice_to n img_names in
  for_each (fun img => fetch_image img ;; ret tt) img_names.

End BTCollection.

(** ** NMS collection class *)
Module NMSCollection.

Definition __init__ (t : option DataFrame) (folder : string) : M unit :=
  MultiModalCollection.__init__ t folder ;;
  modify (set_collection_name (Some "nms")).

(** The intersection of the column sets, [set.intersection] applied to
    them all: the columns every table has; with no table at all the
    call has no argument and raises. *)
Definition common_columns (dfs : list DataFrame) : result (list string) :=
  match dfs with
  | [] => Raise TypeError
  | t :: dfs' =>
      Ok (List.filter (fun c => forallb (pd.has_column c) dfs') (columns t))
  end.

Definition col_mapping : list (string * string) :=
  [("priref", "record_id"); ("object_name", "name");
   ("object_category", "taxonomy"); ("reproduction.reference", "img_loc")].

Definition columns : list string :=
  ["record_id"; "name"; "description"; "taxonomy"; "img_loc"; "img_name";
   "img_path"; "downloaded"].

(** [x.split('|') if not pd.isnull(x) else []] *)
Definition split_refs (x : pyval) : result pyval :=
  if pd.isnull x then Ok (VList [])
  else match x with
       | VStr s => Ok (VList (List.map VStr (Str.split_on "|" s)))
       | _ => Raise AttributeError
       end.

(** [x + '.jpg' if not pd.isnull(x) else x] *)
Definition jpg_name (x : pyval) : result pyval :=
  if pd.isnull x then Ok x
  else match x with
       | VStr s => Ok (VStr (s +:+ ".jpg"))
       | _ => Raise TypeError
       end.

(** [str(x)] for what the [img_path] column holds: a path or a missing
    value. *)
Definition str (x : pyval) : result pyval :=
  match x with
  | VPath p => Ok (VStr (Path.to_string p))
  | VNaN => Ok (VStr "nan")
  | VNone => Ok (VStr "None")
  | VStr s => Ok x
  | _ => Raise TypeError
  end.

(** [load_original_csvs]: [dfs] are the tables [pd.read_csv] returns
    for the files. *)
Definition load_original_csvs (dfs : list DataFrame) : M unit :=
  let! col_names := lift (common_columns dfs) in
  let! dfs := lift (map_result (pd.project col_names) dfs) in
  let t := pd.concat col_names dfs in
  let! t := lift (pd.drop_duplicates "priref" t) in
  let! t := lift (pd.reset_index t) in
  let t := pd.rename col_mapping t in
  let! img_loc := lift (pd.getitem t "img_loc") in
  let! img_loc := lift (map_result split_refs img_loc) in
  let t := pd.setitem "img_loc" img_loc t in
  let! t := lift (pd.explode "img_loc" t) in
  let! img_loc := lift (pd.getattr t "img_loc") in
  let! img_name := lift (map_result jpg_name img_loc) in
  let t := pd.setitem "img_name" img_name t in
  let! folder := gets img_folder in
  let! img_name := lift (pd.getattr t "img_name") in
  let! img_path :=
    lift (map_result
            (fun x => if pd.isnull x then Ok x
                      else match x with
                           | VStr s => Ok (VPath (Path.div folder s))
                           | _ => Raise TypeError
                           end) img_name) in
  let t := pd.setitem "img_path" img_path t in
  let! img_path := lift (pd.getattr t "img_path") in
  let! downloaded :=
    mapM (fun x => if pd.isnull x then ret (VBool false)
                   else match x with
                        | VPath p => let! b := os.is_file p in ret (VBool b)
                        | _ => raise AttributeError
                        end) img_path in
  let t := pd.setitem "downloaded" downloaded t in
  let! img_path := lift (pd.getitem t "img_path") in
  let! img_path := lift (map_result str img_path) in
  let t := pd.setitem "img_path" img_path t in
  let! t := lift (pd.project columns t) in
  modify (set_df (Some t)).

Definition base_url : string :=
  "https://www.nms.ac.uk/search.axd?command=getcontent&server=Detail&value=".

(** [[i for e in imgs_ids for i in e.split('|') if i.startswith('PF')]] *)
Definition pf_ids (e : pyval) : result (list string) :=
  match e with
  | VStr s => Ok (List.filter (Str.startswith "PF") (Str.split_on "|" s))
  | _ => Raise AttributeError
  end.

Definition fetch_one (img : string) : M unit :=
  let! folder := gets img_folder in
  let! cached := os.is_file (Path.div folder (img +:+ ".jpg")) in
  if cached then ret tt
  else
    let url := base_url +:+ img in
    let! request := requests.get url in
    if fst request =? 200 then
      os.write_bytes (Path.div folder (img +:+ ".jpg")) (snd request)
    else ret tt.

Definition fetch_images : M unit :=
  let! t := gets df in
  let! t := MultiModalCollection.the t in
  let! img_loc := lift (pd.getitem t "img_loc") in
  let imgs_ids := pd.mask (List.map (fun v => negb (pd.isnull v)) img_loc) img_loc in
  let! imgs_ids := lift (map_result pf_ids imgs_ids) in
  let imgs_ids := List.concat imgs_ids in
  for_each fetch_one imgs_ids.

End NMSCollection.

(** ** What the specification says, where the code is compared with it *)

(** The [names] of a record as the specification words it: the trimmed
    [value] entries of the record's [name] list, joined with ["; "] and
    whitespace-collapsed. *)
Definition spec_names (record : json) : result string :=
  let* source := Json.getitem record "_source" in
  let* l := Json.get source "name" (JList []) in
  let* ns := SMGCollection.stripped_values l in
  Ok (Str.collapse (Str.join "; " ns)).

(** The canonical schema of the specification. *)
Definition spec_columns : list string :=
  ["record_id"; "names"; "description"; "taxonomy"; "img_loc"; "img_name";
   "img_path"; "downloaded"].

(** [source] has no entry [k]. *)
Definition lacks (k : string) (record : json) : bool :=
  match Json.getitem record "_source" with
  | Ok (JDict items) => if assoc k items is None then true else false
  | _ => false
  end.

(** ** Scenarios *)

(** The record of the specification's scenario, with a name. *)
Definition clock_record : json :=
  JDict [("_id", JStr "co1");
         ("_source", JDict [
            ("description", JList [JDict [("value", JStr "A clock")];
                                   JDict [("value", JStr " with gears ")]]);
            ("name", JList [JDict [("value", JStr "Clock")]])])].

(** A record with nothing but its identifier. *)
Definition bare_record : json :=
  JDict [("_id", JStr "co2"); ("_source", JDict [])].

(** A record whose [multimedia] entry has no [processed] item. *)
Definition malformed_record : json :=
  JDict [("_id", JStr "co3");
         ("_source", JDict [("multimedia", JList [JDict []])])].

(** Where nothing is constructed yet: an empty cache, no request sent,
    and an archive that answers as [archive] says. *)
Definition blank (archive : nat -> string -> reply) : state :=
  mkState None [] ∅ None None None None ∅ [] archive
    (fun _ _ => Raise ValueError).

(** A fresh SMG collection over an empty cache, with no connection. *)
Definition offline : state :=
  (SMGCollection.__init__ (pd.from_rows [] []) "smg_imgs"
     (blank (fun _ _ => Unreachable))).1.

(** The record of an object with one image, at [loc] in the archive. *)
Definition image_record (record_id loc : string) : json :=
  JDict [("_id", JStr record_id);
         ("_source", JDict [
            ("multimedia", JList [JDict [
               ("processed", JDict [
                  ("medium", JDict [("location", JStr loc)])])]])])].

Definition five_records : list json :=
  [image_record "co1" "1/a.jpg"; image_record "co2" "2/b.jpg";
   image_record "co3" "3/c.jpg"; image_record "co4" "4/d.jpg";
   image_record "co5" "5/e.jpg"].

(** A fresh SMG collection over an empty cache; the archive answers
    every request with status 200, or with status 404. *)
Definition online : state :=
  (SMGCollection.__init__ (pd.from_rows [] []) "smg_imgs"
     (blank (fun _ _ => Response 200 "JFIF"))).1.

Definition missing : state :=
  (SMGCollection.__init__ (pd.from_rows [] []) "smg_imgs"
     (blank (fun _ _ => Response 404 "Not Found"))).1.

(** The SMG collection once the five records are loaded. *)
Definition five_pending : state :=
  (SMGCollection.load_from_json five_records online).1.

(** The same records loaded where there is no connection, and where
    the archive has none of the images. *)
Definition five_offline : state :=
  (SMGCollection.load_from_json five_records offline).1.

Definition five_missing : state :=
  (SMGCollection.load_from_json five_records missing).1.

(** The table that [filter_records] assigns to [self.df]. *)
Definition filter_table (t : DataFrame) : result DataFrame :=
  let* downloaded := pd.getattr t "downloaded" in
  let* description := pd.getitem t "description" in
  let m := zip_with andb
             (List.map (pd.eq_bool true) downloaded)
             (List.map (fun v => negb (pd.isnull v)) description) in
  pd.reset_index (pd.select m t).

(** A table of two records, one with its image in the cache. *)
Definition two_rows : DataFrame :=
  pd.from_rows
    [[VStr "co1"; VStr "Clock"; VStr "A clock"; VStr ""; VStr "1/a.jpg";
      VStr "1|a.jpg"; VStr "smg_imgs/1|a.jpg"; VBool true];
     [VStr "co2"; VStr "Lamp"; VStr "A lamp"; VStr ""; VStr "2/b.jpg";
      VStr "2|b.jpg"; VStr "smg_imgs/2|b.jpg"; VBool false]]
    SMGCollection.columns.

(** A record of the BT archive, with its four elements. *)
Definition telephone : element :=
  [("RefNo", Some "TCB 473/P 1"); ("Title", Some "Telephone No. 1");
   ("Thumbnail", Some "P1.jpg"); ("Description", Some "A candlestick telephone")].

(** An export of the NMS catalogue with one object and two images. *)
Definition nms_export : DataFrame :=
  pd.from_rows
    [[VInt 101; VStr "lamp"; VStr "Safety lamp"; VStr "Mining";
      VStr "PF1001|XX7"]]
    ["priref"; "object_name"; "description"; "object_category";
     "reproduction.reference"].

(** Fresh BT and NMS collections over an empty cache, the archive
    answering every request with status 200. *)
Definition bt_fresh : state :=
  (BTCollection.__init__ None "imgs" (blank (fun _ _ => Response 200 "JFIF"))).1.

Definition nms_fresh : state :=
  (NMSCollection.__init__ None "nms_imgs"
     (blank (fun _ _ => Response 200 "JFIF"))).1.

(** The NMS collection once the export is loaded. *)
Definition nms_loaded : state :=
  (NMSCollection.load_original_csvs [nms_export] nms_fresh).1.

(** The number of rows with [downloaded == False]. *)
Definition not_downloaded (t : DataFrame) : result nat :=
  let* downloaded := pd.getattr t "downloaded" in
  Ok (length (List.filter (pd.eq_bool false) downloaded)).

(** [s'] is [s] but for the files of the cache and the log of requests:
    the attributes of the collection, its table among them, are those of
    [s]. *)
Definition same_self (s s' : state) : Prop :=
  df s' = df s /\ img_folder s' = img_folder s /\ images s' = images s /\
  dataset s' = dataset s /\ clip_model s' = clip_model s /\
  clip_model_ckpt s' = clip_model_ckpt s /\
  collection_name s' = collection_name s /\
  remote s' = remote s /\ encode s' = encode s.

(** The request for [loc] and the state once it is logged. *)
Definition smg_url (loc : string) : string :=
  SMGCollection.base_url +:+ "/" +:+ loc.

Definition logged (url : string) (s : state) : state :=
  set_requests (requests_ s ++ [url]) s.

(** The archive answers no request with status 200. *)
Definition no_success (s : state) : Prop :=
  forall k url content, remote s k url <> Response 200 content.

(** A word of [s.split()]: not empty, and free of whitespace. *)
Fixpoint no_space (s : string) : bool :=
  match s with
  | EmptyString => true
  | String c s' => negb (Str.is_space c) && no_space s'
  end.

Definition is_token (s : string) : Prop := s <> "" /\ no_space s = true.

(** The rows that [filter_records] keeps, [i] and [j] being the places of
    [downloaded] and [description]. *)
Definition kept (i j : nat) (row : list pyval) : bool :=
  pd.eq_bool true (pd.cell i row) && negb (pd.isnull (pd.cell j row)).

Definition bt_columns : list string :=
  ["record_id"; "names"; "img_loc"; "description"; "img_path"; "downloaded"].

(** The row of one record in the table of [load_from_xml]. *)
Definition bt_row (s : state) (r : element) : list pyval :=
  let thumbnail := BTCollection.find_and_get_text r "Thumbnail" in
  let img_path :=
    match thumbnail with
    | VStr (String c x) => VPath (Path.div (img_folder s) (String c x))
    | _ => thumbnail
    end in
  [BTCollection.find_and_get_text r "RefNo";
   BTCollection.find_and_get_text r "Title";
   thumbnail;
   BTCollection.find_and_get_text r "Description";
   img_path;
   VBool match img_path with
         | VPath p => bool_decide (is_Some (fs s !! p))
         | _ => false
         end].

(** The request for the image [img] of the NMS archive. *)
Definition nms_url (img : string) : string := NMSCollection.base_url +:+ img.

(** An entry of a term's hierarchy, and a record with nothing but its
    identifier and one term. *)
Definition hierarchy_entry (e : json * string) : json :=
  JDict [("sort", fst e); ("name", JList [JDict [("value", JStr (snd e))]])].

Definition taxonomy_record (record_id : json) (entries : list (json * string))
  : json :=
  JDict [("_id", record_id);
         ("_source", JDict [
            ("terms", JList [JDict [
               ("hierarchy", JList (List.map hierarchy_entry entries))]])])].



(** The items of a dictionary with integer keys. *)
Definition int_items {A B} (f : A -> B) (l : list (Z * A)) : list (key * B) :=
  List.map (fun e => (KInt (fst e), f (snd e))) l.

(** The archive answers every request with status 200. *)
Definition always_stored (s : state) : Prop :=
  forall k url, exists content, remote s k url = Response 200 content.

(** The identifiers that [fetch_images] goes through. *)
Definition nms_ids (s : state) : result (list string) :=
  match df s with
  | None => Raise AttributeError
  | Some t =>
      let* img_loc := pd.getitem t "img_loc" in
      let* idss := map_result NMSCollection.pf_ids
                     (pd.mask (List.map (fun v => negb (pd.isnull v)) img_loc)
                        img_loc) in
      Ok (List.concat idss)
  end.

(** The request for the thumbnail [loc] of the BT archive, the cells of
    the [Thumbnail] column that are not missing, and whether a thumbnail
    is a file of the cache. *)
Definition bt_url (loc : string) : string :=
  BTCollection.base_url +:+ "/" +:+ loc.

Definition thumbnails (t : DataFrame) : result (list pyval) :=
  let* thumbnail := pd.getattr t "Thumbnail" in
  Ok (pd.mask (List.map (fun v => negb (pd.isnull v)) thumbnail) thumbnail).

Definition bt_cached (s : state) (img : string) : bool :=
  bool_decide (is_Some (fs s !! Path.div (img_folder s) img)).

(** A collection whose encoder answers with a vector, and the table of
    two records in it, filtered and ready to be embedded. *)
Definition with_encoder (s : state) : state :=
  mkState (df s) (img_folder s) (images s) (dataset s) (clip_model s)
    (clip_model_ckpt s) (collection_name s) (fs s) (requests_ s) (remote s)
    (fun _ _ => Ok (VList [VInt 1; VInt 0])).

Definition embed_ready : state :=
  (MultiModalCollection.filter_records
     (with_encoder (set_df (Some two_rows) offline))).1.

(** The name [reset_index] gives the column made of the old index. *)
Definition new_column (t : DataFrame) : string :=
  match pd.index_name (index_ t) with
  | Some n => n
  | None => if pd.has_column "index" t then "level_0" else "index"
  end.

(** Rows as long as the header, a column by its name, and the rows of
    the NMS table. *)
Definition wf (t : DataFrame) : Prop :=
  Forall (fun row => length row = length (columns t)) (data t).

Definition col (c : string) (t : DataFrame) : option (list pyval) :=
  option_map (fun i => List.map (pd.cell i) (data t))
    (pd.position c (columns t)).

Definition nms_row (s : state) (row : list pyval) : Prop :=
  (exists r,
     let p := Path.div (img_folder s) (r +:+ ".jpg") in
     pd.cell 4 row = VStr r /\
     pd.cell 5 row = VStr (r +:+ ".jpg") /\
     pd.cell 6 row = VStr (Path.to_string p) /\
     pd.cell 7 row = VBool (bool_decide (is_Some (fs s !! p)))) \/
  (pd.cell 4 row = VNaN /\ pd.cell 5 row = VNaN /\
   pd.cell 6 row = VStr "nan" /\ pd.cell 7 row = VBool false).

Definition is_refs (v : pyval) : Prop :=
  exists xs, v = VList (List.map VStr xs).

Definition is_ref (v : pyval) : Prop :=
  v = VNaN \/ exists r, v = VStr r.

(** [x.is_file() if not pd.isnull(x) else False], read off the files. *)
Definition is_file_cell (s : state) (x : pyval) : result pyval :=
  if pd.isnull x then Ok (VBool false)
  else match x with
       | VPath p => Ok (VBool (bool_decide (is_Some (fs s !! p))))
       | _ => Raise AttributeError
       end.

(** [self.img_folder / x if not pd.isnull(x) else x] *)
Definition path_cell (s : state) (x : pyval) : result pyval :=
  if pd.isnull x then Ok x
  else match x with
       | VStr n => Ok (VPath (Path.div (img_folder s) n))
       | _ => Raise TypeError
       end.

(** * Properties *)

(** ** Reasoning about the monads *)

Lemma bind_Ok {A B} (r : result A) (f : A -> result B) (b : B) :
  bind r f = Ok b -> exists a, r = Ok a /\ f a = Ok b.
Proof. destruct r as [a|e]; simpl; [eauto | discriminate]. Qed.

Lemma bindM_Ok {A B} (m : M A) (f : A -> M B) s s' (b : B) :
  bindM m f s = (s', Ok b) ->
  exists a s1, m s = (s1, Ok a) /\ f a s1 = (s', Ok b).
Proof.
  unfold bindM. destruct (m s) as [s1 [a|e]]; [eauto | discriminate].
Qed.

Lemma map_result_Ok {A B} (f : A -> result B) l ys :
  map_result f l = Ok ys <-> Forall2 (fun x y => f x = Ok y) l ys.
Proof.
  revert ys. induction l as [|x l IH]; intros ys; simpl.
  - split; [intros [= <-]; constructor | inversion 1; reflexivity].
  - split.
    + intros H. apply bind_Ok in H as (y & Hy & H).
      apply bind_Ok in H as (ys' & Hys & [= <-]).
      constructor; [assumption | by apply IH].
    + inversion 1 as [|? y ? ys' Hy Hys]; subst.
      rewrite Hy. simpl. apply IH in Hys. rewrite Hys. reflexivity.
Qed.

Lemma map_result_total {A B} (f : A -> result B) l :
  Forall (fun x => is_ok (f x) = true) l ->
  exists ys, map_result f l = Ok ys /\ length ys = length l.
Proof.
  induction 1 as [|x l Hx _ (ys & Hys & Hlen)]; simpl; [by exists []|].
  destruct (f x) as [y|] eqn:Hy; [|discriminate].
  exists (y :: ys). rewrite Hys. simpl. by rewrite Hlen.
Qed.

Lemma bindM_gets {A B} (g : state -> A) (k : A -> M B) s :
  bindM (gets g) k s = k (g s) s.
Proof. reflexivity. Qed.

Lemma bindM_lift {A B} (r : result A) (k : A -> M B) s :
  bindM (lift r) k s = match r with Ok a => k a s | Raise e => (s, Raise e) end.
Proof. by destruct r. Qed.

Lemma bindM_the {A B} (o : option A) (k : A -> M B) s :
  bindM (MultiModalCollection.the o) k s =
  match o with Some a => k a s | None => (s, Raise AttributeError) end.
Proof. by destruct o. Qed.

(** A comprehension that only reads [self] leaves the state alone. *)
Lemma mapM_reads {A B} (f : state -> A -> result B) l s :
  mapM (fun x => let! self := gets id in lift (f self x)) l s
  = (s, map_result (f s) l).
Proof.
  induction l as [|x l IH]; [reflexivity|].
  cbn [mapM map_result]. unfold bindM at 1. unfold bindM at 1.
  cbn [gets lift id].
  destruct (f s x) as [y|e]; [|reflexivity].
  unfold bindM at 1. rewrite IH. cbn.
  destruct (map_result (f s) l); reflexivity.
Qed.

Ltac bind_inv H :=
  repeat (let a := fresh "v" in
          let Ha := fresh "E" in
          apply bind_Ok in H as (a & Ha & H); cbv beta zeta in H).

(** ** Whitespace collapsing *)

Lemma no_space_of_list l :
  no_space (string_of_list_ascii l) = forallb (fun c => negb (Str.is_space c)) l.
Proof. induction l as [|c l IH]; cbn; [done|]. by rewrite IH. Qed.

Lemma of_list_nonempty l : l <> [] -> string_of_list_ascii l <> "".
Proof. by destruct l. Qed.

Lemma split_go_tokens s cur :
  forallb (fun c => negb (Str.is_space c)) cur = true ->
  Forall is_token (Str.split_go s cur).
Proof.
  assert (forall cur, cur <> [] ->
            forallb (fun c => negb (Str.is_space c)) cur = true ->
            is_token (string_of_list_ascii (rev cur))) as Htok.
  { intros l Hne Hl. split.
    - apply of_list_nonempty. intros Hr. apply Hne.
      by rewrite <- (rev_involutive l), Hr.
    - rewrite no_space_of_list, forallb_forall. intros c Hc%in_rev.
      rewrite forallb_forall in Hl. by apply Hl. }
  revert cur. induction s as [|c s IH]; intros cur Hcur; cbn.
  - destruct cur; [constructor|]. constructor; [|constructor].
    by apply Htok.
  - destruct (Str.is_space c) eqn:Hc.
    + destruct cur; [by apply IH|]. constructor; [by apply Htok|by apply IH].
    + apply IH. cbn. by rewrite Hc.
Qed.

Lemma split_go_app t s cur :
  no_space t = true ->
  Str.split_go (t +:+ s) cur
  = Str.split_go s (rev (list_ascii_of_string t) ++ cur).
Proof.
  revert cur. induction t as [|c t IH]; intros cur Ht; [reflexivity|].
  cbn -[Str.is_space] in Ht. apply andb_prop in Ht as [Hc%negb_true_iff Ht].
  change (String c t +:+ s) with (String c (t +:+ s)).
  cbn [Str.split_go list_ascii_of_string rev].
  rewrite Hc, IH by done. by rewrite <- app_assoc.
Qed.

Lemma split_token_space t s :
  is_token t -> Str.split (t +:+ String " " s) = t :: Str.split s.
Proof.
  intros [Hne Ht]. unfold Str.split. rewrite split_go_app by done.
  rewrite app_nil_r. cbn.
  destruct (rev (list_ascii_of_string t)) as [|c l] eqn:Hr.
  - exfalso. apply Hne.
    rewrite <- (string_of_list_ascii_of_string t),
      <- (rev_involutive (list_ascii_of_string t)), Hr. reflexivity.
  - by rewrite <- Hr, rev_involutive, string_of_list_ascii_of_string.
Qed.

Lemma append_empty t : t +:+ "" = t.
Proof.
  induction t as [|c t IH]; [reflexivity|].
  change (String c t +:+ "") with (String c (t +:+ "")). by rewrite IH.
Qed.

Lemma split_token t : is_token t -> Str.split t = [t].
Proof.
  intros [Hne Ht]. unfold Str.split.
  rewrite <- (append_empty t) at 1. rewrite split_go_app by done.
  rewrite app_nil_r. cbn.
  destruct (rev (list_ascii_of_string t)) as [|c l] eqn:Hr.
  - exfalso. apply Hne.
    rewrite <- (string_of_list_ascii_of_string t),
      <- (rev_involutive (list_ascii_of_string t)), Hr. reflexivity.
  - by rewrite <- Hr, rev_involutive, string_of_list_ascii_of_string.
Qed.

Lemma split_join ts :
  Forall is_token ts -> Str.split (Str.join " " ts) = ts.
Proof.
  induction 1 as [|t ts Ht Hts IH]; [reflexivity|].
  destruct ts as [|t' ts]; [by apply split_token|].
  change (Str.join " " (t :: t' :: ts))
    with (t +:+ String " " (Str.join " " (t' :: ts))).
  by rewrite split_token_space, IH.
Qed.

(** [' '.join(s.split())] is idempotent. *)
Lemma collapse_idempotent s : Str.collapse (Str.collapse s) = Str.collapse s.
Proof.
  unfold Str.collapse. rewrite split_join; [done|]. by apply split_go_tokens.
Qed.

(** ** The SMG normalizer *)

Lemma lacks_get k record :
  lacks k record = true ->
  exists items, Json.getitem record "_source" = Ok (JDict items) /\
    forall dflt, Json.get (JDict items) k dflt = Ok dflt.
Proof.
  unfold lacks. destruct (Json.getitem record "_source") as [[| | | | |items]|];
    try discriminate.
  destruct (assoc k items) eqn:Hk; [discriminate|]. intros _.
  exists items. split; [reflexivity|]. intros dflt. simpl. by rewrite Hk.
Qed.

(** The shape of a normalized record: its [names] is its [description];
    and what it holds for the optional fields that the record lacks. *)
Lemma process_json_record_row self record row :
  SMGCollection.process_json_record self record = Ok row ->
  exists record_id description taxonomy img_loc img_name img_path downloaded,
    row = [record_id; VStr description; VStr description; VStr taxonomy;
           img_loc; img_name; img_path; VBool downloaded] /\
    (lacks "description" record = true -> description = "") /\
    (lacks "terms" record = true -> taxonomy = "") /\
    (lacks "multimedia" record = true ->
       img_loc = VStr "" /\ img_name = VStr "" /\ img_path = VStr "" /\
       downloaded = false) /\
    downloaded = SMGCollection.in_images img_path (images self) /\
    (img_path = VStr "" \/ exists p, img_path = VPath p).
Proof.
  intros H. unfold SMGCollection.process_json_record in H.
  bind_inv H. destruct v8 as [[img_loc img_name] img_path].
  injection H as <-.
  fold (Str.collapse (Str.join "; " v2)).
  fold (Str.collapse (Str.collapse (Str.join "; " v2))).
  rewrite collapse_idempotent.
  eexists _, _, _, _, _, _, _. split; [reflexivity|].
  split; [|split; [|split; [|split; [reflexivity|]]]].
  4: { destruct (Json.truthy v7); bind_inv E8; injection E8 as <- <- <-; eauto. }
  - intros (items & Hs & Hget)%lacks_get. rewrite Hs in E0. injection E0 as <-.
    rewrite Hget in E1. injection E1 as <-.
    injection E2 as <-. reflexivity.
  - intros (items & Hs & Hget)%lacks_get. rewrite Hs in E0. injection E0 as <-.
    rewrite Hget in E5. injection E5 as <-.
    simpl in E6. by injection E6 as <-.
  - intros (items & Hs & Hget)%lacks_get. rewrite Hs in E0. injection E0 as <-.
    rewrite Hget in E7. injection E7 as <-.
    simpl in E8. by injection E8 as <- <- <-.
Qed.

(** A record with nothing but its identifier normalizes to empty fields. *)
Lemma process_json_record_bare self record record_id :
  Json.getitem record "_id" = Ok record_id ->
  lacks "description" record = true -> lacks "name" record = true ->
  lacks "terms" record = true -> lacks "multimedia" record = true ->
  SMGCollection.process_json_record self record
  = Ok [Json.to_py record_id; VStr ""; VStr ""; VStr ""; VStr ""; VStr "";
        VStr ""; VBool false].
Proof.
  intros Hid (items & Hs & Hd)%lacks_get (items1 & Hs1 & Hn)%lacks_get
         (items2 & Hs2 & Ht)%lacks_get (items3 & Hs3 & Hm)%lacks_get.
  rewrite Hs in Hs1, Hs2, Hs3.
  injection Hs1 as <-. injection Hs2 as <-. injection Hs3 as <-.
  unfold SMGCollection.process_json_record.
  rewrite Hid, Hs. cbn [bind]. rewrite Hd. cbn [bind].
  change (SMGCollection.stripped_values (JList [])) with (@Ok (list string) []).
  cbn [bind]. rewrite Hn. cbn [bind].
  change (SMGCollection.stripped_values (JList [])) with (@Ok (list string) []).
  cbn [bind]. rewrite Ht. cbn [bind Json.truthy]. rewrite Hm.
  reflexivity.
Qed.

(** [load_from_json] normalizes the records in order with the collection
    as it is, and builds the table when none of them raised. *)
Lemma load_from_json_unfold dump s :
  SMGCollection.load_from_json dump s =
  match map_result (SMGCollection.process_json_record s) dump with
  | Ok rows =>
      (set_df (Some (pd.fillna (VStr "")
                       (pd.from_rows rows SMGCollection.columns))) s, Ok tt)
  | Raise e => (s, Raise e)
  end.
Proof.
  unfold SMGCollection.load_from_json. unfold bindM at 1.
  rewrite mapM_reads.
  destruct (map_result _ dump); reflexivity.
Qed.

Lemma map_result_Raise {A B} (f : A -> result B) l :
  Exists (fun x => is_ok (f x) = false) l -> exists e, map_result f l = Raise e.
Proof.
  induction 1 as [x l Hx|x l _ [e IH]]; simpl.
  - destruct (f x) as [|e]; [discriminate|]. by exists e.
  - destruct (f x) as [y|e']; simpl; [|by exists e'].
    rewrite IH. by exists e.
Qed.

(** C1. The normalized [names] of every record is its normalized
    [description], whatever the record's [name] list holds: the second
    assignment to [names] reads [description]. On the record of the
    specification's scenario, whose only name is [Clock], [names] is
    [A clock; with gears], where the transformation of the [name] list
    that the specification and the docstring of [process_json_record]
    describe gives [Clock]. *)
Theorem process_json_record_names_from_description :
  (forall self record row,
     SMGCollection.process_json_record self record = Ok row ->
     exists description,
       row !! 1%nat = Some (VStr description) /\
       row !! 2%nat = Some (VStr description)) /\
  (exists row,
     SMGCollection.process_json_record offline clock_record = Ok row /\
     row !! 1%nat = Some (VStr "A clock; with gears") /\
     spec_names clock_record = Ok "Clock").
Proof.
  split.
  - intros self record row H.
    apply process_json_record_row in H as (? & d & ? & ? & ? & ? & ? & -> & _).
    by exists d.
  - eexists. split; [vm_compute; reflexivity|]. by split.
Qed.

(** At the record of the scenario: [names] is the description and not
    what the [name] list gives. *)
Lemma process_json_record_names_from_description_witness :
  exists description,
    SMGCollection.process_json_record offline clock_record
    = Ok [VStr "co1"; VStr description; VStr description; VStr ""; VStr "";
          VStr ""; VStr ""; VBool false] /\
    spec_names clock_record <> Ok description.
Proof.
  destruct (proj1 process_json_record_names_from_description offline
              clock_record
              [VStr "co1"; VStr "A clock; with gears";
               VStr "A clock; with gears"; VStr ""; VStr ""; VStr ""; VStr "";
               VBool false]) as (d & Hn & Hd); [vm_compute; reflexivity|].
  exists d. injection Hd as <-. split; [reflexivity|]. vm_compute. discriminate.
Defined.

(** C2, as the claim states it, fails: one record with a malformed
    [multimedia] entry raises [KeyError] out of [load_from_json], and the
    table stays the empty one of the fresh collection: no row is built
    for the well-formed records before and after it. *)
Lemma malformed_record_aborts_batch :
  let dump := [clock_record; malformed_record; bare_record] in
  let '(s, r) := SMGCollection.load_from_json dump offline in
  r = Raise KeyError /\ df s = df offline /\
  is_ok (SMGCollection.process_json_record offline clock_record) = true /\
  is_ok (SMGCollection.process_json_record offline bare_record) = true.
Proof. vm_compute. repeat split. Qed.

(** C2, amended. A batch in which every record normalizes without
    raising loads into a table with one row for each record, in order,
    and in the row of a record that lacks [description], [terms] or
    [multimedia] the description, the taxonomy, or the image location,
    name and path are the empty string and [downloaded] is false. A batch
    in which some record raises, as a record with a malformed field does,
    raises as a whole and builds no table. A record that has its
    identifier and lacks all four optional fields never raises. *)
Theorem load_from_json_missing_fields (s : state) (dump : list json) :
  (Forall (fun r => is_ok (SMGCollection.process_json_record s r) = true) dump ->
   exists t,
     SMGCollection.load_from_json dump s = (set_df (Some t) s, Ok tt) /\
     columns t = SMGCollection.columns /\
     Forall2 (fun r row =>
                (lacks "description" r = true -> pd.cell 2 row = VStr "") /\
                (lacks "terms" r = true -> pd.cell 3 row = VStr "") /\
                (lacks "multimedia" r = true ->
                   pd.cell 4 row = VStr "" /\ pd.cell 5 row = VStr "" /\
                   pd.cell 6 row = VStr "" /\ pd.cell 7 row = VBool false))
       dump (data t)) /\
  (Exists (fun r => is_ok (SMGCollection.process_json_record s r) = false) dump ->
   exists e, SMGCollection.load_from_json dump s = (s, Raise e)) /\
  (forall r record_id,
     Json.getitem r "_id" = Ok record_id ->
     lacks "description" r = true -> lacks "name" r = true ->
     lacks "terms" r = true -> lacks "multimedia" r = true ->
     is_ok (SMGCollection.process_json_record s r) = true).
Proof.
  split; [|split].
  3: { intros r i Hi Hd Hn Ht Hm.
       by rewrite (process_json_record_bare s r i Hi Hd Hn Ht Hm). }
  - intros Hok. rewrite load_from_json_unfold.
    destruct (map_result_total _ _ Hok) as (rows & Hrows & _).
    rewrite Hrows. eexists. split; [reflexivity|]. split; [reflexivity|].
    apply map_result_Ok in Hrows. cbn [pd.fillna pd.from_rows data].
    induction Hrows as [|r row dump rows Hr _ IH]; [constructor|].
    cbn [List.map]. constructor; [|by apply IH; inversion Hok].
    apply process_json_record_row in Hr
      as (rid & d & tx & loc & nm & pth & dl & -> & Hd & Ht & Hm & _).
    split; [|split].
    + intros ->%Hd. reflexivity.
    + intros ->%Ht. reflexivity.
    + intros (-> & -> & -> & ->)%Hm. repeat split.
  - intros Hex. rewrite load_from_json_unfold.
    destruct (map_result_Raise _ _ Hex) as [e ->]. by exists e.
Qed.

(** At a batch of the scenario's record and a bare one. *)
Lemma load_from_json_missing_fields_witness :
  exists t,
    SMGCollection.load_from_json [clock_record; bare_record] offline
    = (set_df (Some t) offline, Ok tt) /\
    data t = [[VStr "co1"; VStr "A clock; with gears";
               VStr "A clock; with gears"; VStr ""; VStr ""; VStr ""; VStr "";
               VBool false];
              [VStr "co2"; VStr ""; VStr ""; VStr ""; VStr ""; VStr ""; VStr "";
               VBool false]].
Proof.
  destruct (proj1 (load_from_json_missing_fields offline
                     [clock_record; bare_record]))
    as (t & Ht & _).
  - repeat constructor.
  - exists t. split; [exact Ht|].
    rewrite load_from_json_unfold in Ht.
    vm_compute in Ht. by injection Ht as <-.
Defined.

(** ** The SMG image fetcher *)

Lemma same_self_refl s : same_self s s.
Proof. by repeat split. Qed.

Lemma same_self_trans s1 s2 s3 :
  same_self s1 s2 -> same_self s2 s3 -> same_self s1 s3.
Proof.
  unfold same_self. intros (?&?&?&?&?&?&?&?&?) (?&?&?&?&?&?&?&?&?).
  repeat split; congruence.
Qed.

Lemma mapM_invariant {A B} (R : state -> state -> Prop) (f : A -> M B) :
  (forall s, R s s) ->
  (forall s1 s2 s3, R s1 s2 -> R s2 s3 -> R s1 s3) ->
  (forall x s, R s (f x s).1) ->
  forall l s, R s (mapM f l s).1.
Proof.
  intros Hrefl Htrans Hf. induction l as [|x l IH]; intros s; [apply Hrefl|].
  cbn [mapM]. unfold bindM at 1. specialize (Hf x s).
  destruct (f x s) as [s1 [y|e]]; [|exact Hf].
  unfold bindM at 1. specialize (IH s1).
  destruct (mapM f l s1) as [s2 [ys|e]]; cbn in *; eapply Htrans; eauto.
Qed.

(** One fetch, by what the archive answers. *)
Lemma fetch_image_reply loc s :
  SMGCollection.fetch_image (VStr loc) s =
  match remote s (length (requests_ s)) (smg_url loc) with
  | Response status_code content =>
      if status_code =? 200
      then ((os.write_bytes
               (Path.div (img_folder s) (Str.replace "/" "|" loc)) content ;;
             ret true) (logged (smg_url loc) s))
      else (logged (smg_url loc) s, Ok false)
  | Unreachable => (logged (smg_url loc) s, Raise ConnectionError)
  end.
Proof.
  unfold SMGCollection.fetch_image, smg_url, logged.
  unfold bindM at 1. cbn [ret]. unfold bindM at 1. unfold requests.get.
  destruct (remote s _ _) as [code content|]; [|reflexivity].
  cbn [fst snd]. destruct (code =? 200); reflexivity.
Qed.

Lemma write_bytes_same_self p content s :
  same_self s (os.write_bytes p content s).1 /\
  requests_ (os.write_bytes p content s).1 = requests_ s.
Proof.
  unfold os.write_bytes, bindM, gets. cbn.
  destruct (_ || _); [split; [apply same_self_refl | reflexivity]|].
  destruct (negb _); cbn; split; (apply same_self_refl || reflexivity || idtac).
  by repeat split.
Qed.

Lemma fetch_image_same_self loc s :
  same_self s (SMGCollection.fetch_image loc s).1.
Proof.
  destruct loc as [| | | |loc| | | |]; try apply same_self_refl.
  rewrite fetch_image_reply.
  destruct (remote s _ _) as [code content|]; [|by repeat split].
  destruct (code =? 200); [|by repeat split].
  unfold bindM.
  pose proof (write_bytes_same_self
                (Path.div (img_folder s) (Str.replace "/" "|" loc)) content
                (logged (smg_url loc) s)) as [Hs _].
  destruct (os.write_bytes _ _ _) as [s1 [[]|e]]; cbn in *;
    (eapply same_self_trans; [|exact Hs]); by repeat split.
Qed.

(** A fetch batch never changes the table; when it returns, the image
    set is the rescanned cache. *)
Lemma fetch_images_table max_images s :
  let '(s', r) := SMGCollection.fetch_images max_images s in
  df s' = df s /\ img_folder s' = img_folder s /\
  (r = Ok tt -> images s' = os.glob (img_folder s') os.star_dot_star (fs s')).
Proof.
  unfold SMGCollection.fetch_images.
  rewrite bindM_gets, bindM_the. destruct (df s) as [t|] eqn:Hdf.
  2: { by rewrite Hdf. }
  rewrite bindM_lift.
  destruct (SMGCollection.pending t) as [locs|e]; [|by rewrite Hdf].
  unfold bindM at 1.
  pose proof (mapM_invariant same_self SMGCollection.fetch_image
                same_self_refl same_self_trans fetch_image_same_self
                (SMGCollection.slice_to max_images locs) s) as Hs.
  destruct (mapM _ _ s) as [s1 [bs|e]]; cbn in Hs |- *;
    destruct Hs as (Hd & Hf & _); rewrite <- Hdf; by repeat split.
Qed.

Lemma fetch_image_requests loc s :
  requests_ (SMGCollection.fetch_image (VStr loc) s).1
  = requests_ s ++ [smg_url loc].
Proof.
  rewrite fetch_image_reply.
  destruct (remote s _ _) as [code content|]; [|reflexivity].
  destruct (code =? 200); [|reflexivity].
  unfold bindM.
  pose proof (write_bytes_same_self
                (Path.div (img_folder s) (Str.replace "/" "|" loc)) content
                (logged (smg_url loc) s)) as [_ Hr].
  by destruct (os.write_bytes _ _ _) as [s1 [[]|e]].
Qed.

(** The requests of a batch: one for each location in turn, up to the
    first that raises. *)
Lemma mapM_fetch_image_requests locs s :
  let '(s', r) := mapM SMGCollection.fetch_image locs s in
  exists new,
    requests_ s' = requests_ s ++ new /\
    (length new <= length locs)%nat /\
    (is_ok r = true ->
     exists ls, locs = List.map VStr ls /\ new = List.map smg_url ls).
Proof.
  revert s. induction locs as [|loc locs IH]; intros s.
  - exists []. cbn. rewrite app_nil_r. repeat split; [lia|]. by exists [].
  - cbn [mapM]. unfold bindM at 1.
    destruct loc as [| | | |l| | | |];
      try (exists []; cbn; rewrite app_nil_r; repeat split; [lia|discriminate]).
    pose proof (fetch_image_requests l s) as Hl.
    destruct (SMGCollection.fetch_image (VStr l) s) as [s1 [b|e]]; cbn in Hl.
    + unfold bindM at 1. specialize (IH s1).
      destruct (mapM SMGCollection.fetch_image locs s1) as [s2 [bs|e]];
        destruct IH as (new & Hnew & Hlen & Hok);
        exists (smg_url l :: new); cbn;
        (split; [by rewrite Hnew, Hl, <- app_assoc|]);
        (split; [lia|]); [|discriminate].
      intros _. destruct (Hok eq_refl) as (ls & -> & ->). by exists (l :: ls).
    + exists [smg_url l]. cbn. repeat split; [assumption|lia|discriminate].
Qed.

Lemma fetch_image_no_success loc s :
  no_success s -> fs (SMGCollection.fetch_image loc s).1 = fs s.
Proof.
  intros Hno. destruct loc as [| | | |loc| | | |]; try reflexivity.
  rewrite fetch_image_reply.
  destruct (remote s _ _) as [code content|] eqn:Hr; [|reflexivity].
  destruct (code =? 200) eqn:Hc; [|reflexivity].
  apply Z.eqb_eq in Hc as ->. by apply Hno in Hr.
Qed.

Lemma mapM_fetch_image_no_success locs s :
  no_success s -> fs (mapM SMGCollection.fetch_image locs s).1 = fs s.
Proof.
  intros Hno.
  apply (mapM_invariant
           (fun s s' => no_success s -> same_self s s' /\ fs s' = fs s)
           SMGCollection.fetch_image); [| | |assumption].
  - intros s0 _. split; [apply same_self_refl|reflexivity].
  - intros s1 s2 s3 H12 H23 H1. destruct (H12 H1) as [Hs12 Hf12].
    assert (no_success s2) as H2.
    { unfold no_success. destruct Hs12 as (_&_&_&_&_&_&_&->&_). exact H1. }
    destruct (H23 H2) as [Hs23 Hf23].
    split; [by eapply same_self_trans|congruence].
  - intros loc s0 H0. split; [apply fetch_image_same_self|].
    by apply fetch_image_no_success.
Qed.

Lemma fetch_images_no_success max_images s :
  no_success s -> fs (SMGCollection.fetch_images max_images s).1 = fs s.
Proof.
  intros Hno. unfold SMGCollection.fetch_images.
  rewrite bindM_gets, bindM_the. destruct (df s) as [t|]; [|reflexivity].
  rewrite bindM_lift.
  destruct (SMGCollection.pending t) as [locs|e]; [|reflexivity].
  unfold bindM at 1.
  pose proof (mapM_fetch_image_no_success
                (SMGCollection.slice_to max_images locs) s Hno) as Hfs.
  by destruct (mapM _ _ s) as [s1 [bs|e]].
Qed.

Lemma elem_of_glob folder pat files p :
  p ∈ os.glob folder pat files <->
  is_Some (files !! p) /\ p = folder ++ [Path.name p] /\ pat (Path.name p) = true.
Proof.
  unfold os.glob, os.child_of. rewrite elem_of_filter, elem_of_dom.
  rewrite andb_True, bool_decide_spec, Is_true_true. tauto.
Qed.

(** C3, as the claim states it, fails: after a fetch batch that stored
    the image of the only row, the file is in the cache and in the
    rescanned image set, at the row's [img_path], and the row still has
    [downloaded] false. *)
Lemma fetch_leaves_downloaded_false :
  let s := (SMGCollection.load_from_json [image_record "co1" "1/a.jpg"] online).1 in
  let '(s', r) := SMGCollection.fetch_images 100 s in
  r = Ok tt /\
  fs s' !! ["smg_imgs"; "1|a.jpg"] = Some "JFIF" /\
  elements (images s') = [["smg_imgs"; "1|a.jpg"]] /\
  option_map data (df s') =
    Some [[VStr "co1"; VStr ""; VStr ""; VStr ""; VStr "1/a.jpg";
           VStr "1|a.jpg"; VPath ["smg_imgs"; "1|a.jpg"]; VBool false]].
Proof. vm_compute. repeat split. Qed.

(** C3, amended. When the table is loaded, [downloaded] is true in a row
    if and only if the row's [img_path] is in the image set of the
    collection, the scan of the cache it holds. A fetch batch never
    changes the table, so the flags are those of the load; when it
    returns, the image set is the cache folder scanned anew; and when the
    archive answers no request with status 200, the files of the cache
    are unchanged too. *)
Theorem downloaded_is_image_set_at_load :
  (forall s dump s',
     SMGCollection.load_from_json dump s = (s', Ok tt) ->
     exists t, df s' = Some t /\
       Forall (fun row =>
                 pd.cell 7 row = VBool true <->
                 exists p, pd.cell 6 row = VPath p /\ p ∈ images s)
         (data t)) /\
  (forall max_images s,
     let '(s', r) := SMGCollection.fetch_images max_images s in
     df s' = df s /\
     (r = Ok tt ->
      images s' = os.glob (img_folder s') os.star_dot_star (fs s')) /\
     (no_success s -> fs s' = fs s)).
Proof.
  split.
  - intros s dump s' H. rewrite load_from_json_unfold in H.
    destruct (map_result _ dump) as [rows|] eqn:Hrows; [|discriminate].
    injection H as <-. eexists. split; [reflexivity|].
    apply map_result_Ok in Hrows. cbn [pd.fillna pd.from_rows data].
    induction Hrows as [|r row dump rows Hr _ IH]; [constructor|].
    cbn [List.map]. constructor; [|exact IH].
    apply process_json_record_row in Hr
      as (rid & d & tx & loc & nm & pth & dl & -> & _ & _ & _ & -> & Hp).
    destruct Hp as [->|[p ->]]; cbn.
    + split; [discriminate|]. by intros (p & [=] & _).
    + split.
      * intros [= Hin%bool_decide_eq_true]. by exists p.
      * intros (p' & [= <-] & Hin). by rewrite bool_decide_eq_true_2.
  - intros max_images s.
    pose proof (fetch_images_table max_images s) as Ht.
    pose proof (fetch_images_no_success max_images s) as Hf.
    destruct (SMGCollection.fetch_images max_images s) as [s' r].
    destruct Ht as (Hd & _ & Hi). by repeat split.
Qed.

(** At the five records, loaded and then fetched where the archive has
    none of the images. *)
Lemma downloaded_is_image_set_at_load_witness :
  (exists t, df (SMGCollection.load_from_json five_records online).1 = Some t /\
     Forall (fun row =>
               pd.cell 7 row = VBool true <->
               exists p, pd.cell 6 row = VPath p /\ p ∈ images online)
       (data t)) /\
  fs (SMGCollection.fetch_images 2
        (SMGCollection.load_from_json five_records missing).1).1 = ∅.
Proof.
  split.
  - apply (proj1 downloaded_is_image_set_at_load online five_records).
    vm_compute. reflexivity.
  - pose proof (proj2 downloaded_is_image_set_at_load 2
                  (SMGCollection.load_from_json five_records missing).1) as H.
    destruct (SMGCollection.fetch_images 2 _) as [s' r].
    destruct H as (_ & _ & H). cbn [fst]. rewrite H; [reflexivity|].
    intros k url content. vm_compute. discriminate.
Defined.

(** C7, as the claim states it, fails: with a batch bound of 2 on five
    pending images, all stored by the archive, two requests are sent and
    two files are written, and the table still has five rows with
    [downloaded == False], not three. *)
Lemma fetch_two_of_five_leaves_five :
  let '(s', r) := SMGCollection.fetch_images 2 five_pending in
  r = Ok tt /\
  option_map SMGCollection.pending (df five_pending) =
    Some (Ok [VStr "1/a.jpg"; VStr "2/b.jpg"; VStr "3/c.jpg"; VStr "4/d.jpg";
              VStr "5/e.jpg"]) /\
  length (requests_ s') = 2%nat /\
  size (fs s') = 2%nat /\
  option_map not_downloaded (df s') = Some (Ok 5%nat).
Proof. vm_compute. repeat split. Qed.

(** C7, amended. With a batch bound of 2 on a table with five pending
    images, the fetcher sends at most two requests, and exactly two, for
    the first two pending locations in the order of the table, when it
    returns; it leaves the table as it was, so all five rows still have
    [downloaded] false. *)
Theorem fetch_images_bound_two_of_five s t locs :
  df s = Some t ->
  SMGCollection.pending t = Ok locs ->
  length locs = 5%nat ->
  let '(s', r) := SMGCollection.fetch_images 2 s in
  df s' = Some t /\
  exists new,
    requests_ s' = requests_ s ++ new /\
    (length new <= 2)%nat /\
    (r = Ok tt ->
     exists l0 l1, firstn 2 locs = [VStr l0; VStr l1] /\
                   new = [smg_url l0; smg_url l1]).
Proof.
  intros Hdf Hp Hlen.
  pose proof (fetch_images_table 2 s) as Ht.
  unfold SMGCollection.fetch_images in *.
  rewrite bindM_gets, bindM_the, Hdf, bindM_lift, Hp in *.
  unfold bindM at 1 in Ht. unfold bindM at 1.
  change (SMGCollection.slice_to 2 locs) with (firstn 2 locs) in *.
  pose proof (mapM_fetch_image_requests (firstn 2 locs) s) as Hr.
  destruct (mapM SMGCollection.fetch_image (firstn 2 locs) s) as [s1 [bs|e]];
    cbn in Ht |- *; destruct Ht as (-> & _); (split; [reflexivity|]);
    destruct Hr as (new & Hnew & Hle & Hok); exists new;
    (split; [exact Hnew|]); rewrite length_firstn in Hle;
    (split; [lia|]); [|discriminate].
  intros _. destruct (Hok eq_refl) as (ls & Hls & ->).
  assert (length ls = 2%nat) as Hl2.
  { rewrite <- (length_map VStr), <- Hls, length_firstn. lia. }
  destruct ls as [|l0 [|l1 [|? ?]]]; try discriminate. by exists l0, l1.
Qed.

(** At the five records, all stored by the archive. *)
Lemma fetch_images_bound_two_of_five_witness :
  let '(s', r) := SMGCollection.fetch_images 2 five_pending in
  df s' = df five_pending /\ length (requests_ s') = 2%nat.
Proof.
  pose proof (fetch_images_bound_two_of_five five_pending) as H.
  destruct (SMGCollection.fetch_images 2 five_pending) as [s' r] eqn:Hs.
  edestruct H as (Hd & new & Hn & Hl & Hok);
    [vm_compute; reflexivity ..|].
  split; [by rewrite Hd|].
  assert (r = Ok tt) as Hr by (vm_compute in Hs; by injection Hs as _ <-).
  destruct (Hok Hr) as (l0 & l1 & _ & ->). rewrite Hn. reflexivity.
Defined.

(** C8, as the claim states it, fails: with no connection the first
    fetch of the batch raises [ConnectionError] out of [fetch_images];
    the second image of the batch is never requested, and the image set
    is not rescanned. *)
Lemma connection_failure_aborts_batch :
  let '(s', r) := SMGCollection.fetch_images 2 five_offline in
  r = Raise ConnectionError /\
  requests_ s' = [smg_url "1/a.jpg"] /\
  images s' = images five_offline.
Proof. vm_compute. repeat split. Qed.

(** C8, amended. A fetch that is answered with a status other than 200
    sends its one request and returns: no file is written, the table is
    as it was, nothing is raised, and the rest of the batch is fetched
    after it. A fetch that finds no connection raises [ConnectionError],
    and the batch ends there, with the error. *)
Theorem fetch_image_skips_other_status loc rest s :
  (forall status_code content,
     remote s (length (requests_ s)) (smg_url loc)
       = Response status_code content ->
     status_code <> 200 ->
     exists s1,
       SMGCollection.fetch_image (VStr loc) s = (s1, Ok false) /\
       fs s1 = fs s /\ df s1 = df s /\
       requests_ s1 = requests_ s ++ [smg_url loc] /\
       mapM SMGCollection.fetch_image (VStr loc :: rest) s =
         (let '(s', r) := mapM SMGCollection.fetch_image rest s1 in
          (s', match r with Ok bs => Ok (false :: bs) | Raise e => Raise e end))) /\
  (remote s (length (requests_ s)) (smg_url loc) = Unreachable ->
   exists s1,
     SMGCollection.fetch_image (VStr loc) s = (s1, Raise ConnectionError) /\
     fs s1 = fs s /\ df s1 = df s /\
     requests_ s1 = requests_ s ++ [smg_url loc] /\
     mapM SMGCollection.fetch_image (VStr loc :: rest) s
       = (s1, Raise ConnectionError)).
Proof.
  split.
  - intros code content Hr Hcode. exists (logged (smg_url loc) s).
    assert (SMGCollection.fetch_image (VStr loc) s
            = (logged (smg_url loc) s, Ok false)) as Hf.
    { rewrite fetch_image_reply, Hr.
      by destruct (code =? 200) eqn:Hc; [apply Z.eqb_eq in Hc|]. }
    repeat split; [exact Hf|].
    cbn [mapM]. unfold bindM at 1. rewrite Hf. unfold bindM at 1.
    by destruct (mapM _ rest _) as [s' [bs|e]].
  - intros Hr. exists (logged (smg_url loc) s).
    assert (SMGCollection.fetch_image (VStr loc) s
            = (logged (smg_url loc) s, Raise ConnectionError)) as Hf.
    { by rewrite fetch_image_reply, Hr. }
    repeat split; [exact Hf|].
    cbn [mapM]. unfold bindM at 1. by rewrite Hf.
Qed.

(** At the first of the five images, where the archive answers 404 and
    where there is no connection. *)
Lemma fetch_image_skips_other_status_witness :
  (exists s1,
     SMGCollection.fetch_image (VStr "1/a.jpg") five_missing = (s1, Ok false) /\
     fs s1 = fs five_missing /\ df s1 = df five_missing) /\
  (exists s1,
     SMGCollection.fetch_image (VStr "1/a.jpg") five_offline
       = (s1, Raise ConnectionError)).
Proof.
  split.
  - destruct (proj1 (fetch_image_skips_other_status "1/a.jpg" [] five_missing)
                404 "Not Found") as (s1 & H1 & H2 & H3 & _);
      [vm_compute; reflexivity | lia |].
    by exists s1.
  - destruct (proj2 (fetch_image_skips_other_status "1/a.jpg" [] five_offline))
      as (s1 & H1 & _); [vm_compute; reflexivity|].
    by exists s1.
Defined.

(** ** The embedding pipeline *)

(** C5. [embed_clip] with a modality other than [text] and [image]
    raises the usage error, whatever the collection holds, before it
    maps anything over the dataset: the table, the dataset, the cache
    and the log of requests are as they were (the encoder is loaded
    first if it was not). *)
Theorem embed_clip_rejects_modality target_col modality model_ckpt s :
  modality <> "text" -> modality <> "image" ->
  exists s',
    MultiModalCollection.embed_clip target_col modality model_ckpt s
      = (s', Raise (Exception "Modality has to be either 'text' or 'image")) /\
    df s' = df s /\ dataset s' = dataset s /\
    fs s' = fs s /\ requests_ s' = requests_ s /\
    clip_model s' =
      Some (default (SentenceTransformer model_ckpt) (clip_model s)).
Proof.
  intros Ht%String.eqb_neq Hi%String.eqb_neq.
  unfold MultiModalCollection.embed_clip. rewrite bindM_gets.
  rewrite Ht, Hi.
  destruct (clip_model s) as [m|] eqn:Hm; eexists;
    (split; [reflexivity|]); cbn; by rewrite ?Hm.
Qed.

(** At the modality [audio]. *)
Lemma embed_clip_rejects_modality_witness :
  exists s',
    MultiModalCollection.embed_clip "description" "audio" "clip-ViT-B-32"
      five_pending
      = (s', Raise (Exception "Modality has to be either 'text' or 'image")) /\
    df s' = df five_pending.
Proof.
  destruct (embed_clip_rejects_modality "description" "audio" "clip-ViT-B-32"
              five_pending) as (s' & H & Hd & _); [discriminate ..|].
  by exists s'.
Defined.

(** ** The collection store *)

Lemma filter_records_unfold s :
  MultiModalCollection.filter_records s =
  match df s with
  | None => (s, Raise AttributeError)
  | Some t =>
      match filter_table t with
      | Ok t' => (set_dataset (Some (from_pandas t')) (set_df (Some t') s), Ok tt)
      | Raise e => (s, Raise e)
      end
  end.
Proof.
  unfold MultiModalCollection.filter_records, filter_table.
  rewrite bindM_gets, bindM_the. destruct (df s) as [t|]; [|reflexivity].
  rewrite bindM_lift. destruct (pd.getattr t "downloaded"); [|reflexivity].
  rewrite bindM_lift. cbn [bind].
  destruct (pd.getitem t "description"); [|reflexivity].
  rewrite bindM_lift. cbn [bind]. by destruct (pd.reset_index _).
Qed.

Lemma zip_with_andb_map {A} (f g : A -> bool) l :
  zip_with andb (List.map f l) (List.map g l)
  = List.map (fun x => f x && g x) l.
Proof. induction l; cbn; congruence. Qed.

Lemma mask_map_filter {A} (p : A -> bool) l :
  pd.mask (List.map p l) l = List.filter p l.
Proof. induction l as [|x l IH]; cbn; [done|]. destruct (p x); congruence. Qed.

Lemma mask_all_true {A B} (l : list A) (l' : list B) :
  length l = length l' -> pd.mask (List.map (fun _ => true) l) l' = l'.
Proof.
  revert l'. induction l as [|x l IH]; intros [|y l'] [=]; cbn; [done|].
  by rewrite IH.
Qed.

Lemma length_range n : length (pd.range n) = n.
Proof. unfold pd.range. by rewrite length_map, length_seq. Qed.

Lemma length_zip_cons {A} (xs : list A) rows :
  length xs = length rows -> length (pd.zip_cons xs rows) = length rows.
Proof.
  revert rows. induction xs as [|x xs IH]; intros [|r rows] [=]; cbn; [done|].
  by rewrite IH.
Qed.

(** The rows of a zipped table are rows of the old one behind a label. *)
Lemma zip_cons_rows {A} (P : list A -> Prop) xs rows :
  Forall P rows ->
  Forall (fun r => exists x r', r = x :: r' /\ P r') (pd.zip_cons xs rows).
Proof.
  intros H. revert xs. induction H as [|r rows Hr _ IH]; intros [|x xs]; cbn;
    try constructor; eauto.
Qed.

Lemma position_cons c name cols :
  String.eqb c name = false ->
  pd.position c (name :: cols) = option_map S (pd.position c cols).
Proof. intros H. cbn. by rewrite H. Qed.

Lemma has_column_position c name t i :
  pd.has_column name t = false -> pd.position c (columns t) = Some i ->
  String.eqb c name = false.
Proof.
  unfold pd.has_column. intros Hn Hc. apply String.eqb_neq. intros ->.
  by rewrite Hc in Hn.
Qed.

Lemma has_column_select c m t :
  pd.has_column c (pd.select m t) = pd.has_column c t.
Proof. reflexivity. Qed.

(** What one application of the filter returns. *)
Lemma filter_table_once t t1 :
  filter_table t = Ok t1 ->
  exists name i j,
    pd.position "downloaded" (columns t) = Some i /\
    pd.position "description" (columns t) = Some j /\
    pd.has_column name t = false /\
    columns t1 = name :: columns t /\
    index_ t1 = RangeIndex (length (data t1)) /\
    data t1 = pd.zip_cons (pd.mask (List.map (kept i j) (data t))
                             (pd.labels (index_ t)))
                (List.filter (kept i j) (data t)).
Proof.
  unfold filter_table, pd.getattr, pd.getitem. intros H.
  destruct (pd.position "downloaded" (columns t)) as [i|]; [|discriminate].
  destruct (pd.position "description" (columns t)) as [j|]; [|discriminate].
  cbn [bind] in H. rewrite !List.map_map, zip_with_andb_map in H.
  change (fun x => pd.eq_bool true (pd.cell i x)
                   && negb (pd.isnull (pd.cell j x))) with (kept i j) in H.
  unfold pd.reset_index in H.
  cbn [pd.select index_ pd.index_name columns data pd.labels] in H.
  rewrite !has_column_select in H.
  set (name := match pd.index_name (index_ t) with
               | Some n => n
               | None => if pd.has_column "index" t then "level_0" else "index"
               end) in H.
  destruct (pd.has_column name t) eqn:Hname; [discriminate|].
  injection H as <-. exists name, i, j. cbn.
  by rewrite (mask_map_filter (kept i j)).
Qed.

Lemma kept_shift i j x row : kept (S i) (S j) (x :: row) = kept i j row.
Proof. reflexivity. Qed.

Lemma filter_all {A} (p : A -> bool) l :
  Forall (fun x => p x = true) l -> List.filter p l = l.
Proof. induction 1 as [|x l Hx _ IH]; cbn; [done|]. by rewrite Hx, IH. Qed.

Lemma map_all_true {A} (p : A -> bool) l :
  Forall (fun x => p x = true) l -> List.map p l = List.map (fun _ => true) l.
Proof. induction 1 as [|x l Hx _ IH]; cbn; [done|]. by rewrite Hx, IH. Qed.

Lemma Forall_filter_true {A} (p : A -> bool) l :
  Forall (fun x => p x = true) (List.filter p l).
Proof.
  induction l as [|x l IH]; cbn; [constructor|].
  destruct (p x) eqn:Hx; [by constructor|exact IH].
Qed.

Lemma map_tail_zip_cons {A} (xs : list A) rows :
  length xs = length rows -> List.map (@tail A) (pd.zip_cons xs rows) = rows.
Proof.
  revert rows. induction xs as [|x xs IH]; intros [|r rows] [=]; cbn; [done|].
  by rewrite IH.
Qed.

(** The filter applied to its own result keeps every row, and puts the
    positions of the rows in front of them as one more column. *)
Lemma filter_table_twice t t1 t2 :
  filter_table t = Ok t1 -> filter_table t1 = Ok t2 ->
  exists name,
    pd.has_column name t1 = false /\
    columns t2 = name :: columns t1 /\
    index_ t2 = RangeIndex (length (data t1)) /\
    data t2 = pd.zip_cons (pd.range (length (data t1))) (data t1) /\
    List.map (@tail pyval) (data t2) = data t1.
Proof.
  intros (name1 & i & j & Hi & Hj & Hn1 & Hc1 & Hx1 & Hd1)%filter_table_once
         (name & i' & j' & Hi' & Hj' & Hn & Hc & Hx & Hd)%filter_table_once.
  rewrite Hc1 in Hi', Hj'.
  rewrite position_cons in Hi', Hj' by (by eapply has_column_position).
  rewrite Hi in Hi'. rewrite Hj in Hj'. injection Hi' as <-. injection Hj' as <-.
  assert (Forall (fun r => kept (S i) (S j) r = true) (data t1)) as Hall.
  { rewrite Hd1.
    eapply Forall_impl;
      [apply (zip_cons_rows (fun r => kept i j r = true)),
         Forall_filter_true|].
    intros r (x & r' & -> & Hr). by rewrite kept_shift. }
  rewrite (filter_all _ _ Hall), (map_all_true _ _ Hall), Hx1 in Hd.
  cbn [pd.labels] in Hd.
  rewrite mask_all_true in Hd by (by rewrite length_range).
  exists name. repeat split; try assumption.
  - rewrite Hx, Hd. by rewrite length_zip_cons by apply length_range.
  - rewrite Hd. apply map_tail_zip_cons, length_range.
Qed.

(** C6, as the claim states it, fails: on a table of two records, one of
    them with its image, the second application of [filter_records] adds
    the column [level_0] to the table that the first application left. *)
Lemma filter_records_twice_differs :
  let s1 := (MultiModalCollection.filter_records
               (set_df (Some two_rows) offline)).1 in
  let s2 := (MultiModalCollection.filter_records s1).1 in
  option_map columns (df s1) = Some ("index" :: SMGCollection.columns) /\
  option_map columns (df s2)
    = Some ("level_0" :: "index" :: SMGCollection.columns) /\
  df s2 <> df s1.
Proof. vm_compute. repeat split. discriminate. Qed.

(** C6, amended. The selection of rows is idempotent, the table is not:
    a second application of [filter_records] keeps every row of the
    first result, in order and with the same values, and puts one more
    column in front, which holds the positions of the rows. Without
    that column the two tables have the same columns and rows. *)
Theorem filter_records_twice s s1 s2 :
  MultiModalCollection.filter_records s = (s1, Ok tt) ->
  MultiModalCollection.filter_records s1 = (s2, Ok tt) ->
  exists t1 t2 name,
    df s1 = Some t1 /\ df s2 = Some t2 /\
    pd.has_column name t1 = false /\
    columns t2 = name :: columns t1 /\
    data t2 = pd.zip_cons (pd.range (length (data t1))) (data t1) /\
    List.map (@tail pyval) (data t2) = data t1.
Proof.
  rewrite !filter_records_unfold. intros H1 H2.
  destruct (df s) as [t|]; [|discriminate].
  destruct (filter_table t) as [t1|] eqn:Ht1; [|discriminate].
  injection H1 as <-. cbn [df set_df set_dataset] in H2.
  destruct (filter_table t1) as [t2|] eqn:Ht2; [|discriminate].
  injection H2 as <-.
  destruct (filter_table_twice t t1 t2 Ht1 Ht2) as (name & ? & ? & ? & ? & ?).
  by exists t1, t2, name.
Qed.

(** At the table of two records. *)
Lemma filter_records_twice_witness :
  let s1 := (MultiModalCollection.filter_records
               (set_df (Some two_rows) offline)).1 in
  let s2 := (MultiModalCollection.filter_records s1).1 in
  exists t1 t2,
    df s1 = Some t1 /\ df s2 = Some t2 /\
    List.map (@tail pyval) (data t2) = data t1.
Proof.
  intros s1 s2.
  destruct (filter_records_twice (set_df (Some two_rows) offline) s1 s2)
    as (t1 & t2 & name & H1 & H2 & _ & _ & _ & H);
    [vm_compute; reflexivity ..|].
  by exists t1, t2.
Defined.

(** ** The schema of the three normalizers *)

Lemma mapM_pure {A B} (f : A -> M B) (h : state -> A -> result B) l s :
  (forall x, f x s = (s, h s x)) -> mapM f l s = (s, map_result (h s) l).
Proof.
  intros Hf. induction l as [|x l IH]; [reflexivity|].
  cbn [mapM map_result]. unfold bindM at 1. rewrite Hf.
  destruct (h s x) as [y|e]; [|reflexivity].
  unfold bindM at 1. rewrite IH. cbn. by destruct (map_result (h s) l).
Qed.

Lemma map_result_map {A B C} (f : B -> result C) (k : A -> B) (d : A -> C) l :
  (forall x, f (k x) = Ok (d x)) ->
  map_result f (List.map k l) = Ok (List.map d l).
Proof.
  intros H. induction l as [|x l IH]; [reflexivity|].
  cbn. by rewrite H, IH.
Qed.

Lemma zip_with_map_same {A B C D} (f : B -> C -> D) (a : A -> B) (b : A -> C) l :
  zip_with f (List.map a l) (List.map b l) = List.map (fun x => f (a x) (b x)) l.
Proof. induction l; cbn; congruence. Qed.

Lemma project_columns cols t t' : pd.project cols t = Ok t' -> columns t' = cols.
Proof.
  unfold pd.project. intros H. apply bind_Ok in H as (ps & _ & [= <-]).
  reflexivity.
Qed.

(** [load_from_xml] never raises, and builds a table of six columns. *)
Lemma load_from_xml_table records s :
  BTCollection.load_from_xml records s =
  (set_df (Some (mkDataFrame bt_columns (RangeIndex (length records))
                   (List.map (bt_row s) records))) s, Ok tt).
Proof.
  unfold BTCollection.load_from_xml. rewrite bindM_gets, bindM_lift.
  unfold pd.from_rows, pd.getattr, pd.setitem. cbn -[Path.div].
  rewrite !List.map_map, !zip_with_map_same, !List.map_map, length_map.
  unfold bindM at 1.
  erewrite (mapM_pure _
    (fun s x => if pd.truthy x
                then match x with
                     | VPath p => Ok (VBool (bool_decide (is_Some (fs s !! p))))
                     | _ => Raise TypeError
                     end
                else Ok (VBool false))).
  2: { intros x. destruct (pd.truthy x); [|reflexivity].
       by destruct x. }
  erewrite (map_result_map _ _
    (fun r => nth 5 (bt_row s r) VNaN)).
  2: { intros r. unfold bt_row, pd.cell, BTCollection.find_and_get_text.
       cbn -[Path.div].
       by destruct (assoc "Thumbnail" r) as [[[|c x]|]|]. }
  rewrite zip_with_map_same.
  unfold modify, set_df, pd.rename. cbn -[Path.div bt_row].
  do 4 f_equal. apply List.map_ext. intros r.
  unfold bt_row, BTCollection.find_and_get_text. cbn -[Path.div].
  by destruct (assoc "Thumbnail" r) as [[[|c x]|]|].
Qed.

Lemma load_original_csvs_columns dfs s s' :
  NMSCollection.load_original_csvs dfs s = (s', Ok tt) ->
  exists t, df s' = Some t /\ columns t = NMSCollection.columns.
Proof.
  unfold NMSCollection.load_original_csvs. intros H.
  repeat (apply bindM_Ok in H as (? & ? & ? & H)).
  injection H as <-.
  match goal with
  | Hp : lift (pd.project _ _) _ = (_, Ok ?t) |- _ =>
      exists t; split; [reflexivity|];
      unfold lift in Hp; injection Hp as _ Hp; by apply project_columns in Hp
  end.
Qed.

(** C4, as the claim states it, fails: the table of the XML normalizer
    has six columns, without [taxonomy] and [img_name], and the tables of
    the JSON and the CSV normalizers have a column [name] where the
    canonical schema has [names]. *)
Lemma normalizers_differ_in_schema :
  option_map columns (df (BTCollection.load_from_xml [telephone] bt_fresh).1)
    = Some ["record_id"; "names"; "img_loc"; "description"; "img_path";
            "downloaded"] /\
  option_map columns (df (SMGCollection.load_from_json [clock_record] offline).1)
    = Some ["record_id"; "name"; "description"; "taxonomy"; "img_loc";
            "img_name"; "img_path"; "downloaded"] /\
  option_map columns (df (NMSCollection.load_original_csvs [nms_export] nms_fresh).1)
    = Some ["record_id"; "name"; "description"; "taxonomy"; "img_loc";
            "img_name"; "img_path"; "downloaded"] /\
  ~ (option_map columns (df (BTCollection.load_from_xml [telephone] bt_fresh).1)
       = Some spec_columns /\
     option_map columns (df (SMGCollection.load_from_json [clock_record] offline).1)
       = Some spec_columns /\
     option_map columns (df (NMSCollection.load_original_csvs [nms_export] nms_fresh).1)
       = Some spec_columns).
Proof. vm_compute. repeat split. by intros ([=] & _). Qed.

(** C4, amended. The JSON and the CSV normalizers build tables of eight
    columns, which are the canonical [record_id], [description],
    [taxonomy], [img_loc], [img_name], [img_path] and [downloaded] with
    the column of the names second; the XML normalizer builds a table of
    the six columns [record_id], [names], [img_loc], [description],
    [img_path] and [downloaded], and never raises. *)
Theorem normalizer_schemas :
  (forall dump s s',
     SMGCollection.load_from_json dump s = (s', Ok tt) ->
     exists t name, df s' = Some t /\
       columns t = ["record_id"; name; "description"; "taxonomy"; "img_loc";
                    "img_name"; "img_path"; "downloaded"]) /\
  (forall dfs s s',
     NMSCollection.load_original_csvs dfs s = (s', Ok tt) ->
     exists t name, df s' = Some t /\
       columns t = ["record_id"; name; "description"; "taxonomy"; "img_loc";
                    "img_name"; "img_path"; "downloaded"]) /\
  (forall records s,
     exists s' t,
       BTCollection.load_from_xml records s = (s', Ok tt) /\
       df s' = Some t /\
       columns t = ["record_id"; "names"; "img_loc"; "description";
                    "img_path"; "downloaded"]).
Proof.
  split; [|split].
  - intros dump s s' H. rewrite load_from_json_unfold in H.
    destruct (map_result _ dump); [|discriminate].
    injection H as <-. by eexists _, _.
  - intros dfs s s' (t & Ht & Hc)%load_original_csvs_columns.
    by exists t, "name".
  - intros records s. rewrite load_from_xml_table. by eexists _, _.
Qed.

(** At the scenario's record and at the NMS export. *)
Lemma normalizer_schemas_witness :
  (exists t, df (SMGCollection.load_from_json [clock_record] offline).1 = Some t /\
     length (columns t) = 8%nat) /\
  (exists t, df (NMSCollection.load_original_csvs [nms_export] nms_fresh).1 = Some t /\
     length (columns t) = 8%nat).
Proof.
  split.
  - destruct (proj1 normalizer_schemas [clock_record] offline
                (SMGCollection.load_from_json [clock_record] offline).1)
      as (t & name & Ht & Hc); [vm_compute; reflexivity|].
    exists t. by rewrite Hc.
  - destruct (proj1 (proj2 normalizer_schemas) [nms_export] nms_fresh
                (NMSCollection.load_original_csvs [nms_export] nms_fresh).1)
      as (t & name & Ht & Hc); [vm_compute; reflexivity|].
    exists t. by rewrite Hc.
Defined.
(** ** The NMS image fetcher *)

Lemma fetch_one_requests img s :
  exists new,
    requests_ (NMSCollection.fetch_one img s).1 = requests_ s ++ new /\
    (forall url, url ∈ new -> url = nms_url img).
Proof.
  unfold NMSCollection.fetch_one. rewrite bindM_gets.
  unfold bindM at 1, os.is_file, gets.
  destruct (bool_decide _).
  { exists []. cbn. rewrite app_nil_r. split; [done|]. by intros url ?%elem_of_nil. }
  exists [nms_url img]. split; [|by intros url ->%list_elem_of_singleton].
  unfold bindM at 1, requests.get.
  destruct (remote s _ _) as [code content|]; [|reflexivity].
  cbn [fst snd]. destruct (code =? 200); [|reflexivity].
  set (s1 := set_requests _ s).
  pose proof (write_bytes_same_self
                (Path.div (img_folder s) (img +:+ ".jpg")) content s1) as [_ Hr].
  by rewrite Hr.
Qed.

Lemma for_each_fetch_one_requests imgs s :
  exists new,
    requests_ (for_each NMSCollection.fetch_one imgs s).1 = requests_ s ++ new /\
    (forall url, url ∈ new -> exists img, img ∈ imgs /\ url = nms_url img).
Proof.
  revert s. induction imgs as [|img imgs IH]; intros s.
  { exists []. cbn. rewrite app_nil_r. split; [done|]. by intros url ?%elem_of_nil. }
  cbn [for_each]. unfold bindM at 1.
  destruct (fetch_one_requests img s) as (new1 & Hnew1 & Hin1).
  destruct (NMSCollection.fetch_one img s) as [s1 [[]|e]]; cbn in Hnew1.
  - destruct (IH s1) as (new2 & Hnew2 & Hin2).
    exists (new1 ++ new2). split; [by rewrite Hnew2, Hnew1, app_assoc|].
    intros url [H|H]%elem_of_app.
    + exists img. split; [left|by apply Hin1].
    + destruct (Hin2 url H) as (img' & ? & ?). exists img'. split; [by right|done].
  - exists new1. split; [exact Hnew1|].
    intros url H. exists img. split; [left|by apply Hin1].
Qed.

Lemma pf_ids_prefix e ids :
  NMSCollection.pf_ids e = Ok ids ->
  Forall (fun i => Str.startswith "PF" i = true) ids.
Proof.
  destruct e; try discriminate. intros [= <-].
  apply Forall_forall. by intros i [_ ?]%list_elem_of_In%filter_In.
Qed.

Lemma Forall2_In_r {A B} (R : A -> B -> Prop) l l' y :
  Forall2 R l l' -> In y l' -> exists x, In x l /\ R x y.
Proof.
  induction 1 as [|x y' l l' Hxy _ IH]; intros Hin; [destruct Hin|].
  destruct Hin as [<-|Hin]; [exists x; split; [by left|done]|].
  destruct (IH Hin) as (x' & ? & ?). exists x'. split; [by right|done].
Qed.

(** C10. Whatever the table, the cache and the archive hold, and
    whether the batch returns or raises, [fetch_images] of the NMS
    collection sends no request for an identifier that does not start
    with [PF]: every request of the batch is for an identifier with that
    prefix. *)
Theorem nms_fetch_images_only_pf s id :
  Str.startswith "PF" id = false ->
  exists new,
    requests_ (NMSCollection.fetch_images s).1 = requests_ s ++ new /\
    (nms_url id ∉ new) /\
    (forall url, url ∈ new ->
       exists img, Str.startswith "PF" img = true /\ url = nms_url img).
Proof.
  intros Hid.
  assert (exists new,
    requests_ (NMSCollection.fetch_images s).1 = requests_ s ++ new /\
    (forall url, url ∈ new ->
       exists img, Str.startswith "PF" img = true /\ url = nms_url img))
    as (new & Hnew & Hpf).
  { unfold NMSCollection.fetch_images. rewrite bindM_gets, bindM_the.
    assert (exists new : list string, requests_ s = requests_ s ++ new /\
              forall url, url ∈ new ->
                exists img, Str.startswith "PF" img = true /\ url = nms_url img)
      as Hnone.
    { exists []. rewrite app_nil_r. split; [done|]. by intros url ?%elem_of_nil. }
    destruct (df s) as [t|]; [|exact Hnone].
    rewrite bindM_lift. destruct (pd.getitem t "img_loc") as [img_loc|]; [|exact Hnone].
    rewrite bindM_lift.
    destruct (map_result NMSCollection.pf_ids _) as [idss|] eqn:Hids; [|exact Hnone].
    destruct (for_each_fetch_one_requests (List.concat idss) s)
      as (new & Hnew & Hin).
    exists new. split; [exact Hnew|]. intros url Hurl.
    destruct (Hin url Hurl) as (img & Himg & ->). exists img. split; [|done].
    apply list_elem_of_In, in_concat in Himg as (ids & Hids' & Himg).
    apply map_result_Ok in Hids.
    destruct (Forall2_In_r _ _ _ _ Hids Hids') as (e & _ & He).
    apply pf_ids_prefix in He. rewrite Forall_forall in He.
    by apply He, list_elem_of_In. }
  exists new. repeat split; [done| |done].
  intros Hin. destruct (Hpf _ Hin) as (img & Himg & Heq).
  apply (inj (String.append NMSCollection.base_url)) in Heq as <-.
  congruence.
Qed.

(** At the NMS export, whose object has the images [PF1001] and [XX7]. *)
Lemma nms_fetch_images_only_pf_witness :
  option_map (fun t => pd.getitem t "img_loc") (df nms_loaded)
    = Some (Ok [VStr "PF1001"; VStr "XX7"]) /\
  exists new,
    requests_ (NMSCollection.fetch_images nms_loaded).1 = new /\
    (nms_url "XX7" ∉ new).
Proof.
  split; [vm_compute; reflexivity|].
  destruct (nms_fetch_images_only_pf nms_loaded "XX7") as (new & Hnew & Hid & _);
    [reflexivity|].
  exists new. split; [|exact Hid]. rewrite Hnew. reflexivity.
Defined.

(** * Further properties of the code *)

(** ** The normalized fields of the SMG records *)

(** How the description and the image fields of a normalized record are
    made. *)
Lemma process_json_record_anatomy self record row :
  SMGCollection.process_json_record self record = Ok row ->
  exists record_id values taxonomy downloaded img_loc img_name img_path,
    row = [record_id;
           VStr (Str.collapse (Str.join "; " values));
           VStr (Str.collapse (Str.join "; " values));
           VStr taxonomy; img_loc; img_name; img_path; VBool downloaded] /\
    ((img_loc = VStr "" /\ img_name = VStr "" /\ img_path = VStr "") \/
     exists loc,
       img_loc = VStr loc /\
       img_name = VStr (Str.replace "/" "|" loc) /\
       img_path = VPath (Path.div (img_folder self) (Str.replace "/" "|" loc))).
Proof.
  intros H. unfold SMGCollection.process_json_record in H.
  bind_inv H. destruct v8 as [[img_loc img_name] img_path].
  injection H as <-.
  fold (Str.collapse (Str.join "; " v2)).
  fold (Str.collapse (Str.collapse (Str.join "; " v2))).
  rewrite collapse_idempotent.
  eexists _, _, _, _, _, _, _. split; [reflexivity|].
  destruct (Json.truthy v7); [|left; by injection E8 as <- <- <-].
  bind_inv E8. injection E8 as <- <- <-. right.
  destruct v11; try discriminate. injection E13 as <-. by eexists.
Qed.

(** X1. The normalized description of a record is a sequence of words,
    none empty and none with a whitespace character in it, with one
    space between two words: it has no tab, no line break, and no space
    at either end. *)
Theorem description_is_words self record row :
  SMGCollection.process_json_record self record = Ok row ->
  exists words,
    Forall is_token words /\
    row !! 2%nat = Some (VStr (Str.join " " words)).
Proof.
  intros (? & values & ? & ? & ? & ? & ? & -> & _)%process_json_record_anatomy.
  exists (Str.split (Str.join "; " values)). split; [|reflexivity].
  by apply split_go_tokens.
Qed.

(** At the record of the scenario. *)
Lemma description_is_words_witness :
  exists words,
    Forall is_token words /\
    Str.join " " words = "A clock; with gears".
Proof.
  destruct (description_is_words offline clock_record
              [VStr "co1"; VStr "A clock; with gears";
               VStr "A clock; with gears"; VStr ""; VStr ""; VStr ""; VStr "";
               VBool false]) as (words & Hw & Hd); [vm_compute; reflexivity|].
  exists words. split; [exact Hw|]. by injection Hd as <-.
Defined.

Lemma contains_cons c c' s :
  Str.contains c (String c' s) = Ascii.eqb c c' || Str.contains c s.
Proof. reflexivity. Qed.

Lemma replace_cons a b c s :
  Str.replace a b (String c s)
  = String (if Ascii.eqb c a then b else c) (Str.replace a b s).
Proof. reflexivity. Qed.

Lemma replace_no_sep a b s :
  a <> b -> Str.contains a (Str.replace a b s) = false.
Proof.
  intros Hab. induction s as [|c s IH]; [reflexivity|].
  rewrite replace_cons, contains_cons, IH, orb_false_r.
  destruct (Ascii.eqb c a) eqn:Hc.
  - by apply Ascii.eqb_neq.
  - apply Ascii.eqb_neq. apply Ascii.eqb_neq in Hc. congruence.
Qed.

Lemma split_on_go_no_sep sep s cur :
  Str.contains sep s = false ->
  Str.split_on_go sep s cur
  = [string_of_list_ascii (rev cur ++ list_ascii_of_string s)].
Proof.
  revert cur. induction s as [|c s IH]; intros cur Hs.
  - cbn. by rewrite app_nil_r.
  - rewrite contains_cons in Hs. apply orb_false_elim in Hs as [Hc Hs].
    cbn [Str.split_on_go list_ascii_of_string].
    rewrite Ascii.eqb_sym, Hc, IH by done.
    cbn [rev]. by rewrite <- app_assoc.
Qed.

Lemma split_on_no_sep sep s :
  Str.contains sep s = false -> Str.split_on sep s = [s].
Proof.
  intros Hs. unfold Str.split_on. rewrite split_on_go_no_sep by done.
  cbn [rev app]. by rewrite string_of_list_ascii_of_string.
Qed.

Lemma startswith_no_sep name :
  Str.contains "/" name = false -> Str.startswith "/" name = false.
Proof.
  destruct name as [|c name]; [done|].
  rewrite contains_cons. intros [Hc _]%orb_false_elim.
  unfold Str.startswith.
  change (String.prefix "/" (String c name))
    with (if Ascii.ascii_dec "/" c then String.prefix "" name else false).
  destruct (Ascii.ascii_dec "/" c) as [<-|?]; [|done].
  by rewrite Ascii.eqb_refl in Hc.
Qed.

(** [folder / name] for a name without a separator. *)
Lemma div_flat folder name :
  Str.contains "/" name = false -> name <> "" -> name <> "." ->
  Path.div folder name = folder ++ [name].
Proof.
  intros Hs Hne Hdot. unfold Path.div, Path.parts.
  rewrite split_on_no_sep, startswith_no_sep by done.
  cbn [List.filter]. unfold Path.is_part.
  apply String.eqb_neq in Hne, Hdot. by rewrite Hne, Hdot.
Qed.

(** X2. The [img_name] of a normalized record has no path separator in
    it, and unless it is empty or a single dot the [img_path] is the
    file of that name right under the image folder: the cache is flat. *)
Theorem img_name_is_flat self record row name :
  SMGCollection.process_json_record self record = Ok row ->
  row !! 5%nat = Some (VStr name) ->
  Str.contains "/" name = false /\
  (name <> "" -> name <> "." ->
   row !! 6%nat = Some (VPath (img_folder self ++ [name]))).
Proof.
  intros (? & ? & ? & ? & loc' & nm & pth & -> & Himg)%process_json_record_anatomy
         [= ->].
  destruct Himg as [(_ & [= ->] & _)|(loc & _ & [= ->] & ->)]; [by split|].
  split; [by apply replace_no_sep|].
  intros Hne Hdot. cbn [lookup list_lookup].
  by rewrite div_flat by (by try apply replace_no_sep).
Qed.

(** At the first of the five records. *)
Lemma img_name_is_flat_witness :
  exists row,
    SMGCollection.process_json_record online (image_record "co1" "1/a.jpg")
      = Ok row /\
    row !! 6%nat = Some (VPath ["smg_imgs"; "1|a.jpg"]).
Proof.
  eexists. split; [vm_compute; reflexivity|].
  eapply (img_name_is_flat online (image_record "co1" "1/a.jpg"));
    [vm_compute; reflexivity | reflexivity | discriminate | discriminate].
Defined.

Lemma replace_inj a b s1 s2 :
  Str.contains b s1 = false -> Str.contains b s2 = false ->
  Str.replace a b s1 = Str.replace a b s2 -> s1 = s2.
Proof.
  revert s2. induction s1 as [|c1 s1 IH]; intros [|c2 s2] H1 H2 Heq;
    try discriminate; [done|].
  rewrite contains_cons in H1, H2. rewrite !replace_cons in Heq.
  apply orb_false_elim in H1 as [Hc1 H1].
  apply orb_false_elim in H2 as [Hc2 H2].
  injection Heq as Hc Hs. rewrite (IH s2) by done. f_equal.
  apply Ascii.eqb_neq in Hc1, Hc2.
  destruct (Ascii.eqb c1 a) eqn:E1, (Ascii.eqb c2 a) eqn:E2;
    try apply Ascii.eqb_eq in E1; try apply Ascii.eqb_eq in E2; congruence.
Qed.

(** X3. Two image locations without the character [|] that differ get
    different [img_name]s, so their files do not collide in the
    cache. *)
Theorem img_name_is_injective self r1 r2 row1 row2 loc1 loc2 :
  SMGCollection.process_json_record self r1 = Ok row1 ->
  SMGCollection.process_json_record self r2 = Ok row2 ->
  row1 !! 4%nat = Some (VStr loc1) -> row2 !! 4%nat = Some (VStr loc2) ->
  loc1 <> "" -> loc2 <> "" ->
  Str.contains "|" loc1 = false -> Str.contains "|" loc2 = false ->
  row1 !! 5%nat = row2 !! 5%nat ->
  loc1 = loc2.
Proof.
  intros (? & ? & ? & ? & ? & ? & ? & -> & Himg1)%process_json_record_anatomy
         (? & ? & ? & ? & ? & ? & ? & -> & Himg2)%process_json_record_anatomy
         [= ->] [= ->] Hne1 Hne2 Hp1 Hp2 [= Hn].
  destruct Himg1 as [([= ->] & _)|(l1 & [= ->] & -> & _)]; [done|].
  destruct Himg2 as [([= ->] & _)|(l2 & [= ->] & -> & _)]; [done|].
  injection Hn as Hn. by eapply replace_inj.
Qed.

(** At the first two of the five records. *)
Lemma img_name_is_injective_witness :
  SMGCollection.process_json_record online (image_record "co1" "1/a.jpg")
  <> SMGCollection.process_json_record online (image_record "co1" "2/b.jpg").
Proof.
  intros Heq.
  assert ("1/a.jpg" = "2/b.jpg") as [=].
  eapply (img_name_is_injective online
            (image_record "co1" "1/a.jpg") (image_record "co1" "2/b.jpg"));
    [vm_compute; reflexivity | vm_compute; reflexivity
    | reflexivity | reflexivity | discriminate | discriminate
    | reflexivity | reflexivity |].
  exfalso. vm_compute in Heq. discriminate.
Defined.

(** ** The taxonomy of the SMG records *)

Lemma setitem_fresh {A} k (v : A) d :
  Forall (fun kv => Key.eqb k (fst kv) = false) d ->
  Key.setitem k v d = d ++ [(k, v)].
Proof.
  induction 1 as [|[k' v'] d Hk _ IH]; [reflexivity|].
  cbn in *. by rewrite Hk, IH.
Qed.

Lemma taxonomy_dict_ints (entries : list (Z * string)) d :
  NoDup (List.map fst entries) ->
  Forall (fun e => Forall (fun kv => Key.eqb (KInt (fst e)) (fst kv) = false) d)
    entries ->
  SMGCollection.taxonomy_dict
    (List.map (fun e => hierarchy_entry (JInt (fst e), snd e)) entries) d
  = Ok (d ++ List.map (fun e => (KInt (fst e), JStr (snd e))) entries).
Proof.
  revert d. induction entries as [|[z name] entries IH]; intros d Hnd Hd.
  - cbn. by rewrite app_nil_r.
  - apply NoDup_cons in Hnd as [Hz Hnd]. apply Forall_cons in Hd as [Hzd Hd].
    cbn [List.map SMGCollection.taxonomy_dict]. cbn [fst snd] in *.
    change (Json.getitem (hierarchy_entry (JInt z, name)) "sort") with (Ok (JInt z)).
    change (Json.getitem (hierarchy_entry (JInt z, name)) "name")
      with (Ok (JList [JDict [("value", JStr name)]])).
    cbn [bind Json.getitem0 Key.hash].
    change (Json.getitem (JDict [("value", JStr name)]) "value") with (Ok (JStr name)).
    cbn [bind]. rewrite setitem_fresh by done.
    rewrite IH; [by rewrite <- app_assoc|done|].
    apply Forall_forall. intros [z' name'] Hin.
    apply Forall_app. split; [by rewrite Forall_forall in Hd; apply (Hd _ Hin)|].
    constructor; [|constructor]. cbn. apply Z.eqb_neq. intros ->.
    apply Hz. apply list_elem_of_In, in_map_iff. exists (z, name'). split; [done|].
    by apply list_elem_of_In.
Qed.

Lemma insert_sorted_ints {A B} (f : A -> B) (x : Z * A) l :
  StronglySorted (fun a b => fst a <= fst b) l ->
  exists l',
    Key.insert_sorted (KInt (fst x), f (snd x)) (int_items f l)
      = Ok (int_items f l') /\
    Permutation l' (x :: l) /\
    StronglySorted (fun a b => fst a <= fst b) l'.
Proof.
  induction 1 as [|y l Hl IH Hy].
  - exists [x]. repeat split; [done|]. by repeat constructor.
  - cbn [int_items List.map Key.insert_sorted fst Key.lt bind].
    destruct (fst x <? fst y) eqn:Hxy.
    + exists (x :: y :: l). split; [done|]. split; [done|].
      apply Z.ltb_lt in Hxy. constructor; [by constructor|].
      constructor; [lia|].
      eapply Forall_impl; [exact Hy|]. cbn. intros; lia.
    + destruct IH as (l' & Hi & Hp & Hs).
      exists (y :: l'). fold (int_items f l). rewrite Hi. split; [done|].
      split; [by rewrite Hp; apply perm_swap|].
      constructor; [done|]. apply Z.ltb_ge in Hxy.
      rewrite Hp. by constructor.
Qed.

Lemma sorted_ints {A B} (f : A -> B) (l : list (Z * A)) :
  exists l',
    Key.sorted (int_items f l) = Ok (int_items f l') /\
    Permutation l' l /\
    StronglySorted (fun a b => fst a <= fst b) l'.
Proof.
  induction l as [|x l (l1 & Hs & Hp & Hso)].
  - exists []. repeat split; [done|constructor].
  - cbn [int_items List.map Key.sorted]. fold (int_items f l). rewrite Hs.
    cbn [bind].
    destruct (insert_sorted_ints f x l1 Hso) as (l' & Hi & Hp' & Hs').
    exists l'. split; [done|]. split; [|done].
    by rewrite Hp', Hp.
Qed.

Lemma sorted_strict {A} (l : list (Z * A)) :
  NoDup (List.map fst l) ->
  StronglySorted (fun a b => fst a <= fst b) l ->
  StronglySorted (fun a b => fst a < fst b) l.
Proof.
  induction 2 as [|x l Hl IH Hx]; [constructor|].
  cbn in H. apply NoDup_cons in H as [Hx' Hnd].
  constructor; [by apply IH|].
  rewrite Forall_forall in Hx |- *. intros y Hy.
  specialize (Hx y Hy). destruct (decide (fst x = fst y)) as [Heq|]; [|lia].
  exfalso. apply Hx'. rewrite Heq. apply list_elem_of_In, in_map.
  by apply list_elem_of_In.
Qed.

Lemma map_result_strip (l : list (Z * string)) :
  map_result (fun kv : key * json => Json.strip (snd kv)) (int_items JStr l)
  = Ok (List.map (fun e => Str.strip (snd e)) l).
Proof.
  induction l as [|e l IH]; [reflexivity|].
  cbn [List.map int_items map_result]. fold (int_items JStr l).
  cbn [snd Json.strip bind]. by rewrite IH.
Qed.

(** X4. The taxonomy of a record whose hierarchy entries have distinct
    integer [sort] keys is the names of the entries, each trimmed, in
    ascending order of the keys and joined with ["; "], in whatever
    order the dump lists the entries. *)
Theorem taxonomy_follows_sort_keys self record_id (entries : list (Z * string)) :
  NoDup (List.map fst entries) ->
  exists sorted,
    Permutation sorted entries /\
    StronglySorted (fun a b => fst a < fst b) sorted /\
    SMGCollection.process_json_record self
      (taxonomy_record record_id
         (List.map (fun e => (JInt (fst e), snd e)) entries))
    = Ok [Json.to_py record_id; VStr ""; VStr "";
          VStr (Str.join "; " (List.map (fun e => Str.strip (snd e)) sorted));
          VStr ""; VStr ""; VStr ""; VBool false].
Proof.
  intros Hnd.
  destruct (sorted_ints JStr entries) as (l' & Hs & Hp & Hso).
  exists l'. split; [done|]. split.
  { apply sorted_strict; [|done]. by rewrite Hp. }
  unfold SMGCollection.process_json_record, taxonomy_record.
  cbn [Json.getitem assoc String.eqb Ascii.eqb Bool.eqb bind Json.get default
       from_option id Json.truthy Json.getitem0 Json.iter
       SMGCollection.stripped_values map_result].
  rewrite List.map_map.
  rewrite (taxonomy_dict_ints entries []) by (done || by apply Forall_forall).
  cbn [app bind]. fold (int_items JStr entries). rewrite Hs. cbn [bind].
  rewrite map_result_strip. reflexivity.
Qed.

(** At a hierarchy listed in descending order. *)
Lemma taxonomy_follows_sort_keys_witness :
  exists sorted,
    Permutation sorted [(2, " Clocks "); (1, "Timekeeping")] /\
    StronglySorted (fun a b => fst a < fst b) sorted /\
    SMGCollection.process_json_record offline
      (taxonomy_record (JStr "co1")
         [(JInt 2, " Clocks "); (JInt 1, "Timekeeping")])
    = Ok [VStr "co1"; VStr ""; VStr "";
          VStr (Str.join "; " (List.map (fun e => Str.strip (snd e)) sorted));
          VStr ""; VStr ""; VStr ""; VBool false].
Proof.
  apply (taxonomy_follows_sort_keys offline (JStr "co1")
           [(2, " Clocks "); (1, "Timekeeping")]).
  apply NoDup_cons. split; [|apply NoDup_singleton].
  intros [=]%list_elem_of_singleton.
Defined.














(** ** The image set and the [downloaded] flag *)

(** The flags of a loaded table follow the image set of the collection. *)
Lemma load_from_json_downloaded dump s s' :
  SMGCollection.load_from_json dump s = (s', Ok tt) ->
  exists t, df s' = Some t /\ fs s' = fs s /\
    Forall (fun row =>
              pd.cell 7 row = VBool true <->
              exists p, pd.cell 6 row = VPath p /\ p ∈ images s)
      (data t).
Proof.
  intros H. rewrite load_from_json_unfold in H.
  destruct (map_result _ dump) as [rows|] eqn:Hrows; [|discriminate].
  injection H as <-. eexists. split; [reflexivity|]. split; [reflexivity|].
  apply map_result_Ok in Hrows. cbn [pd.fillna pd.from_rows data].
  induction Hrows as [|r row dump rows Hr _ IH]; [constructor|].
  cbn [List.map]. constructor; [|exact IH].
  apply process_json_record_row in Hr
    as (rid & d & tx & loc & nm & pth & dl & -> & _ & _ & _ & -> & Hp).
  destruct Hp as [->|[p ->]]; cbn.
  - split; [discriminate|]. by intros (p & [=] & _).
  - split.
    + intros [= Hin%bool_decide_eq_true]. by exists p.
    + intros (p' & [= <-] & Hin). by rewrite bool_decide_eq_true_2.
Qed.

Lemma init_state t folder w :
  (SMGCollection.__init__ t folder w).1
  = set_collection_name (Some "smg")
      (mkState (Some t) (Path.of_string folder)
         (os.glob (Path.of_string folder) os.star_jpg (fs w))
         (dataset w) (clip_model w) (clip_model_ckpt w) (collection_name w)
         (fs w) (requests_ w) (remote w) (encode w)).
Proof. reflexivity. Qed.

(** X6. In a collection that is constructed and then loaded from the
    dump, a row has [downloaded] true if and only if its [img_path] is a
    file of the cache, right under the image folder, whose name ends in
    [.jpg]: an image stored under another extension counts as not
    downloaded. *)
Theorem downloaded_at_construction t folder w dump s' :
  SMGCollection.load_from_json dump (SMGCollection.__init__ t folder w).1
    = (s', Ok tt) ->
  exists t', df s' = Some t' /\
    Forall (fun row =>
              pd.cell 7 row = VBool true <->
              exists p, pd.cell 6 row = VPath p /\
                is_Some (fs w !! p) /\
                p = Path.of_string folder ++ [Path.name p] /\
                Str.endswith ".jpg" (Path.name p) = true)
      (data t').
Proof.
  intros (t' & Ht & _ & Hrows)%load_from_json_downloaded.
  exists t'. split; [done|].
  eapply Forall_impl; [exact Hrows|]. cbn beta. intros row ->.
  rewrite init_state. cbn [images set_collection_name].
  by setoid_rewrite elem_of_glob.
Qed.

(** With one image stored as [.jpg] beforehand. *)
Lemma downloaded_at_construction_witness :
  let w := set_fs {[ ["smg_imgs"; "1|a.jpg"] := "JFIF" ]}
             (blank (fun _ _ => Unreachable)) in
  exists t',
    df (SMGCollection.load_from_json five_records
          (SMGCollection.__init__ (pd.from_rows [] []) "smg_imgs" w).1).1
      = Some t' /\
    List.map (pd.cell 7) (data t')
      = [VBool true; VBool false; VBool false; VBool false; VBool false].
Proof.
  intros w.
  destruct (downloaded_at_construction (pd.from_rows [] []) "smg_imgs" w
              five_records
              (SMGCollection.load_from_json five_records
                 (SMGCollection.__init__ (pd.from_rows [] []) "smg_imgs" w).1).1)
    as (t' & Ht & _); [vm_compute; reflexivity|].
  exists t'. split; [exact Ht|].
  vm_compute in Ht. by injection Ht as <-.
Defined.

Lemma write_bytes_grows p content s q :
  is_Some (fs s !! q) -> is_Some (fs (os.write_bytes p content s).1 !! q).
Proof.
  intros Hq. unfold os.write_bytes, bindM, gets. cbn.
  destruct (_ || _); [done|]. destruct (negb _); [done|]. cbn.
  destruct (decide (p = q)) as [->|]; [by rewrite lookup_insert_eq|].
  by rewrite lookup_insert_ne.
Qed.

Lemma fetch_image_grows loc s q :
  is_Some (fs s !! q) -> is_Some (fs (SMGCollection.fetch_image loc s).1 !! q).
Proof.
  intros Hq. destruct loc as [| | | |loc| | | |]; try done.
  rewrite fetch_image_reply.
  destruct (remote s _ _) as [code content|]; [|done].
  destruct (code =? 200); [|done].
  unfold bindM.
  pose proof (write_bytes_grows
                (Path.div (img_folder s) (Str.replace "/" "|" loc)) content
                (logged (smg_url loc) s) q Hq) as Hw.
  by destruct (os.write_bytes _ _ _) as [s1 [[]|e]].
Qed.

Lemma fetch_images_grows max_images s q :
  is_Some (fs s !! q) ->
  is_Some (fs (SMGCollection.fetch_images max_images s).1 !! q).
Proof.
  intros Hq. unfold SMGCollection.fetch_images.
  rewrite bindM_gets, bindM_the. destruct (df s) as [t|]; [|done].
  rewrite bindM_lift.
  destruct (SMGCollection.pending t) as [locs|e]; [|done].
  unfold bindM at 1.
  pose proof (mapM_invariant
                (fun s s' => is_Some (fs s !! q) -> is_Some (fs s' !! q))
                SMGCollection.fetch_image (fun _ H => H)
                (fun _ _ _ H1 H2 H => H2 (H1 H))
                (fun loc s => fetch_image_grows loc s q)
                (SMGCollection.slice_to max_images locs) s Hq) as Hs.
  by destruct (mapM _ _ s) as [s1 [bs|e]].
Qed.

Lemma endswith_contains_dot n :
  Str.endswith ".jpg" n = true -> Str.contains "." n = true.
Proof.
  induction n as [|c n IH]; [done|].
  cbn [Str.endswith]. rewrite contains_cons.
  intros [Heq|Hn]%orb_prop.
  - apply String.eqb_eq in Heq. injection Heq as -> ->. reflexivity.
  - rewrite IH by done. apply orb_true_r.
Qed.

(** X7. A fetch batch never forgets an image: whatever is in the image
    set of a freshly constructed collection is in the image set again
    when a fetch batch returns. *)
Theorem fetch_images_keeps_images t folder w max_images s' :
  SMGCollection.fetch_images max_images (SMGCollection.__init__ t folder w).1
    = (s', Ok tt) ->
  images (SMGCollection.__init__ t folder w).1 ⊆ images s'.
Proof.
  intros H.
  pose proof (fetch_images_table max_images (SMGCollection.__init__ t folder w).1) as Ht.
  pose proof (fun q => fetch_images_grows max_images
                         (SMGCollection.__init__ t folder w).1 q) as Hg.
  rewrite H in Ht, Hg. destruct Ht as (_ & Hf & Hi). cbn [fst] in Hg.
  rewrite (Hi eq_refl), Hf. rewrite init_state.
  cbn [images img_folder set_collection_name].
  intros p (Hp & Hc & Hn)%elem_of_glob. apply elem_of_glob.
  split; [by apply Hg|]. split; [done|]. by apply endswith_contains_dot.
Qed.

(** With one image stored beforehand and two more fetched. *)
Lemma fetch_images_keeps_images_witness :
  let w := set_fs {[ ["smg_imgs"; "9|z.jpg"] := "JFIF" ]}
             (blank (fun _ _ => Response 200 "JFIF")) in
  let s := (SMGCollection.__init__ two_rows "smg_imgs" w).1 in
  ["smg_imgs"; "9|z.jpg"] ∈ images (SMGCollection.fetch_images 2 s).1.
Proof.
  intros w s.
  apply (fetch_images_keeps_images two_rows "smg_imgs" w 2);
    [vm_compute; reflexivity|].
  apply elem_of_glob. repeat split. by exists "JFIF".
Defined.

(** X8. When a fetch batch has returned and the dump is loaded again, a
    row has [downloaded] true if and only if its [img_path] is a file of
    the cache, right under the image folder, with a dot in its name. *)
Theorem reload_after_fetch max_images s s1 dump s2 :
  SMGCollection.fetch_images max_images s = (s1, Ok tt) ->
  SMGCollection.load_from_json dump s1 = (s2, Ok tt) ->
  exists t, df s2 = Some t /\
    Forall (fun row =>
              pd.cell 7 row = VBool true <->
              exists p, pd.cell 6 row = VPath p /\
                is_Some (fs s2 !! p) /\
                p = img_folder s ++ [Path.name p] /\
                Str.contains "." (Path.name p) = true)
      (data t).
Proof.
  intros Hf (t & Ht & Hfs & Hrows)%load_from_json_downloaded.
  pose proof (fetch_images_table max_images s) as Hi. rewrite Hf in Hi.
  destruct Hi as (_ & Hfolder & Hi). specialize (Hi eq_refl).
  exists t. split; [done|].
  eapply Forall_impl; [exact Hrows|]. cbn beta. intros row ->.
  rewrite Hi, Hfolder, Hfs. by setoid_rewrite elem_of_glob.
Qed.

(** At the five records: two are fetched, and the reload finds them. *)
Lemma reload_after_fetch_witness :
  let s1 := (SMGCollection.fetch_images 2 five_pending).1 in
  exists t,
    df (SMGCollection.load_from_json five_records s1).1 = Some t /\
    List.map (pd.cell 7) (data t)
      = [VBool true; VBool true; VBool false; VBool false; VBool false].
Proof.
  intros s1.
  destruct (reload_after_fetch 2 five_pending s1 five_records
              (SMGCollection.load_from_json five_records s1).1)
    as (t & Ht & _); [vm_compute; reflexivity ..|].
  exists t. split; [exact Ht|].
  vm_compute in Ht. by injection Ht as <-.
Defined.

(** ** The SMG fetcher: what is stored and what is requested *)

(** X9. A fetch that is answered with status 200 stores the body of the
    response, as it is, in the file named after the location right
    under the image folder, which is the [img_path] of the record, and
    changes no other file. *)
Theorem fetch_image_stores_body loc content s :
  remote s (length (requests_ s)) (smg_url loc) = Response 200 content ->
  loc <> "" -> loc <> "." -> loc <> ".." ->
  exists s',
    SMGCollection.fetch_image (VStr loc) s = (s', Ok true) /\
    fs s' = <[img_folder s ++ [Str.replace "/" "|" loc] := content]> (fs s) /\
    df s' = df s /\ images s' = images s.
Proof.
  intros Hr Hne Hdot Hdots. rewrite fetch_image_reply, Hr.
  change (200 =? 200) with true. cbv iota.
  assert (Str.replace "/" "|" loc <> "" /\ Str.replace "/" "|" loc <> "."
          /\ Str.replace "/" "|" loc <> "..") as (Hn1 & Hn2 & Hn3).
  { destruct loc as [|c1 [|c2 [|c3 loc]]]; [done| | |].
    - rewrite replace_cons. cbn [Str.replace].
      destruct (Ascii.eqb c1 "/") eqn:Hc; [by repeat split|].
      repeat split; congruence.
    - rewrite !replace_cons. cbn [Str.replace].
      destruct (Ascii.eqb c1 "/") eqn:Hc1, (Ascii.eqb c2 "/") eqn:Hc2;
        repeat split; try discriminate; congruence.
    - rewrite !replace_cons. repeat split; discriminate. }
  rewrite div_flat by (done || by apply replace_no_sep).
  unfold bindM at 1. unfold os.write_bytes. rewrite bindM_gets.
  unfold logged. cbn [img_folder set_requests].
  set (p := img_folder s ++ [Str.replace "/" "|" loc]).
  assert (Path.name p = Str.replace "/" "|" loc) as Hname.
  { unfold p, Path.name. apply last_last. }
  rewrite Hname. apply String.eqb_neq in Hn3 as ->. rewrite orb_false_r.
  destruct (bool_decide _) eqn:Hb.
  { apply bool_decide_eq_true in Hb. unfold p in Hb.
    apply (f_equal length) in Hb. rewrite length_app in Hb. cbn in Hb. lia. }
  assert (os.child_of (img_folder s) p = true) as ->.
  { unfold os.child_of. apply bool_decide_eq_true. by rewrite Hname. }
  cbn. eexists. by repeat split.
Qed.

(** At the first of the five images. *)
Lemma fetch_image_stores_body_witness :
  exists s',
    SMGCollection.fetch_image (VStr "1/a.jpg") five_pending = (s', Ok true) /\
    fs s' !! ["smg_imgs"; "1|a.jpg"] = Some "JFIF".
Proof.
  destruct (fetch_image_stores_body "1/a.jpg" "JFIF" five_pending)
    as (s' & Hf & Hfs & _); [reflexivity | discriminate ..|].
  exists s'. split; [exact Hf|]. rewrite Hfs. apply lookup_insert_eq.
Defined.

(** The requests of a batch that returns: the pending locations up to
    the bound, in the order of the table. *)
Lemma fetch_images_requests max_images s t locs s' :
  df s = Some t ->
  SMGCollection.pending t = Ok locs ->
  SMGCollection.fetch_images max_images s = (s', Ok tt) ->
  exists ls,
    SMGCollection.slice_to max_images locs = List.map VStr ls /\
    requests_ s' = requests_ s ++ List.map smg_url ls.
Proof.
  intros Hdf Hp. unfold SMGCollection.fetch_images.
  rewrite bindM_gets, bindM_the, Hdf, bindM_lift, Hp. unfold bindM at 1.
  pose proof (mapM_fetch_image_requests
                (SMGCollection.slice_to max_images locs) s) as Hr.
  destruct (mapM _ _ s) as [s1 [bs|e]]; [|discriminate].
  intros [= <-]. destruct Hr as (new & Hnew & _ & Hok).
  destruct (Hok eq_refl) as (ls & Hls & ->). by exists ls.
Qed.

Lemma length_slice_to {A} n (l : list A) :
  length (SMGCollection.slice_to n l)
  = if 0 <=? n then Nat.min (Z.to_nat n) (length l)
    else (length l - Z.to_nat (- n))%nat.
Proof.
  unfold SMGCollection.slice_to. destruct (0 <=? n); rewrite length_firstn; lia.
Qed.

(** X10. A fetch batch that returns has requested the pending locations
    up to the bound, in the order of the table: all of them when the
    bound is not below their number, none for the bound 0, and all but
    the last [-n] for a negative bound [n]. *)
Theorem fetch_images_bound max_images s t locs s' :
  df s = Some t ->
  SMGCollection.pending t = Ok locs ->
  SMGCollection.fetch_images max_images s = (s', Ok tt) ->
  exists ls rest,
    locs = List.map VStr ls ++ rest /\
    requests_ s' = requests_ s ++ List.map smg_url ls /\
    length ls = if 0 <=? max_images
                then Nat.min (Z.to_nat max_images) (length locs)
                else (length locs - Z.to_nat (- max_images))%nat.
Proof.
  intros Hdf Hp Hf.
  destruct (fetch_images_requests _ _ _ _ _ Hdf Hp Hf) as (ls & Hls & Hr).
  assert (exists rest, locs = SMGCollection.slice_to max_images locs ++ rest)
    as [rest Hrest].
  { unfold SMGCollection.slice_to.
    destruct (0 <=? max_images); eexists; symmetry; apply firstn_skipn. }
  exists ls, rest. split; [by rewrite <- Hls|]. split; [done|].
  by rewrite <- (length_map VStr), <- Hls, length_slice_to.
Qed.

(** At the five records, with the bound [-1]: four requests. *)
Lemma fetch_images_bound_witness :
  length (requests_ (SMGCollection.fetch_images (-1) five_pending).1) = 4%nat.
Proof.
  destruct (SMGCollection.fetch_images (-1) five_pending) as [s' r] eqn:Hf.
  assert (r = Ok tt) as -> by (vm_compute in Hf; by injection Hf as _ <-).
  edestruct (fetch_images_bound (-1) five_pending) as (ls & rest & _ & Hr & Hl);
    [vm_compute; reflexivity .. | exact Hf |].
  cbn [fst]. rewrite Hr, length_app, length_map, Hl. reflexivity.
Defined.

(** X11. The fetcher takes no notice of the cache: a second batch with
    the same bound, run after the first has returned, sends the same
    requests again, for images it has just stored too. *)
Theorem fetch_images_again max_images s s1 s2 :
  SMGCollection.fetch_images max_images s = (s1, Ok tt) ->
  SMGCollection.fetch_images max_images s1 = (s2, Ok tt) ->
  exists new,
    requests_ s1 = requests_ s ++ new /\
    requests_ s2 = requests_ s1 ++ new.
Proof.
  intros H1 H2.
  pose proof (fetch_images_table max_images s) as Ht. rewrite H1 in Ht.
  destruct Ht as (Hdf & _).
  destruct (df s) as [t|] eqn:Hs.
  2: { unfold SMGCollection.fetch_images in H1.
       rewrite bindM_gets, bindM_the, Hs in H1. discriminate. }
  destruct (SMGCollection.pending t) as [locs|] eqn:Hp.
  2: { unfold SMGCollection.fetch_images in H1.
       rewrite bindM_gets, bindM_the, Hs, bindM_lift, Hp in H1. discriminate. }
  destruct (fetch_images_requests _ _ _ _ _ Hs Hp H1) as (ls1 & Hls1 & Hr1).
  destruct (fetch_images_requests _ _ _ _ _ Hdf Hp H2) as (ls2 & Hls2 & Hr2).
  exists (List.map smg_url ls1). split; [done|].
  rewrite Hr2. do 2 f_equal.
  rewrite Hls1 in Hls2. clear -Hls2.
  revert ls2 Hls2. induction ls1 as [|l ls1 IH]; intros [|l2 ls2] [=]; [done|].
  subst. f_equal. by apply IH.
Qed.

(** At the five records: the first two are requested twice. *)
Lemma fetch_images_again_witness :
  requests_ (SMGCollection.fetch_images 2
               (SMGCollection.fetch_images 2 five_pending).1).1
  = [smg_url "1/a.jpg"; smg_url "2/b.jpg"; smg_url "1/a.jpg"; smg_url "2/b.jpg"].
Proof.
  destruct (fetch_images_again 2 five_pending
              (SMGCollection.fetch_images 2 five_pending).1
              (SMGCollection.fetch_images 2
                 (SMGCollection.fetch_images 2 five_pending).1).1)
    as (new & H1 & H2); [vm_compute; reflexivity ..|].
  rewrite H2, H1. vm_compute in H1. subst new. reflexivity.
Defined.

(** X12. A pending location that is not a string, as the missing value
    of a row without image in a table read back from a file is, cannot
    be fetched: when it is the first pending location and the bound is
    positive, the batch raises [TypeError], requests nothing and changes
    nothing. *)
Theorem fetch_images_not_a_string max_images s t v locs :
  df s = Some t ->
  SMGCollection.pending t = Ok (v :: locs) ->
  (forall loc, v <> VStr loc) ->
  0 < max_images ->
  SMGCollection.fetch_images max_images s = (s, Raise TypeError).
Proof.
  intros Hdf Hp Hv Hn. unfold SMGCollection.fetch_images.
  rewrite bindM_gets, bindM_the, Hdf, bindM_lift, Hp. unfold bindM at 1.
  unfold SMGCollection.slice_to.
  destruct (0 <=? max_images) eqn:H0; [|lia].
  destruct (Z.to_nat max_images) as [|n] eqn:Hz; [lia|].
  cbn [firstn mapM]. unfold bindM at 1.
  destruct v; try reflexivity. by destruct (Hv s0).
Qed.

(** At a table read back from a file, whose first row has no image. *)
Lemma fetch_images_not_a_string_witness :
  let t := pd.from_rows
             [[VStr "co1"; VNaN; VNaN; VNaN; VNaN; VNaN; VNaN; VBool false]]
             SMGCollection.columns in
  SMGCollection.fetch_images 100 (set_df (Some t) online)
  = (set_df (Some t) online, Raise TypeError).
Proof.
  intros t.
  apply (fetch_images_not_a_string 100 (set_df (Some t) online) t VNaN []);
    [reflexivity | reflexivity | discriminate | lia].
Defined.

(** ** The NMS fetcher and the cache *)

(** One image of the NMS archive, by what the cache holds and what the
    archive answers. *)
Lemma fetch_one_unfold img s :
  NMSCollection.fetch_one img s =
  let p := Path.div (img_folder s) (img +:+ ".jpg") in
  if bool_decide (is_Some (fs s !! p)) then (s, Ok tt)
  else match remote s (length (requests_ s)) (nms_url img) with
       | Response status_code content =>
           if status_code =? 200
           then os.write_bytes p content (logged (nms_url img) s)
           else (logged (nms_url img) s, Ok tt)
       | Unreachable => (logged (nms_url img) s, Raise ConnectionError)
       end.
Proof.
  unfold NMSCollection.fetch_one. rewrite bindM_gets.
  unfold bindM at 1, os.is_file, gets. cbv zeta.
  destruct (bool_decide _); [done|].
  unfold bindM at 1, requests.get, nms_url, logged.
  destruct (remote s _ _) as [code content|]; [|done].
  cbn [fst snd]. by destruct (code =? 200).
Qed.

Lemma fetch_one_keeps img s :
  same_self s (NMSCollection.fetch_one img s).1 /\
  (forall p content,
     fs s !! p = Some content ->
     fs (NMSCollection.fetch_one img s).1 !! p = Some content).
Proof.
  rewrite fetch_one_unfold. cbv zeta.
  destruct (bool_decide _) eqn:Hc; [split; [apply same_self_refl|done]|].
  apply bool_decide_eq_false in Hc.
  destruct (remote s _ _) as [code content|]; [|by split].
  destruct (code =? 200); [|by split].
  split.
  - eapply same_self_trans; [|apply write_bytes_same_self]. by repeat split.
  - intros q c Hq. unfold os.write_bytes. rewrite bindM_gets.
    destruct (_ || _); [done|]. destruct (negb _); [done|]. cbn.
    rewrite lookup_insert_ne; [done|]. intros <-. apply Hc. by exists c.
Qed.

Lemma for_each_fetch_one_keeps imgs s s' r :
  for_each NMSCollection.fetch_one imgs s = (s', r) ->
  same_self s s' /\
  (forall p content, fs s !! p = Some content -> fs s' !! p = Some content).
Proof.
  revert s. induction imgs as [|img imgs IH]; intros s.
  { intros [= <- _]. split; [apply same_self_refl|done]. }
  cbn [for_each]. unfold bindM at 1.
  destruct (fetch_one_keeps img s) as [Hs Hf].
  destruct (NMSCollection.fetch_one img s) as [s1 [[]|e]]; cbn [fst] in *.
  - intros [Hs' Hf']%IH. split; [by eapply same_self_trans|].
    intros p c Hp. by apply Hf', Hf.
  - by intros [= <- _].
Qed.

Lemma nms_fetch_images_unfold s :
  NMSCollection.fetch_images s =
  match nms_ids s with
  | Ok imgs => for_each NMSCollection.fetch_one imgs s
  | Raise e => (s, Raise e)
  end.
Proof.
  unfold NMSCollection.fetch_images, nms_ids.
  rewrite bindM_gets, bindM_the. destruct (df s) as [t|]; [|done].
  rewrite bindM_lift. destruct (pd.getitem t "img_loc"); [|done].
  rewrite bindM_lift. cbn [bind]. by destruct (map_result _ _).
Qed.

(** X13. The NMS fetcher never writes over a file and never removes one:
    every file of the cache is there, with the same content, after the
    batch, whether the batch returns or raises. *)
Theorem nms_fetch_images_keeps_files s p content :
  fs s !! p = Some content ->
  fs (NMSCollection.fetch_images s).1 !! p = Some content.
Proof.
  intros Hp. rewrite nms_fetch_images_unfold.
  destruct (nms_ids s) as [imgs|]; [|done].
  destruct (for_each NMSCollection.fetch_one imgs s) as [s' r] eqn:Hf.
  by apply (for_each_fetch_one_keeps _ _ _ _ Hf).
Qed.

(** With a file in the cache that the archive would send again. *)
Lemma nms_fetch_images_keeps_files_witness :
  let s := set_fs {[ ["nms_imgs"; "PF1001.jpg"] := "old" ]} nms_loaded in
  fs (NMSCollection.fetch_images s).1 !! ["nms_imgs"; "PF1001.jpg"] = Some "old".
Proof.
  intros s. by apply (nms_fetch_images_keeps_files s).
Defined.

Lemma write_bytes_Ok p content s s' :
  os.write_bytes p content s = (s', Ok tt) ->
  fs s' = <[p := content]> (fs s).
Proof.
  unfold os.write_bytes. rewrite bindM_gets.
  destruct (_ || _); [discriminate|]. destruct (negb _); [discriminate|].
  by intros [= <-].
Qed.

Lemma fetch_one_stored img s s' :
  always_stored s ->
  NMSCollection.fetch_one img s = (s', Ok tt) ->
  is_Some (fs s' !! Path.div (img_folder s) (img +:+ ".jpg")).
Proof.
  intros Hall. rewrite fetch_one_unfold. cbv zeta.
  destruct (bool_decide _) eqn:Hc.
  { intros [= <-]. by apply bool_decide_eq_true in Hc. }
  destruct (Hall (length (requests_ s)) (nms_url img)) as [content ->].
  change (200 =? 200) with true. cbv iota.
  intros ->%write_bytes_Ok. cbn. rewrite lookup_insert_eq. by eexists.
Qed.

Lemma for_each_fetch_one_stored imgs s s' :
  always_stored s ->
  for_each NMSCollection.fetch_one imgs s = (s', Ok tt) ->
  Forall (fun img => is_Some (fs s' !! Path.div (img_folder s) (img +:+ ".jpg")))
    imgs.
Proof.
  revert s. induction imgs as [|img imgs IH]; intros s Hall; [constructor|].
  cbn [for_each]. unfold bindM at 1.
  destruct (NMSCollection.fetch_one img s) as [s1 [[]|e]] eqn:H1; [|discriminate].
  intros Hrest.
  destruct (fetch_one_keeps img s) as [Hs _]. rewrite H1 in Hs. cbn [fst] in Hs.
  destruct Hs as (_ & Hfolder & _ & _ & _ & _ & _ & Hremote & _).
  assert (always_stored s1) as Hall1.
  { unfold always_stored. by rewrite Hremote. }
  constructor.
  - destruct (fetch_one_stored img s s1 Hall H1) as [c Hc].
    destruct (for_each_fetch_one_keeps _ _ _ _ Hrest) as [_ Hk].
    exists c. by apply Hk.
  - rewrite <- Hfolder. by apply IH.
Qed.

Lemma for_each_fetch_one_cached imgs s :
  Forall (fun img => is_Some (fs s !! Path.div (img_folder s) (img +:+ ".jpg")))
    imgs ->
  for_each NMSCollection.fetch_one imgs s = (s, Ok tt).
Proof.
  induction 1 as [|img imgs Himg _ IH]; [done|].
  cbn [for_each]. unfold bindM at 1. rewrite fetch_one_unfold. cbv zeta.
  by rewrite bool_decide_eq_true_2.
Qed.

(** X14. Where the archive answers every request with status 200, a
    batch of the NMS fetcher that returns has stored every image it
    goes through, so that a second batch finds them all in the cache:
    it sends no request and changes nothing. *)
Theorem nms_fetch_images_twice s s1 :
  always_stored s ->
  NMSCollection.fetch_images s = (s1, Ok tt) ->
  NMSCollection.fetch_images s1 = (s1, Ok tt).
Proof.
  intros Hall. rewrite !nms_fetch_images_unfold.
  destruct (nms_ids s) as [imgs|] eqn:Hids; [|discriminate]. intros Hf.
  destruct (for_each_fetch_one_keeps _ _ _ _ Hf) as [(Hdf & Hfolder & _) _].
  assert (nms_ids s1 = Ok imgs) as ->.
  { unfold nms_ids in *. by rewrite Hdf. }
  apply for_each_fetch_one_cached. rewrite Hfolder.
  by apply for_each_fetch_one_stored.
Qed.

(** At the NMS export. *)
Lemma nms_fetch_images_twice_witness :
  let s1 := (NMSCollection.fetch_images nms_loaded).1 in
  requests_ s1 = [nms_url "PF1001"] /\
  NMSCollection.fetch_images s1 = (s1, Ok tt).
Proof.
  intros s1. split; [vm_compute; reflexivity|].
  apply (nms_fetch_images_twice nms_loaded).
  - intros k url. by exists "JFIF".
  - vm_compute. reflexivity.
Defined.

(** ** The BT normalizer and fetcher *)

(** X15. [load_from_xml] never raises and builds one row for each
    record, in order. In a row, [downloaded] is true if and only if the
    record has a thumbnail with a text that is not empty and a file
    exists at the image folder joined with that text, which is then the
    [img_path]; a record with no thumbnail, or an empty one, has the
    thumbnail's value as [img_path] and [downloaded] false. *)
Theorem load_from_xml_rows records s :
  exists t,
    BTCollection.load_from_xml records s = (set_df (Some t) s, Ok tt) /\
    Forall2 (fun r row =>
      let thumbnail := BTCollection.find_and_get_text r "Thumbnail" in
      (pd.cell 5 row = VBool true <->
       exists text, thumbnail = VStr text /\ text <> "" /\
         is_Some (fs s !! Path.div (img_folder s) text)) /\
      (forall text, thumbnail = VStr text -> text <> "" ->
         pd.cell 4 row = VPath (Path.div (img_folder s) text)) /\
      (thumbnail = VStr "" \/ thumbnail = VNone ->
         pd.cell 4 row = thumbnail /\ pd.cell 5 row = VBool false))
      records (data t).
Proof.
  eexists. split; [apply load_from_xml_table|]. cbn [data].
  induction records as [|r records IH]; [constructor|].
  cbn [List.map]. constructor; [|exact IH].
  unfold bt_row, pd.cell, BTCollection.find_and_get_text. cbn [nth]. cbv zeta.
  destruct (assoc "Thumbnail" r) as [[[|c text]|]|]; cbn -[Path.div].
  - split; [split; [discriminate|by intros (? & [= <-] & ? & _)]|].
    split; [by intros ? [= <-]|done].
  - split; [split|split].
    + intros [= Hb%bool_decide_eq_true]. exists (String c text). by repeat split.
    + intros (text' & [= <-] & _ & Hf). by rewrite bool_decide_eq_true_2.
    + by intros text' [= <-] _.
    + by intros [[=]|[=]].
  - split; [split; [discriminate|by intros (? & [=] & _)]|].
    split; [by intros ? [=]|done].
  - split; [split; [discriminate|by intros (? & [= <-] & ? & _)]|].
    split; [by intros ? [= <-]|done].
Qed.

(** X16. After [load_from_xml], which renames the column [Thumbnail] to
    [img_loc], [fetch_images] of the BT collection finds no column
    [Thumbnail]: it raises [AttributeError], sends no request and
    changes nothing. *)
Theorem bt_fetch_images_after_load records n s :
  let s1 := (BTCollection.load_from_xml records s).1 in
  BTCollection.fetch_images n s1 = (s1, Raise AttributeError).
Proof.
  rewrite load_from_xml_table. cbn [fst]. unfold BTCollection.fetch_images.
  rewrite bindM_gets. reflexivity.
Qed.

Lemma bindM_ret {A B} (a : A) (k : A -> M B) s : bindM (ret a) k s = k a s.
Proof. reflexivity. Qed.

Lemma not_cached_strings names s :
  BTCollection.not_cached (List.map VStr names) s
  = (s, Ok (List.filter (fun img => negb (bt_cached s img)) names)).
Proof.
  induction names as [|img names IH]; [reflexivity|].
  cbn [List.map BTCollection.not_cached]. rewrite bindM_ret, bindM_gets.
  unfold bindM at 1, os.is_file, gets. unfold bindM at 1. rewrite IH.
  cbn [List.filter]. unfold bt_cached at 3. unfold ret.
  by destruct (bool_decide _).
Qed.

Lemma bt_fetch_image_requests loc s :
  requests_ (BTCollection.fetch_image loc s).1 = requests_ s ++ [bt_url loc].
Proof.
  unfold BTCollection.fetch_image, bt_url. unfold bindM at 1, requests.get.
  destruct (remote s _ _) as [code content|]; [|reflexivity].
  cbn [fst snd]. destruct (code =? 200); [|reflexivity].
  rewrite bindM_gets. unfold bindM.
  set (s1 := set_requests _ s).
  pose proof (write_bytes_same_self
                (Path.div (img_folder s1) (BTCollection.last_part loc))
                content s1) as [_ Hr].
  by destruct (os.write_bytes _ _ _) as [s2 [[]|e]].
Qed.

Lemma bt_for_each_requests imgs s s' :
  for_each (fun img => BTCollection.fetch_image img ;; ret tt) imgs s
    = (s', Ok tt) ->
  requests_ s' = requests_ s ++ List.map bt_url imgs.
Proof.
  revert s. induction imgs as [|img imgs IH]; intros s.
  { intros [= <-]. by rewrite app_nil_r. }
  cbn [for_each]. unfold bindM at 1. unfold bindM at 1.
  pose proof (bt_fetch_image_requests img s) as Hr.
  destruct (BTCollection.fetch_image img s) as [s1 [b|e]]; [|discriminate].
  cbn [ret fst] in *. intros ->%IH. by rewrite Hr, <- app_assoc.
Qed.

(** X17. With its default bound [-1], a batch of the BT fetcher that
    returns has requested the thumbnails that are not in the cache, in
    the order of the table, but for the last of them: the last missing
    thumbnail is never fetched, and with one thumbnail missing nothing
    is requested. Thumbnails in the cache are not requested. *)
Theorem bt_fetch_images_default s t names s' :
  df s = Some t ->
  thumbnails t = Ok (List.map VStr names) ->
  BTCollection.fetch_images (-1) s = (s', Ok tt) ->
  requests_ s' = requests_ s
    ++ List.map bt_url
         (removelast (List.filter (fun img => negb (bt_cached s img)) names)).
Proof.
  intros Hdf Ht. unfold BTCollection.fetch_images, thumbnails in *.
  rewrite bindM_gets, bindM_the, Hdf, bindM_lift.
  destruct (pd.getattr t "Thumbnail") as [thumbnail|]; [|discriminate].
  cbn [bind] in Ht. injection Ht as ->.
  unfold bindM at 1. rewrite not_cached_strings.
  intros ->%bt_for_each_requests. do 2 f_equal.
  unfold SMGCollection.slice_to. change (0 <=? -1) with false. cbv iota.
  rewrite removelast_firstn_len. f_equal.
  change (Z.to_nat (- -1)) with 1%nat. lia.
Qed.

(** At a table of three thumbnails, the first of them in the cache: of
    the two that are missing, the first is requested. *)
Lemma bt_fetch_images_default_witness :
  let t := pd.from_rows [[VStr "a.jpg"]; [VStr "b.jpg"]; [VStr "c.jpg"]]
             ["Thumbnail"] in
  let s := set_fs {[ ["imgs"; "a.jpg"] := "JFIF" ]} (set_df (Some t) bt_fresh) in
  requests_ (BTCollection.fetch_images (-1) s).1 = [bt_url "b.jpg"].
Proof.
  intros t s.
  rewrite (bt_fetch_images_default s t ["a.jpg"; "b.jpg"; "c.jpg"]
             (BTCollection.fetch_images (-1) s).1);
    [reflexivity | reflexivity | reflexivity | vm_compute; reflexivity].
Defined.

(** ** The embedding pipeline and the dataset *)

Lemma mapM_length {A B} (f : A -> M B) l s s' l' :
  mapM f l s = (s', Ok l') -> length l' = length l.
Proof.
  revert s l'. induction l as [|x l IH]; intros s l'.
  { by intros [= _ <-]. }
  cbn [mapM]. unfold bindM at 1.
  destruct (f x s) as [s1 [y|e]]; [|intros H; inversion H].
  unfold bindM at 1.
  destruct (mapM f l s1) as [s2 [ys|e]] eqn:Hl; [|intros H; inversion H].
  intros [= <- <-]. cbn. f_equal. by eapply IH.
Qed.

Lemma mapM_reads_only {A B} (f : A -> M B) l s :
  (forall x s, (f x s).1 = s) -> (mapM f l s).1 = s.
Proof.
  intros Hf.
  apply (mapM_invariant (fun s s' => s' = s) f); [done| |done].
  by intros s1 s2 s3 -> ->.
Qed.

(** Mapping a function that only reads over the dataset and storing the
    result: nothing but the dataset changes, and it keeps its length. *)
Lemma map_and_store f s :
  (forall row s, (f row s).1 = s) ->
  let '(s', r) :=
    (let! ds := gets dataset in
     let! ds := MultiModalCollection.the ds in
     let! ds := map_dataset f ds in
     modify (set_dataset (Some ds))) s in
  (s' = s /\ r <> Ok tt) \/
  exists ds ds',
    dataset s = Some ds /\ s' = set_dataset (Some ds') s /\
    length ds' = length ds /\ r = Ok tt.
Proof.
  intros Hf. rewrite bindM_gets, bindM_the.
  destruct (dataset s) as [ds|] eqn:Hds; [|by left].
  unfold bindM at 1, map_dataset.
  assert ((mapM (fun row => let! upd := f row in ret (update row upd)) ds s).1
          = s) as Hs.
  { apply mapM_reads_only. intros x s0. unfold bindM. specialize (Hf x s0).
    by destruct (f x s0) as [? [?|?]]. }
  destruct (mapM _ ds s) as [s1 [ds'|e]] eqn:Hm; cbn [fst] in Hs; subst s1.
  - right. exists ds, ds'. split; [done|]. split; [done|].
    split; [by eapply mapM_length|done].
  - by left.
Qed.

Lemma open_image_reads record target_col s :
  (open_image record target_col s).1 = s.
Proof.
  unfold open_image. rewrite bindM_lift.
  destruct (getitem record target_col) as [v|]; [|done].
  destruct v; try reflexivity;
    rewrite bindM_ret, bindM_gets; by destruct (fs s !! _).
Qed.

Lemma extract_clip_embedding_reads record modality s :
  (MultiModalCollection.extract_clip_embedding record modality s).1 = s.
Proof.
  unfold MultiModalCollection.extract_clip_embedding.
  rewrite bindM_gets, bindM_the. destruct (clip_model s) as [m|]; [|done].
  rewrite bindM_lift. destruct (getitem record modality); [|done].
  rewrite bindM_gets, bindM_lift. by destruct (encode s m a).
Qed.

(** X18. [embed_clip] attaches the embeddings to the dataset and to
    nothing else: whether it returns or raises, the table, the cache,
    the image set and the log of requests are as they were. An encoder
    that is loaded already is kept, whatever checkpoint is asked for;
    and when [embed_clip] returns, the dataset has as many rows as
    before. *)
Theorem embed_clip_keeps_table target_col modality model_ckpt s :
  let '(s', r) :=
    MultiModalCollection.embed_clip target_col modality model_ckpt s in
  df s' = df s /\ fs s' = fs s /\ images s' = images s /\
  requests_ s' = requests_ s /\
  clip_model s' = Some (default (SentenceTransformer model_ckpt) (clip_model s)) /\
  (r = Ok tt ->
   exists ds ds',
     dataset s = Some ds /\ dataset s' = Some ds' /\ length ds' = length ds).
Proof.
  unfold MultiModalCollection.embed_clip. rewrite bindM_gets.
  set (s0 := if clip_model s is None
             then set_clip_model (Some (SentenceTransformer model_ckpt))
                    (set_clip_model_ckpt (Some model_ckpt) s)
             else s).
  assert (df s0 = df s /\ fs s0 = fs s /\ images s0 = images s /\
          requests_ s0 = requests_ s /\ dataset s0 = dataset s /\
          clip_model s0
          = Some (default (SentenceTransformer model_ckpt) (clip_model s)))
    as (Hdf & Hfs & Him & Hrq & Hds & Hcm).
  { unfold s0. destruct (clip_model s) eqn:E; cbn; rewrite ?E; by repeat split. }
  unfold bindM at 1.
  assert ((if clip_model s is None
           then MultiModalCollection.load_clip_model model_ckpt
           else ret tt) s = (s0, Ok tt)) as ->.
  { unfold s0. by destruct (clip_model s). }
  rewrite <- Hdf, <- Hfs, <- Him, <- Hrq, <- Hds, <- Hcm. clearbody s0. clear.
  unfold bindM at 1.
  assert (forall f, (forall row s, (f row s).1 = s) ->
            let '(s', r) :=
              (let! ds := gets dataset in
               let! ds := MultiModalCollection.the ds in
               let! ds := map_dataset f ds in
               modify (set_dataset (Some ds))) s0 in
            (s' = s0 /\ r <> Ok tt) \/
            exists ds ds',
              dataset s0 = Some ds /\ s' = set_dataset (Some ds') s0 /\
              length ds' = length ds /\ r = Ok tt) as Hstep0
    by (intros f; apply map_and_store).
  assert (let '(s1, r1) :=
            (if String.eqb modality "text" then
               let! ds := gets dataset in
               let! ds := MultiModalCollection.the ds in
               let! ds := map_dataset (fun r => lift (lower_case r target_col)) ds in
               modify (set_dataset (Some ds))
             else if String.eqb modality "image" then
               let! ds := gets dataset in
               let! ds := MultiModalCollection.the ds in
               let! ds := map_dataset (fun r => open_image r target_col) ds in
               modify (set_dataset (Some ds))
             else raise (Exception "Modality has to be either 'text' or 'image"))
              s0 in
          (s1 = s0 /\ r1 <> Ok tt) \/
          exists ds ds',
            dataset s0 = Some ds /\ s1 = set_dataset (Some ds') s0 /\
            length ds' = length ds /\ r1 = Ok tt) as H1.
  { destruct (String.eqb modality "text").
    - apply Hstep0. intros row s1. by destruct (lower_case row target_col).
    - destruct (String.eqb modality "image").
      + apply Hstep0. intros row s1. apply open_image_reads.
      + by left. }
  match type of H1 with
  | let '(_, _) := ?e in _ => destruct e as [s1 r1]
  end.
  destruct H1 as [[-> Hr1]|(ds & ds1 & Hds & -> & Hlen & ->)].
  { destruct r1 as [[]|e]; [done|]. by repeat split. }
  pose proof (map_and_store
                (fun r => MultiModalCollection.extract_clip_embedding r modality)
                (set_dataset (Some ds1) s0)
                (fun row s => extract_clip_embedding_reads row modality s)) as H2.
  match type of H2 with
  | let '(_, _) := ?e in _ => destruct e as [s2 r2]
  end.
  destruct H2 as [[-> Hr2]|(ds' & ds2 & Hds' & -> & Hlen' & ->)].
  { destruct r2 as [[]|e]; [done|]. by repeat split. }
  cbn in Hds'. injection Hds' as <-.
  repeat split. intros _. exists ds, ds2. repeat split; [done|]. congruence.
Qed.

(** At the filtered table of two records, for the text. *)
Lemma embed_clip_keeps_table_witness :
  let '(s', r) :=
    MultiModalCollection.embed_clip "description" "text" "clip-ViT-B-32"
      embed_ready in
  r = Ok tt /\ df s' = df embed_ready /\
  option_map (@length _) (dataset s') = Some 1%nat.
Proof.
  pose proof (embed_clip_keeps_table "description" "text" "clip-ViT-B-32"
                embed_ready) as H.
  destruct (MultiModalCollection.embed_clip _ _ _ embed_ready) as [s' r] eqn:He.
  assert (r = Ok tt) as -> by (vm_compute in He; by injection He as _ <-).
  destruct H as (Hdf & _ & _ & _ & _ & Hok).
  destruct (Hok eq_refl) as (ds & ds' & Hds & -> & Hlen).
  repeat split; [done|]. cbn. rewrite Hlen.
  vm_compute in Hds. by injection Hds as <-.
Defined.




(** ** The filter, applied again and after a load *)

(** The filter by cases: a column it needs is missing, the name of the
    new column is taken, or the new table. *)
Lemma filter_table_cases t :
  match pd.position "downloaded" (columns t),
        pd.position "description" (columns t) with
  | None, _ => filter_table t = Raise AttributeError
  | Some _, None => filter_table t = Raise KeyError
  | Some i, Some j =>
      if pd.has_column (new_column t) t
      then filter_table t = Raise ValueError
      else exists t1,
             filter_table t = Ok t1 /\
             columns t1 = new_column t :: columns t /\
             pd.index_name (index_ t1) = None
  end.
Proof.
  unfold filter_table, pd.getattr, pd.getitem.
  destruct (pd.position "downloaded" (columns t)) as [i|]; [|done].
  destruct (pd.position "description" (columns t)) as [j|]; [|done].
  cbn [bind]. unfold pd.reset_index.
  cbn [pd.select index_ pd.index_name columns data pd.labels].
  rewrite !has_column_select. fold (new_column t).
  destruct (pd.has_column (new_column t) t); [done|]. by eexists.
Qed.

Lemma has_column_cons c name cols i d :
  pd.has_column c (mkDataFrame (name :: cols) i d)
  = String.eqb c name || pd.has_column c (mkDataFrame cols i d).
Proof.
  unfold pd.has_column. cbn.
  destruct (String.eqb c name); [done|].
  by destruct (pd.position c cols).
Qed.

Lemma has_column_columns c t t' :
  columns t = columns t' -> pd.has_column c t = pd.has_column c t'.
Proof. unfold pd.has_column. by intros ->. Qed.

Lemma has_column_new c name t t1 :
  columns t1 = name :: columns t ->
  pd.has_column c t1 = String.eqb c name || pd.has_column c t.
Proof.
  intros H.
  rewrite (has_column_columns c t1 (mkDataFrame (name :: columns t) (index_ t) (data t)))
    by done.
  rewrite has_column_cons. f_equal.
Qed.

(** The table after two applications of the filter, and the third. *)
Lemma filter_table_third t t1 t2 :
  pd.index_name (index_ t) = None ->
  filter_table t = Ok t1 -> filter_table t1 = Ok t2 ->
  columns t2 = "level_0" :: "index" :: columns t /\
  filter_table t2 = Raise ValueError.
Proof.
  intros Hname H1 H2.
  pose proof (filter_table_cases t) as C1. rewrite H1 in C1.
  destruct (pd.position "downloaded" (columns t)) as [i|] eqn:Hi; [|done].
  destruct (pd.position "description" (columns t)) as [j|] eqn:Hj; [|done].
  destruct (pd.has_column (new_column t) t) eqn:Hn1; [done|].
  destruct C1 as (t1' & [= <-] & Hc1 & Hx1).
  pose proof (filter_table_cases t1) as C2. rewrite H2 in C2.
  destruct (pd.position "downloaded" (columns t1)) as [i1|] eqn:Hi1; [|done].
  destruct (pd.position "description" (columns t1)) as [j1|] eqn:Hj1; [|done].
  destruct (pd.has_column (new_column t1) t1) eqn:Hn2; [done|].
  destruct C2 as (t2' & [= <-] & Hc2 & Hx2).
  unfold new_column in Hn1, Hc1, Hn2, Hc2. rewrite Hname in Hn1, Hc1.
  rewrite Hx1 in Hn2, Hc2.
  destruct (pd.has_column "index" t) eqn:Hidx.
  { assert (pd.has_column "index" t1 = true) as Ht1
      by (by rewrite (has_column_new _ _ _ _ Hc1), Hidx, orb_true_r).
    rewrite Ht1 in Hn2. by rewrite (has_column_new _ _ _ _ Hc1) in Hn2. }
  assert (pd.has_column "index" t1 = true) as Ht1
    by (by rewrite (has_column_new _ _ _ _ Hc1)).
  rewrite Ht1 in Hn2, Hc2. rewrite Hc1 in Hc2. split; [done|].
  pose proof (filter_table_cases t2) as C3.
  rewrite Hc2 in C3. cbn [pd.position] in C3.
  rewrite Hc1 in Hi1, Hj1. cbn [pd.position] in Hi1, Hj1.
  assert (String.eqb "downloaded" "level_0" = false) as E1 by reflexivity.
  assert (String.eqb "description" "level_0" = false) as E2 by reflexivity.
  assert (String.eqb "downloaded" "index" = false) as E3 by reflexivity.
  assert (String.eqb "description" "index" = false) as E4 by reflexivity.
  rewrite E1, E2, E3, E4, Hi, Hj in C3. cbn [option_map] in C3.
  unfold new_column in C3. rewrite Hx2 in C3.
  assert (pd.has_column "index" t2 = true) as Ht2
    by (unfold pd.has_column; by rewrite Hc2).
  assert (pd.has_column "level_0" t2 = true) as Hl2
    by (unfold pd.has_column; by rewrite Hc2).
  by rewrite Ht2, Hl2 in C3.
Qed.

(** X20. Starting from a table whose index has no name, [filter_records]
    returns at most twice in a row: the first two applications put the
    columns [index] and [level_0] in front, and the third finds both
    names taken, raises [ValueError] and leaves the collection as the
    second application left it. *)
Theorem filter_records_third_raises s s1 s2 t :
  df s = Some t -> pd.index_name (index_ t) = None ->
  MultiModalCollection.filter_records s = (s1, Ok tt) ->
  MultiModalCollection.filter_records s1 = (s2, Ok tt) ->
  option_map columns (df s2) = Some ("level_0" :: "index" :: columns t) /\
  MultiModalCollection.filter_records s2 = (s2, Raise ValueError).
Proof.
  intros Ht Hname H1 H2. rewrite filter_records_unfold, Ht in H1.
  destruct (filter_table t) as [t1|] eqn:E1; [|discriminate].
  injection H1 as <-. rewrite filter_records_unfold in H2. cbn [df set_dataset set_df] in H2.
  destruct (filter_table t1) as [t2|] eqn:E2; [|discriminate].
  injection H2 as <-.
  destruct (filter_table_third t t1 t2 Hname E1 E2) as [Hc E3].
  split; [cbn; by rewrite Hc|].
  rewrite filter_records_unfold. cbn [df set_dataset set_df].
  by rewrite E3.
Qed.

(** At the table of two records. *)
Lemma filter_records_third_raises_witness :
  let s := set_df (Some two_rows) offline in
  let s1 := (MultiModalCollection.filter_records s).1 in
  let s2 := (MultiModalCollection.filter_records s1).1 in
  MultiModalCollection.filter_records s2 = (s2, Raise ValueError).
Proof.
  intros s s1 s2.
  apply (filter_records_third_raises s s1 s2 two_rows); vm_compute; reflexivity.
Defined.









(** ** The table of [load_original_csvs], row by row *)

Lemma position_lookup c cols i :
  pd.position c cols = Some i -> cols !! i = Some c.
Proof.
  revert i. induction cols as [|c' cols IH]; intros i; cbn; [done|].
  destruct (String.eqb c c') eqn:E.
  - apply String.eqb_eq in E as ->. by intros [= <-].
  - destruct (pd.position c cols) as [j|]; [|done]. intros [= <-]. by apply IH.
Qed.

Lemma position_lt c cols i :
  pd.position c cols = Some i -> (i < length cols)%nat.
Proof. intros H%position_lookup. by eapply lookup_lt_Some. Qed.

Lemma position_ne c c' cols i j :
  pd.position c cols = Some i -> pd.position c' cols = Some j ->
  c <> c' -> i <> j.
Proof.
  intros Hi%position_lookup Hj%position_lookup Hne ->. congruence.
Qed.

Lemma position_app_new c cols :
  pd.position c cols = None ->
  pd.position c (cols ++ [c]) = Some (length cols).
Proof.
  induction cols as [|c' cols IH]; cbn.
  - by rewrite String.eqb_refl.
  - destruct (String.eqb c c'); [done|].
    destruct (pd.position c cols); [done|]. intros _. by rewrite IH.
Qed.

Lemma position_app_old c c' cols j :
  pd.position c' cols = Some j -> pd.position c' (cols ++ [c]) = Some j.
Proof.
  revert j. induction cols as [|c'' cols IH]; intros j; cbn; [done|].
  destruct (String.eqb c' c''); [done|].
  destruct (pd.position c' cols) as [k|]; [|done].
  intros [= <-]. by rewrite (IH k).
Qed.

Lemma cell_lookup i row : pd.cell i row = default VNaN (row !! i).
Proof. apply nth_lookup. Qed.

Lemma cell_insert_eq i v row :
  (i < length row)%nat -> pd.cell i (<[i := v]> row) = v.
Proof. intros H. by rewrite cell_lookup, list_lookup_insert_eq. Qed.

Lemma cell_insert_ne i j v row :
  i <> j -> pd.cell j (<[i := v]> row) = pd.cell j row.
Proof. intros H. by rewrite !cell_lookup, list_lookup_insert_ne. Qed.

Lemma cell_app_new v row : pd.cell (length row) (row ++ [v]) = v.
Proof. rewrite cell_lookup, lookup_app_r by lia. by rewrite Nat.sub_diag. Qed.

Lemma cell_app_old j v row :
  (j < length row)%nat -> pd.cell j (row ++ [v]) = pd.cell j row.
Proof. intros H. by rewrite !cell_lookup, lookup_app_l. Qed.

Lemma map_zip_with_new {A B C} (f : A -> B -> C) (g : C -> A) (P : B -> Prop)
    vs rows :
  length vs = length rows -> Forall P rows ->
  (forall v row, P row -> g (f v row) = v) ->
  List.map g (zip_with f vs rows) = vs.
Proof.
  intros Hl Hrows Hg. revert vs Hl.
  induction Hrows as [|r rows Hr _ IH]; intros [|v vs] [=]; cbn; [done|].
  by rewrite Hg, IH.
Qed.

Lemma map_zip_with_old {A B C D} (f : A -> B -> C) (h : C -> D) (h' : B -> D)
    (P : B -> Prop) vs rows :
  length vs = length rows -> Forall P rows ->
  (forall v row, P row -> h (f v row) = h' row) ->
  List.map h (zip_with f vs rows) = List.map h' rows.
Proof.
  intros Hl Hrows Hh. revert vs Hl.
  induction Hrows as [|r rows Hr _ IH]; intros [|v vs] [=]; cbn; [done|].
  by rewrite Hh, IH.
Qed.

Lemma Forall_zip_with_rows {A B C} (f : A -> B -> C) (P : B -> Prop)
    (Q : C -> Prop) vs rows :
  Forall P rows -> (forall v row, P row -> Q (f v row)) ->
  Forall Q (zip_with f vs rows).
Proof.
  intros Hrows Hf. revert vs.
  induction Hrows as [|r rows Hr _ IH]; intros [|v vs]; cbn; constructor; auto.
Qed.

(** Setting a column of a table whose rows are as long as its header. *)
Lemma setitem_spec c vs t :
  wf t -> length vs = length (data t) ->
  wf (pd.setitem c vs t) /\
  length (data (pd.setitem c vs t)) = length (data t) /\
  index_ (pd.setitem c vs t) = index_ t /\
  col c (pd.setitem c vs t) = Some vs /\
  (forall c' l, c' <> c -> col c' t = Some l ->
                col c' (pd.setitem c vs t) = Some l).
Proof.
  intros Hwf Hl. unfold pd.setitem, col.
  destruct (pd.position c (columns t)) as [i|] eqn:Hi; cbn [columns data index_].
  - pose proof (position_lt _ _ _ Hi) as Hlt.
    split; [|split; [|split; [done|split]]].
    + unfold wf. cbn [columns data].
      eapply Forall_zip_with_rows; [exact Hwf|].
      intros v row Hrow. by rewrite length_insert.
    + rewrite length_zip_with. lia.
    + rewrite Hi. cbn. f_equal.
      eapply map_zip_with_new; [done|exact Hwf|].
      intros v row Hrow. cbn beta in Hrow. apply cell_insert_eq. lia.
    + intros c' l Hne. destruct (pd.position c' (columns t)) as [j|] eqn:Hj; [|done].
      cbn. intros [= <-]. f_equal.
      eapply map_zip_with_old; [done|exact Hwf|].
      intros v row _. apply cell_insert_ne.
      eapply position_ne; eauto.
  - split; [|split; [|split; [done|split]]].
    + unfold wf. cbn [columns data].
      eapply Forall_zip_with_rows; [exact Hwf|].
      intros v row Hrow. cbn beta in Hrow. rewrite !length_app. cbn. lia.
    + rewrite length_zip_with. lia.
    + rewrite position_app_new by done. cbn. f_equal.
      eapply map_zip_with_new; [done|exact Hwf|].
      intros v row Hrow. cbn beta in Hrow. rewrite <- Hrow. apply cell_app_new.
    + intros c' l Hne. destruct (pd.position c' (columns t)) as [j|] eqn:Hj; [|done].
      rewrite (position_app_old _ _ _ _ Hj).
      cbn. intros [= <-]. f_equal.
      eapply map_zip_with_old; [done|exact Hwf|].
      intros v row Hrow. cbn beta in Hrow. apply cell_app_old. rewrite Hrow.
      by eapply position_lt.
Qed.

Lemma getitem_col t c l : pd.getitem t c = Ok l <-> col c t = Some l.
Proof.
  unfold pd.getitem, col. destruct (pd.position _ _); cbn; [|done].
  split; congruence.
Qed.

Lemma getattr_col t c l : pd.getattr t c = Ok l <-> col c t = Some l.
Proof.
  unfold pd.getattr, col. destruct (pd.position _ _); cbn; [|done].
  split; congruence.
Qed.

Lemma col_length c t l : col c t = Some l -> length l = length (data t).
Proof.
  unfold col. destruct (pd.position _ _); cbn; [|done].
  intros [= <-]. apply length_map.
Qed.

Lemma map_result_length {A B} (f : A -> result B) l ys :
  map_result f l = Ok ys -> length ys = length l.
Proof. intros H%map_result_Ok. symmetry. by eapply Forall2_length. Qed.

Lemma project_spec cols t t' :
  pd.project cols t = Ok t' ->
  wf t' /\ columns t' = cols /\
  exists ps,
    Forall2 (fun c i => pd.position c (columns t) = Some i) cols ps /\
    data t' = List.map (fun row => List.map (fun i => pd.cell i row) ps) (data t).
Proof.
  unfold pd.project. intros H. apply bind_Ok in H as (ps & Hps & [= <-]).
  split; [|split; [done|]].
  - unfold wf. cbn [columns data]. apply List.Forall_forall. intros row Hrow.
    apply in_map_iff in Hrow as (r & <- & _).
    rewrite length_map. by apply map_result_length in Hps.
  - exists ps. split; [|done]. apply map_result_Ok in Hps.
    eapply Forall2_impl; [exact Hps|]. intros c i. cbn.
    destruct (pd.position c (columns t)); [|done]. by intros [= ->].
Qed.

Lemma concat_wf cols dfs :
  Forall (fun t => wf t /\ columns t = cols) dfs -> wf (pd.concat cols dfs).
Proof.
  unfold wf, pd.concat. cbn [columns data].
  induction 1 as [|t dfs [Ht Hc] _ IH]; cbn; [constructor|].
  apply Forall_app. split; [|exact IH]. by rewrite <- Hc.
Qed.

Lemma first_of_each_rows (P : list pyval -> Prop) i seen ls rows :
  Forall P rows -> Forall P (pd.first_of_each i seen ls rows).2.
Proof.
  intros H. revert seen ls.
  induction H as [|r rows Hr _ IH]; intros seen [|l ls]; cbn; try constructor.
  destruct (existsb _ seen); [apply IH|].
  specialize (IH (pd.cell i r :: seen) ls).
  destruct (pd.first_of_each i (pd.cell i r :: seen) ls rows). cbn in *.
  by constructor.
Qed.

Lemma drop_duplicates_wf c t t' :
  wf t -> pd.drop_duplicates c t = Ok t' ->
  wf t' /\ columns t' = columns t /\ pd.index_name (index_ t') = pd.index_name (index_ t).
Proof.
  unfold pd.drop_duplicates. intros Hwf.
  destruct (pd.position c (columns t)) as [i|]; [|done].
  pose proof (first_of_each_rows _ i [] (pd.labels (index_ t)) _ Hwf) as H.
  destruct (pd.first_of_each _ _ _ _) as [ls rows]. intros [= <-]. done.
Qed.

Lemma reset_index_wf t t' :
  wf t -> pd.reset_index t = Ok t' -> wf t'.
Proof.
  unfold pd.reset_index. intros Hwf.
  destruct (pd.has_column _ t); [done|]. intros [= <-].
  unfold wf. cbn [columns data].
  eapply Forall_impl; [apply zip_cons_rows, Hwf|].
  intros r (x & r' & -> & Hr). cbn in *. by rewrite Hr.
Qed.

Lemma rename_wf m t : wf t -> wf (pd.rename m t).
Proof. unfold wf, pd.rename. cbn [columns data]. by rewrite length_map. Qed.

Lemma explode_row_spec i l row :
  (i < length row)%nat -> is_refs (pd.cell i row) ->
  Forall (fun r => length r.2 = length row /\ is_ref (pd.cell i r.2))
    (pd.explode_row i l row).
Proof.
  intros Hi [xs Hxs]. unfold pd.explode_row. rewrite Hxs.
  destruct xs as [|x xs].
  - cbn. constructor; [|constructor]. cbn. rewrite length_insert.
    split; [done|]. left. by apply cell_insert_eq.
  - assert (forall ys, Forall (fun v => exists y, v = VStr y) ys ->
              Forall (fun r : pyval * list pyval =>
                        length r.2 = length row /\ is_ref (pd.cell i r.2))
                (List.map (fun x => (l, <[i := x]> row)) ys)) as H.
    { induction 1 as [|v ys [y ->] _ IH]; cbn; constructor; [|done].
      cbn [snd]. rewrite length_insert. split; [done|].
      rewrite cell_insert_eq by done. right. by eexists. }
    apply (H (List.map VStr (x :: xs))).
    apply List.Forall_forall. intros v (y & <- & _)%in_map_iff. by eexists.
Qed.

Lemma explode_spec c t t' i :
  wf t -> pd.position c (columns t) = Some i ->
  Forall (fun row => is_refs (pd.cell i row)) (data t) ->
  pd.explode c t = Ok t' ->
  wf t' /\ columns t' = columns t /\
  Forall (fun row => is_ref (pd.cell i row)) (data t').
Proof.
  unfold pd.explode. intros Hwf Hi Hrefs. rewrite Hi. intros [= <-].
  cbn [columns data]. unfold wf. cbn [columns data].
  pose proof (position_lt _ _ _ Hi) as Hlt.
  assert (Forall (fun r : pyval * list pyval =>
                    length r.2 = length (columns t) /\ is_ref (pd.cell i r.2))
            (List.concat (zip_with (pd.explode_row i) (pd.labels (index_ t))
                            (data t)))) as H.
  { generalize (pd.labels (index_ t)). unfold wf in Hwf.
    induction (data t) as [|row rows IH]; intros [|l ls]; cbn; try constructor.
    apply Forall_cons in Hwf as [Hrow Hwf]. apply Forall_cons in Hrefs as [Hr Hrefs].
    apply Forall_app. split; [|by apply IH].
    rewrite <- Hrow. apply explode_row_spec; [lia|done]. }
  split; [|split; [done|]].
  - apply List.Forall_forall. intros row (r & <- & Hr)%in_map_iff.
    rewrite List.Forall_forall in H. by apply H.
  - apply List.Forall_forall. intros row (r & <- & Hr)%in_map_iff.
    rewrite List.Forall_forall in H. by apply H.
Qed.

Lemma split_refs_refs l l' :
  map_result NMSCollection.split_refs l = Ok l' -> Forall is_refs l'.
Proof.
  intros H%map_result_Ok. induction H as [|x y l l' Hxy _ IH]; constructor; [|done].
  unfold NMSCollection.split_refs in Hxy.
  destruct (pd.isnull x).
  - injection Hxy as <-. by exists [].
  - destruct x; try discriminate. injection Hxy as <-. by eexists.
Qed.

Lemma col_Forall (P : pyval -> Prop) c t i l :
  pd.position c (columns t) = Some i -> col c t = Some l ->
  Forall P l -> Forall (fun row => P (pd.cell i row)) (data t).
Proof.
  unfold col. intros ->. cbn. intros [= <-] H. exact (proj1 (List.Forall_map _ _ _) H).
Qed.

Lemma col_Some c t l :
  col c t = Some l ->
  exists i, pd.position c (columns t) = Some i /\
            l = List.map (pd.cell i) (data t).
Proof.
  unfold col. destruct (pd.position _ _) as [i|]; cbn; [|done].
  intros [= <-]. by exists i.
Qed.

Lemma nms_rows_of_columns s rows p4 p5 p6 p7 P :
  Forall is_ref (List.map (pd.cell p4) rows) ->
  Forall2 (fun x y => NMSCollection.jpg_name x = Ok y)
    (List.map (pd.cell p4) rows) (List.map (pd.cell p5) rows) ->
  Forall2 (fun x y => path_cell s x = Ok y) (List.map (pd.cell p5) rows) P ->
  Forall2 (fun x y => is_file_cell s x = Ok y) P (List.map (pd.cell p7) rows) ->
  Forall2 (fun x y => NMSCollection.str x = Ok y) P (List.map (pd.cell p6) rows) ->
  Forall (fun row =>
            (exists r,
               let p := Path.div (img_folder s) (r +:+ ".jpg") in
               pd.cell p4 row = VStr r /\
               pd.cell p5 row = VStr (r +:+ ".jpg") /\
               pd.cell p6 row = VStr (Path.to_string p) /\
               pd.cell p7 row = VBool (bool_decide (is_Some (fs s !! p)))) \/
            (pd.cell p4 row = VNaN /\ pd.cell p5 row = VNaN /\
             pd.cell p6 row = VStr "nan" /\ pd.cell p7 row = VBool false))
    rows.
Proof.
  revert P. induction rows as [|row rows IH]; intros P; [constructor|].
  cbn [List.map]. intros [Hr HL]%Forall_cons HN HP HD HS.
  apply Forall2_cons_1 in HN as [Hn HN].
  apply Forall2_cons_inv_l in HP as (y & P' & Hy & HP & ->).
  apply Forall2_cons_1 in HD as [Hd HD].
  apply Forall2_cons_1 in HS as [Hs HS].
  constructor; [|by eapply IH].
  destruct Hr as [Hr|[r Hr]]; rewrite Hr in Hn; cbn in Hn.
  - right. injection Hn as Hn. rewrite <- Hn in Hy. cbn in Hy.
    injection Hy as <-. cbn in Hd, Hs. injection Hd as Hd. injection Hs as Hs.
    done.
  - left. exists r. injection Hn as Hn. rewrite <- Hn in Hy. cbn in Hy.
    injection Hy as <-. cbn in Hd, Hs. injection Hd as Hd. injection Hs as Hs.
    done.
Qed.

(** X23. When [load_original_csvs] returns, nothing but the table of
    the collection has changed, and every row of the table is of one of
    two kinds. A row with an image reference [r] as [img_loc] has
    [r + '.jpg'] as [img_name], the string of that name under the image
    folder as [img_path], and [downloaded] tells whether that file was
    in the folder when the table was built. A row without a reference
    has [NaN] as [img_loc] and [img_name], the string [nan] as
    [img_path], and [downloaded] false. *)
Theorem load_original_csvs_rows dfs s s' :
  NMSCollection.load_original_csvs dfs s = (s', Ok tt) ->
  exists t, s' = set_df (Some t) s /\ Forall (nms_row s) (data t).
Proof.
  unfold NMSCollection.load_original_csvs. intros H.
  rewrite bindM_lift in H.
  destruct (NMSCollection.common_columns dfs) as [cn|]; [|discriminate].
  rewrite bindM_lift in H.
  destruct (map_result (pd.project cn) dfs) as [dfs'|] eqn:E1; [|discriminate].
  rewrite bindM_lift in H.
  destruct (pd.drop_duplicates _ _) as [t1|] eqn:E2; [|discriminate].
  rewrite bindM_lift in H.
  destruct (pd.reset_index t1) as [t2|] eqn:E3; [|discriminate].
  rewrite bindM_lift in H.
  destruct (pd.getitem _ "img_loc") as [l0|] eqn:E4; [|discriminate].
  rewrite bindM_lift in H.
  destruct (map_result NMSCollection.split_refs l0) as [l1|] eqn:E5; [|discriminate].
  rewrite bindM_lift in H.
  destruct (pd.explode _ _) as [t3|] eqn:E6; [|discriminate].
  rewrite bindM_lift in H.
  destruct (pd.getattr t3 "img_loc") as [L|] eqn:E7; [|discriminate].
  rewrite bindM_lift in H.
  destruct (map_result NMSCollection.jpg_name L) as [N|] eqn:E8; [|discriminate].
  rewrite bindM_gets, bindM_lift in H.
  destruct (pd.getattr _ "img_name") as [N'|] eqn:E9; [|discriminate].
  rewrite bindM_lift in H. fold (path_cell s) in H.
  destruct (map_result (path_cell s) N') as [P|] eqn:E10; [|discriminate].
  rewrite bindM_lift in H.
  destruct (pd.getattr _ "img_path") as [P'|] eqn:E11; [|discriminate].
  unfold bindM at 1 in H.
  rewrite (mapM_pure _ is_file_cell) in H.
  2: { intros x. unfold is_file_cell. destruct (pd.isnull x); [done|].
       by destruct x. }
  destruct (map_result (is_file_cell s) P') as [D|] eqn:E12; [|discriminate].
  rewrite bindM_lift in H.
  destruct (pd.getitem _ "img_path") as [P''|] eqn:E13; [|discriminate].
  rewrite bindM_lift in H.
  destruct (map_result NMSCollection.str P'') as [S|] eqn:E14; [|discriminate].
  rewrite bindM_lift in H.
  destruct (pd.project NMSCollection.columns _) as [tf|] eqn:E15; [|discriminate].
  injection H as <-. exists tf. split; [done|].
  (* the rows are as long as the header all along *)
  assert (wf (pd.concat cn dfs')) as W0.
  { apply concat_wf. apply map_result_Ok in E1. clear -E1.
    induction E1 as [|t t' l l' Ht _ IH]; constructor; [|done].
    by apply project_spec in Ht as (? & ? & _). }
  apply drop_duplicates_wf in E2 as (W1 & _); [|done].
  pose proof (reset_index_wf _ _ W1 E3) as W2.
  apply (rename_wf NMSCollection.col_mapping) in W2.
  set (t2r := pd.rename NMSCollection.col_mapping t2) in *.
  apply getitem_col in E4. pose proof (col_length _ _ _ E4) as Hl0.
  pose proof (map_result_length _ _ _ E5) as Hl1.
  destruct (setitem_spec "img_loc" l1 t2r W2 ltac:(congruence))
    as (W3 & _ & _ & C3 & _).
  set (t2s := pd.setitem "img_loc" l1 t2r) in *.
  destruct (col_Some _ _ _ C3) as (i & Hi & Hl1').
  apply (explode_spec _ _ _ i W3 Hi) in E6 as (W4 & Hc4 & R4).
  2: { eapply col_Forall; [exact Hi|exact C3|]. by eapply split_refs_refs. }
  apply getattr_col in E7. pose proof (col_length _ _ _ E7) as HlL.
  assert (Forall is_ref L) as RL.
  { unfold col in E7. rewrite Hc4, Hi in E7. cbn in E7. injection E7 as <-.
    by apply List.Forall_map. }
  pose proof (map_result_length _ _ _ E8) as HlN.
  destruct (setitem_spec "img_name" N t3 W4 ltac:(congruence))
    as (W5 & L5 & _ & C5 & O5).
  set (t5 := pd.setitem "img_name" N t3) in *.
  apply getattr_col in E9. rewrite C5 in E9. injection E9 as <-.
  pose proof (map_result_length _ _ _ E10) as HlP.
  destruct (setitem_spec "img_path" P t5 W5 ltac:(congruence))
    as (W6 & L6 & _ & C6 & O6).
  set (t6 := pd.setitem "img_path" P t5) in *.
  apply getattr_col in E11. rewrite C6 in E11. injection E11 as <-.
  pose proof (map_result_length _ _ _ E12) as HlD.
  destruct (setitem_spec "downloaded" D t6 W6 ltac:(congruence))
    as (W7 & L7 & _ & C7 & O7).
  set (t7 := pd.setitem "downloaded" D t6) in *.
  apply getitem_col in E13. rewrite (O7 "img_path" P) in E13 by done.
  injection E13 as <-.
  pose proof (map_result_length _ _ _ E14) as HlS.
  destruct (setitem_spec "img_path" S t7 W7 ltac:(congruence))
    as (W8 & L8 & _ & C8 & O8).
  set (t8 := pd.setitem "img_path" S t7) in *.
  assert (col "img_loc" t8 = Some L) as CL.
  { apply O8; [done|]. apply O7; [done|]. apply O6; [done|]. by apply O5. }
  assert (col "img_name" t8 = Some N) as CN.
  { apply O8; [done|]. apply O7; [done|]. by apply O6. }
  assert (col "downloaded" t8 = Some D) as CD by (by apply O8).
  apply project_spec in E15 as (_ & _ & ps & Hps & ->).
  unfold NMSCollection.columns in Hps.
  repeat match goal with
  | Hp : Forall2 _ (_ :: _) _ |- _ =>
      let c := fresh "p" in let Hc := fresh "Hp" in
      apply Forall2_cons_inv_l in Hp as (c & ? & Hc & Hp & ->)
  | Hp : Forall2 _ [] _ |- _ => apply Forall2_nil_inv_l in Hp as ->
  end.
  unfold col in CL, CN, CD, C8. rewrite Hp3 in CL. rewrite Hp4 in CN.
  rewrite Hp5 in C8. rewrite Hp6 in CD. cbn [option_map] in CL, CN, CD, C8.
  clearbody t8 t7 t6 t5 t2s t2r.
  injection CL as <-. injection CN as <-. injection CD as <-.
  injection C8 as <-.
  apply List.Forall_map.
  apply map_result_Ok in E8, E10, E12, E14.
  exact (nms_rows_of_columns s (data t8) p3 p4 p5 p6 P RL E8 E10 E12 E14).
Qed.

(** At the export of one object with two image references. *)
Lemma load_original_csvs_rows_witness :
  exists t, df nms_loaded = Some t /\ Forall (nms_row nms_fresh) (data t).
Proof.
  destruct (load_original_csvs_rows [nms_export] nms_fresh nms_loaded)
    as (t & Ht & Hrows); [vm_compute; reflexivity|].
  exists t. split; [by rewrite Ht|exact Hrows].
Defined.
